(** * pygento/agento_video.py: video generation service, poller and cache

    A shallow embedding of [GeminiVideoService] and [GeminiVideoGenerator]
    and the properties of the cache key, the cache lookup, the poll loop,
    the result extraction and the download.

    Conventions.
    - A Python [str] is a [string] whose characters are the code points
      U+0000..U+00FF; [lower], [strip] and [encode] below are Python's on
      that range.  [bytes] is [list byte].
    - Time is counted in milliseconds; the clock advances by the duration
      of each request and of each sleep.
    - A function that reads files, uses the network or sleeps is a state
      transformer on a [World] that returns a value, raises an exception or
      runs out of the steps it was given.
    - Whether a write to a file goes through is for the disk to decide;
      a write that fails may leave a part of the bytes in the file.
    - Writes to stdout and stderr (debug output, the spinner) are not part
      of the model. *)

From Stdlib Require Import ZArith Lia Strings.Ascii Strings.String Strings.Byte DecimalString.
From stdpp Require Import base option list gmap strings.

Local Open Scope string_scope.
Local Open Scope Z_scope.

Set Warnings "-register-all".

Abbreviation bytes := (list byte).

(** ** Python [str] operations *)
Module PyStr.

Definition code (c : ascii) : Z := Z.of_N (N_of_ascii c).
Definition chr (z : Z) : ascii := ascii_of_N (Z.to_N z).

Definition between (lo hi n : Z) : bool := (lo <=? n) && (n <=? hi).

(** [c.isupper()] for a code point below 256: A-Z, and the accented capitals
    U+00C0..U+00DE without the multiplication sign U+00D7. *)
Definition is_upper (c : ascii) : bool :=
  let n := code c in
  between 65 90 n || (between 192 222 n && negb (n =? 215)).

Definition lower_char (c : ascii) : ascii :=
  if is_upper c then chr (code c + 32) else c.

(** [s.lower()] *)
Fixpoint lower (s : string) : string :=
  match s with
  | EmptyString => EmptyString
  | String c r => String (lower_char c) (lower r)
  end.

(** [c.isspace()] for a code point below 256. *)
Definition isspace (c : ascii) : bool :=
  let n := code c in
  between 9 13 n || between 28 32 n || (n =? 133) || (n =? 160).

Fixpoint lstrip_by (p : ascii -> bool) (s : string) : string :=
  match s with
  | EmptyString => EmptyString
  | String c r => if p c then lstrip_by p r else s
  end.

Fixpoint rstrip_by (p : ascii -> bool) (s : string) : string :=
  match s with
  | EmptyString => EmptyString
  | String c r =>
      match rstrip_by p r with
      | EmptyString => if p c then EmptyString else String c EmptyString
      | r' => String c r'
      end
  end.

(** [s.strip()], [s.lstrip(ch)], [s.rstrip(ch)] *)
Definition strip (s : string) : string := rstrip_by isspace (lstrip_by isspace s).
Definition lstrip_char (ch : ascii) (s : string) : string := lstrip_by (Ascii.eqb ch) s.
Definition rstrip_char (ch : ascii) (s : string) : string := rstrip_by (Ascii.eqb ch) s.

(** [s.startswith(p)] *)
Definition startswith (p s : string) : bool := String.prefix p s.

(** [needle in hay] *)
Fixpoint contains (needle hay : string) : bool :=
  String.prefix needle hay ||
  match hay with
  | EmptyString => false
  | String _ r => contains needle r
  end.

(** [s.replace(a, b)] for one-character [a] and [b] *)
Fixpoint replace_char (a b : ascii) (s : string) : string :=
  match s with
  | EmptyString => EmptyString
  | String c r => String (if Ascii.eqb c a then b else c) (replace_char a b r)
  end.

(** [s.split(ch)[0]]: the text before the first [ch] *)
Fixpoint before_char (ch : ascii) (s : string) : string :=
  match s with
  | EmptyString => EmptyString
  | String c r => if Ascii.eqb c ch then EmptyString else String c (before_char ch r)
  end.

(** [s.split(ch)] *)
Fixpoint split_char (ch : ascii) (s : string) : list string :=
  match s with
  | EmptyString => [EmptyString]
  | String c r =>
      if Ascii.eqb c ch then EmptyString :: split_char ch r
      else match split_char ch r with
           | [] => [String c EmptyString]
           | w :: ws => String c w :: ws
           end
  end.

(** [sep.join(l)] *)
Fixpoint join (sep : string) (l : list string) : string :=
  match l with
  | [] => EmptyString
  | [x] => x
  | x :: r => x +:+ sep +:+ join sep r
  end.

(** [s.rfind(ch)]: the index of the last [ch], if any *)
Fixpoint rfind_char (ch : ascii) (s : string) : option nat :=
  match s with
  | EmptyString => None
  | String c r =>
      match rfind_char ch r with
      | Some i => Some (S i)
      | None => if Ascii.eqb c ch then Some O else None
      end
  end.

(** [str(n)] for an int *)
Definition of_Z (n : Z) : string := NilZero.string_of_int (Z.to_int n).

(** [s.encode()]: UTF-8 of code points below 256 *)
Definition encode_char (c : ascii) : bytes :=
  let n := code c in
  if n <? 128 then [byte_of_ascii c]
  else
    [byte_of_ascii (chr (Z.lor 192 (Z.shiftr n 6)));
     byte_of_ascii (chr (Z.lor 128 (Z.land n 63)))].

Fixpoint encode (s : string) : bytes :=
  match s with
  | EmptyString => []
  | String c r => encode_char c ++ encode r
  end.

(** The text from the first character that satisfies [p], and the text
    before it. *)
Fixpoint drop_until (p : ascii -> bool) (s : string) : string :=
  match s with
  | EmptyString => EmptyString
  | String c r => if p c then s else drop_until p r
  end.

Fixpoint take_until (p : ascii -> bool) (s : string) : string :=
  match s with
  | EmptyString => EmptyString
  | String c r => if p c then EmptyString else String c (take_until p r)
  end.

Definition one_of (cs : string) (c : ascii) : bool :=
  existsb (Ascii.eqb c) (list_ascii_of_string cs).

(** [s[-1]], if any *)
Fixpoint last_char (s : string) : option ascii :=
  match s with
  | EmptyString => None
  | String c EmptyString => Some c
  | String _ r => last_char r
  end.

(** truth value of a [str] *)
Definition truthy (s : string) : bool :=
  match s with EmptyString => false | _ => true end.

(** [s.strip(ch)] for a one-character [ch] *)
Definition strip_char (ch : ascii) (s : string) : string :=
  rstrip_by (Ascii.eqb ch) (lstrip_by (Ascii.eqb ch) s).

(** [s.split(ch, 1)[1]]: the text after the first [ch] ([""] without one) *)
Fixpoint after_char (ch : ascii) (s : string) : string :=
  match s with
  | EmptyString => EmptyString
  | String c r => if Ascii.eqb c ch then r else after_char ch r
  end.

Fixpoint drop (n : nat) (s : string) : string :=
  match n, s with
  | S n', String _ r => drop n' r
  | _, _ => s
  end.

(** [s.replace(old, new)] for a non-empty [old]: the occurrences of [old]
    are replaced from left to right, without overlap. [skip] counts the
    characters of an occurrence still to pass over. *)
Fixpoint replace_from (skip : nat) (old new s : string) : string :=
  match s with
  | EmptyString => EmptyString
  | String c r =>
      match skip with
      | S k => replace_from k old new r
      | O =>
          if String.prefix old s
          then new +:+ replace_from (String.length old - 1) old new r
          else String c (replace_from O old new r)
      end
  end.

Definition replace (old new s : string) : string := replace_from O old new s.

(** The double quote character. *)
Definition dquote : ascii := "034"%char.

End PyStr.

(** ** [hashlib.md5(data).hexdigest()] (RFC 1321) *)
Module MD5.

Definition mask32 : Z := 4294967295.
Definition add32 (a b : Z) : Z := Z.land (a + b) mask32.
Definition not32 (a : Z) : Z := Z.lxor a mask32.
Definition rotl32 (x n : Z) : Z :=
  Z.lor (Z.land (Z.shiftl x n) mask32) (Z.shiftr x (32 - n)).

Definition K : list Z :=
  [ 3614090360; 3905402710; 606105819; 3250441966;
    4118548399; 1200080426; 2821735955; 4249261313;
    1770035416; 2336552879; 4294925233; 2304563134;
    1804603682; 4254626195; 2792965006; 1236535329;
    4129170786; 3225465664; 643717713; 3921069994;
    3593408605; 38016083; 3634488961; 3889429448;
    568446438; 3275163606; 4107603335; 1163531501;
    2850285829; 4243563512; 1735328473; 2368359562;
    4294588738; 2272392833; 1839030562; 4259657740;
    2763975236; 1272893353; 4139469664; 3200236656;
    681279174; 3936430074; 3572445317; 76029189;
    3654602809; 3873151461; 530742520; 3299628645;
    4096336452; 1126891415; 2878612391; 4237533241;
    1700485571; 2399980690; 4293915773; 2240044497;
    1873313359; 4264355552; 2734768916; 1309151649;
    4149444226; 3174756917; 718787259; 3951481745 ].

Definition shifts : list Z :=
  [ 7; 12; 17; 22; 7; 12; 17; 22; 7; 12; 17; 22; 7; 12; 17; 22;
    5; 9; 14; 20; 5; 9; 14; 20; 5; 9; 14; 20; 5; 9; 14; 20;
    4; 11; 16; 23; 4; 11; 16; 23; 4; 11; 16; 23; 4; 11; 16; 23;
    6; 10; 15; 21; 6; 10; 15; 21; 6; 10; 15; 21; 6; 10; 15; 21 ].

Record state := State { sa : Z; sb : Z; sc : Z; sd : Z }.

Definition init : state :=
  State 1732584193 4023233417 2562383102 271733878.

(** The mixing function and the message word index of operation [i]. *)
Definition mix (i : nat) (b c d : Z) : Z * nat :=
  if (i <? 16)%nat then
    (Z.lor (Z.land b c) (Z.land (not32 b) d), i)
  else if (i <? 32)%nat then
    (Z.lor (Z.land d b) (Z.land (not32 d) c), ((5 * i + 1) mod 16)%nat)
  else if (i <? 48)%nat then
    (Z.lxor (Z.lxor b c) d, ((3 * i + 5) mod 16)%nat)
  else
    (Z.lxor c (Z.lor b (not32 d)), ((7 * i) mod 16)%nat).

Definition step (m : list Z) (st : state) (i : nat) : state :=
  let '(f, g) := mix i (sb st) (sc st) (sd st) in
  let x := add32 (add32 (add32 f (sa st)) (nth i K 0)) (nth g m 0) in
  State (sd st) (add32 (sb st) (rotl32 x (nth i shifts 0))) (sb st) (sc st).

Definition process_block (st : state) (m : list Z) : state :=
  let r := fold_left (step m) (seq 0 64) st in
  State (add32 (sa st) (sa r)) (add32 (sb st) (sb r))
        (add32 (sc st) (sc r)) (add32 (sd st) (sd r)).

(** Little-endian bytes of a word, and back. *)
Definition le_bytes (n : nat) (x : Z) : list Z :=
  map (fun k => Z.land (Z.shiftr x (8 * Z.of_nat k)) 255) (seq 0 n).

Fixpoint words_of_bytes (l : list Z) : list Z :=
  match l with
  | a :: b :: c :: d :: r =>
      (a + Z.shiftl b 8 + Z.shiftl c 16 + Z.shiftl d 24) :: words_of_bytes r
  | _ => []
  end.

Definition pad (msg : list Z) : list Z :=
  let len := Z.of_nat (length msg) in
  msg ++ [128] ++ repeat 0 (Z.to_nat ((55 - len) mod 64)) ++ le_bytes 8 (8 * len).

Fixpoint blocks (n : nat) (ws : list Z) (st : state) : state :=
  match n with
  | O => st
  | S n' => blocks n' (drop 16 ws) (process_block st (take 16 ws))
  end.

Definition digest (data : bytes) : list Z :=
  let ws := words_of_bytes (pad (map (fun b => Z.of_N (Byte.to_N b)) data)) in
  let st := blocks (length ws / 16) ws init in
  le_bytes 4 (sa st) ++ le_bytes 4 (sb st) ++ le_bytes 4 (sc st) ++ le_bytes 4 (sd st).

Definition hex_digit (n : Z) : ascii :=
  if n <? 10 then PyStr.chr (48 + n) else PyStr.chr (87 + n).

Fixpoint hex (l : list Z) : string :=
  match l with
  | [] => EmptyString
  | x :: r => String (hex_digit (Z.shiftr x 4)) (String (hex_digit (Z.land x 15)) (hex r))
  end.

Definition hexdigest (data : bytes) : string := hex (digest data).

End MD5.

(** ** [base64.b64encode(data).decode('utf-8')] *)
Module Base64.

Definition alphabet : string :=
  "ABCDEFGHIJKLMNOPQRSTUVWXYZabcdefghijklmnopqrstuvwxyz0123456789+/".

Definition sextet (n : Z) : ascii :=
  match String.get (Z.to_nat n) alphabet with
  | Some c => c
  | None => "="%char
  end.

Fixpoint encode_Z (l : list Z) : string :=
  match l with
  | [] => EmptyString
  | [a] =>
      String (sextet (Z.shiftr a 2))
        (String (sextet (Z.shiftl (Z.land a 3) 4)) "==")
  | [a; b] =>
      String (sextet (Z.shiftr a 2))
        (String (sextet (Z.lor (Z.shiftl (Z.land a 3) 4) (Z.shiftr b 4)))
           (String (sextet (Z.shiftl (Z.land b 15) 2)) "="))
  | a :: b :: c :: r =>
      String (sextet (Z.shiftr a 2))
        (String (sextet (Z.lor (Z.shiftl (Z.land a 3) 4) (Z.shiftr b 4)))
           (String (sextet (Z.lor (Z.shiftl (Z.land b 15) 2) (Z.shiftr c 6)))
              (String (sextet (Z.land c 63)) (encode_Z r))))
  end.

Definition b64encode (data : bytes) : string :=
  encode_Z (map (fun b => Z.of_N (Byte.to_N b)) data).

End Base64.

Arguments MD5.hexdigest : simpl never.
Arguments Base64.b64encode : simpl never.
Arguments PyStr.encode : simpl never.
Arguments PyStr.of_Z : simpl never.

(** ** [pathlib.PurePosixPath] *)
Module PurePath.

(** A path is its root ([""], ["/"] or ["//"]) and its components. *)
Record t := Path { root : string; parts : list string }.

Definition parse_root (s : string) : string :=
  if PyStr.startswith "//" s && negb (PyStr.startswith "///" s) then "//"
  else if PyStr.startswith "/" s then "/"
  else "".

Definition is_part (x : string) : bool :=
  negb (x =? "")%string && negb (x =? ".")%string.

(** [Path(s)] *)
Definition of_str (s : string) : t :=
  Path (parse_root s) (List.filter is_part (PyStr.split_char "/" s)).

(** [str(p)] *)
Definition to_str (p : t) : string :=
  match root p, parts p with
  | EmptyString, [] => "."
  | r, ps => r +:+ PyStr.join "/" ps
  end.

Definition is_absolute (p : t) : bool := PyStr.truthy (root p).

(** [p / s] *)
Definition joinpath (p : t) (s : string) : t :=
  let q := of_str s in
  if is_absolute q then q else Path (root p) (parts p ++ parts q).

Fixpoint strip_prefix (pre l : list string) : option (list string) :=
  match pre, l with
  | [], _ => Some l
  | x :: pre', y :: l' => if (x =? y)%string then strip_prefix pre' l' else None
  | _ :: _, [] => None
  end.

(** [p.relative_to(base)]; [None] is [ValueError]. *)
Definition relative_to (p base : t) : option t :=
  if (root p =? root base)%string then
    match strip_prefix (parts base) (parts p) with
    | Some rest => Some (Path "" rest)
    | None => None
    end
  else None.

(** [p.name] *)
Definition name (p : t) : string := List.last (parts p) "".

Fixpoint take_str (n : nat) (s : string) : string :=
  match n, s with
  | S n', String c r => String c (take_str n' r)
  | _, _ => EmptyString
  end.

Fixpoint drop_str (n : nat) (s : string) : string :=
  match n, s with
  | S n', String _ r => drop_str n' r
  | _, _ => s
  end.

(** [p.stem] *)
Definition stem (p : t) : string :=
  let nm := name p in
  match PyStr.rfind_char "."%char nm with
  | Some i =>
      if (0 <? i)%nat && (i <? String.length nm - 1)%nat then take_str i nm else nm
  | None => nm
  end.

End PurePath.

(** ** Values decoded from JSON

    Floating-point numbers are left out. An object is the list of the
    items of the [dict], in insertion order, with distinct keys. *)
Inductive json :=
| JNull
| JBool (b : bool)
| JInt (n : Z)
| JStr (s : string)
| JArr (l : list json)
| JObj (o : list (string * json)).

(** ** Exceptions and results *)
Inductive exn_class :=
| RuntimeError | FileNotFoundError | IsADirectoryError | OSError
| RequestException
| TypeError | KeyError | AttributeError | IndexError | ValueError.

(** [Exn cls msg]: an exception of class [cls] (or of a subclass of it, for
    [RequestException]) with [str(e) = msg]. *)
Inductive exn := Exn (cls : exn_class) (msg : string).

Definition exn_cls (e : exn) : exn_class := let 'Exn c _ := e in c.
Definition exn_str (e : exn) : string := let 'Exn _ m := e in m.

Definition is_request_exception (e : exn) : bool :=
  match exn_cls e with RequestException => true | _ => false end.

(** The outcome of a call: a value, a raised exception, or the step budget
    of a loop exhausted before the call finished. *)
Inductive res (A : Type) :=
| Ok (a : A)
| Raise (e : exn)
| OutOfFuel.
Arguments Ok {A} a.
Arguments Raise {A} e.
Arguments OutOfFuel {A}.

Definition rbind {A B} (r : res A) (k : A -> res B) : res B :=
  match r with
  | Ok a => k a
  | Raise e => Raise e
  | OutOfFuel => OutOfFuel
  end.

Notation "'let?' x ':=' c 'in' k" := (rbind c (fun x => k))
  (at level 10, x pattern, c at level 100, k at level 200).

(** ** The environment of a run *)
Inductive fs_node := File (content : bytes) | Dir.

Inductive request :=
| GET (url : string) (headers : list (string * string))
| POST (url : string) (headers : list (string * string)) (payload : json).

(** A [requests.Response]: the final response after redirects.
    [json_body] is what [response.json()] gives: the decoded value, or the
    text of the decoding error. *)
Record response := Response {
  status_code : Z;
  reason : string;
  resp_url : string;
  content_type : option string;
  content : bytes;
  json_body : string + json
}.

(** What the network answers to a request: how long the call took, in
    milliseconds, and either the text of the [requests.RequestException]
    it raised or the response. *)
Record reply := Reply { duration : Z; outcome : string + response }.

(** The file system maps the text of a path to its node; the remote side
    answers a request knowing the requests made so far; [clock] is the time
    in milliseconds; [trace] lists the requests made, oldest first. *)
Record World := MkWorld {
  fs : gmap string fs_node;
  clock : Z;
  remote : list request -> request -> reply;
  trace : list request
}.

Definition M (A : Type) : Type := World -> res A * World.

Definition ret {A} (a : A) : M A := fun w => (Ok a, w).
Definition raise {A} (e : exn) : M A := fun w => (Raise e, w).
Definition out_of_fuel {A} : M A := fun w => (OutOfFuel, w).
Definition lift {A} (r : res A) : M A := fun w => (r, w).

Definition bind {A B} (m : M A) (k : A -> M B) : M B :=
  fun w =>
    match m w with
    | (Ok a, w') => k a w'
    | (Raise e, w') => (Raise e, w')
    | (OutOfFuel, w') => (OutOfFuel, w')
    end.

Notation "'let*' x ':=' c 'in' k" := (bind c (fun x => k))
  (at level 10, x pattern, c at level 100, k at level 200).

(** [try: m except <sel> as e: h e] *)
Definition try_except {A} (m : M A) (sel : exn -> bool) (h : exn -> M A) : M A :=
  fun w =>
    match m w with
    | (Raise e, w') => if sel e then h e w' else (Raise e, w')
    | r => r
    end.

(** [time.time()], [time.sleep(ms / 1000)] *)
Definition time_time : M Z := fun w => (Ok (clock w), w).

Definition time_sleep (ms : Z) : M unit :=
  fun w =>
    if ms <? 0 then (Raise (Exn ValueError "sleep length must be non-negative"), w)
    else (Ok tt, MkWorld (fs w) (clock w + ms) (remote w) (trace w)).

(** [requests.get] / [requests.post] *)
Definition http (req : request) : M response :=
  fun w =>
    let r := remote w (trace w) req in
    let w' := MkWorld (fs w) (clock w + duration r) (remote w) (trace w ++ [req]) in
    match outcome r with
    | inl msg => (Raise (Exn RequestException msg), w')
    | inr resp => (Ok resp, w')
    end.

(** [response.raise_for_status()] *)
Definition raise_for_status (r : response) : res unit :=
  let st := status_code r in
  if (400 <=? st) && (st <? 500) then
    Raise (Exn RequestException
             (PyStr.of_Z st +:+ " Client Error: " +:+ reason r +:+ " for url: " +:+ resp_url r))
  else if (500 <=? st) && (st <? 600) then
    Raise (Exn RequestException
             (PyStr.of_Z st +:+ " Server Error: " +:+ reason r +:+ " for url: " +:+ resp_url r))
  else Ok tt.

(** [response.json()]; the decoding error of [requests] is a
    [RequestException]. *)
Definition response_json (r : response) : res json :=
  match json_body r with
  | inl msg => Raise (Exn RequestException msg)
  | inr j => Ok j
  end.

(** [p.exists()] *)
Definition path_exists (p : PurePath.t) : M bool :=
  fun w => (Ok (bool_decide (is_Some (fs w !! PurePath.to_str p))), w).

(** [open(p, 'rb').read()] *)
Definition read_file (p : PurePath.t) : M bytes :=
  fun w =>
    let s := PurePath.to_str p in
    match fs w !! s with
    | Some (File data) => (Ok data, w)
    | Some Dir => (Raise (Exn IsADirectoryError ("[Errno 21] Is a directory: '" +:+ s +:+ "'")), w)
    | None => (Raise (Exn FileNotFoundError ("[Errno 2] No such file or directory: '" +:+ s +:+ "'")), w)
    end.

(** How writing a file ends. [open(p, 'wb')] fails and leaves the file
    system as it was; or it creates or truncates the file and [f.write]
    (or the [close] that flushes it) fails once [written] bytes have
    reached the file; or all the bytes are written. *)
Inductive write_outcome :=
| OpenFails (e : exn)
| WriteFails (written : nat) (e : exn)
| Written.

(** The disk decides how a write ends, from the state of the world, the
    path and the bytes (a missing parent directory, a read-only or a full
    file system, ...). *)
Class Disk := {
  write_ends : World -> string -> bytes -> write_outcome
}.

(** [with open(p, 'wb') as f: f.write(data)]. Opening a directory fails;
    the other failures are the disk's. After a failed [f.write] the file
    exists and holds what had been written. *)
Definition write_file `{Disk} (p : PurePath.t) (data : bytes) : M unit :=
  fun w =>
    let s := PurePath.to_str p in
    match fs w !! s with
    | Some Dir => (Raise (Exn IsADirectoryError ("[Errno 21] Is a directory: '" +:+ s +:+ "'")), w)
    | _ =>
        match write_ends w s data with
        | OpenFails e => (Raise e, w)
        | WriteFails written e =>
            (Raise e, MkWorld (<[s := File (take written data)]> (fs w))
                        (clock w) (remote w) (trace w))
        | Written =>
            (Ok tt, MkWorld (<[s := File data]> (fs w)) (clock w) (remote w) (trace w))
        end
    end.

(** [os.environ] *)
Abbreviation environ := (gmap string string).

(** [os.getenv(a) or os.getenv(b)]: the first of the two that is set and
    not empty. *)
Definition getenv_or (env : environ) (a b : string) : option string :=
  match env !! a with
  | Some (String c r) => Some (String c r)
  | _ => env !! b
  end.

(** ** Dynamic operations on decoded JSON values *)
Definition type_name (v : json) : string :=
  match v with
  | JNull => "NoneType"
  | JBool _ => "bool"
  | JInt _ => "int"
  | JStr _ => "str"
  | JArr _ => "list"
  | JObj _ => "dict"
  end.

Fixpoint assoc {A} (k : string) (o : list (string * A)) : option A :=
  match o with
  | [] => None
  | (k', v) :: r => if (k =? k')%string then Some v else assoc k r
  end.

Definition is_str (k : string) (v : json) : bool :=
  match v with JStr s => (k =? s)%string | _ => false end.

(** [k in v] *)
Definition py_in (k : string) (v : json) : res bool :=
  match v with
  | JObj o => Ok (bool_decide (is_Some (assoc k o)))
  | JArr l => Ok (existsb (is_str k) l)
  | JStr s => Ok (PyStr.contains k s)
  | _ => Raise (Exn TypeError ("argument of type '" +:+ type_name v +:+ "' is not iterable"))
  end.

(** [v[k]] for a string [k] *)
Definition py_getitem (v : json) (k : string) : res json :=
  match v with
  | JObj o =>
      match assoc k o with
      | Some x => Ok x
      | None => Raise (Exn KeyError ("'" +:+ k +:+ "'"))
      end
  | JArr _ => Raise (Exn TypeError "list indices must be integers or slices, not str")
  | JStr _ => Raise (Exn TypeError "string indices must be integers, not 'str'")
  | _ => Raise (Exn TypeError ("'" +:+ type_name v +:+ "' object is not subscriptable"))
  end.

(** [v[0]] *)
Definition py_getitem0 (v : json) : res json :=
  match v with
  | JArr (x :: _) => Ok x
  | JArr [] => Raise (Exn IndexError "list index out of range")
  | JStr (String c _) => Ok (JStr (String c EmptyString))
  | JStr EmptyString => Raise (Exn IndexError "string index out of range")
  | JObj _ => Raise (Exn KeyError "0")
  | _ => Raise (Exn TypeError ("'" +:+ type_name v +:+ "' object is not subscriptable"))
  end.

(** [v.get(k, default)] *)
Definition py_get (v : json) (k : string) (default : json) : res json :=
  match v with
  | JObj o => Ok (match assoc k o with Some x => x | None => default end)
  | _ => Raise (Exn AttributeError ("'" +:+ type_name v +:+ "' object has no attribute 'get'"))
  end.

(** truth value *)
Definition py_truthy (v : json) : bool :=
  match v with
  | JNull => false
  | JBool b => b
  | JInt n => negb (n =? 0)
  | JStr s => PyStr.truthy s
  | JArr l => match l with [] => false | _ => true end
  | JObj o => match o with [] => false | _ => true end
  end.

(** [sep.join(l)] for a list of decoded values: every item must be a [str]. *)
Fixpoint str_items (i : Z) (l : list json) : res (list string) :=
  match l with
  | [] => Ok []
  | JStr s :: r => let? ss := str_items (i + 1) r in Ok (s :: ss)
  | v :: _ =>
      Raise (Exn TypeError ("sequence item " +:+ PyStr.of_Z i +:+ ": expected str instance, "
                            +:+ type_name v +:+ " found"))
  end.

Definition py_join (sep : string) (l : list json) : res string :=
  let? ss := str_items 0 l in Ok (PyStr.join sep ss).

(** ** Library functions taken as given

    [guess_type url] is the first component of [mimetypes.guess_type];
    [urlparse_path url] is [inr] of [urlparse(url).path], or [inl] of the
    text of the [ValueError] that [urlparse] raises; [py_repr v] is
    [repr(v)] for a list or a dict. *)
Class PyLib := {
  guess_type : string -> option string;
  urlparse_path : string -> string + string;
  py_repr : json -> string
}.

(** [str(v)], as an f-string formats a decoded value *)
Definition py_str `{PyLib} (v : json) : string :=
  match v with
  | JNull => "None"
  | JBool true => "True"
  | JBool false => "False"
  | JInt n => PyStr.of_Z n
  | JStr s => s
  | _ => py_repr v
  end.

(** ** [class GeminiVideoService] *)
Module Service.

Record t := Make {
  api_key : string;
  base_url : string;
  model_name : string;
  verbose : bool
}.

Record submit_result := SubmitResult {
  operationName : json;
  done : json;
  status : string
}.

Definition is_available (self : t) : bool := PyStr.truthy (api_key self).

Definition bytes_truthy (b : option bytes) : bool :=
  match b with Some (_ :: _) => true | _ => false end.

Definition opt_str_truthy (s : option string) : bool :=
  match s with Some s' => PyStr.truthy s' | None => false end.

Definition image_part (data : bytes) (mime_type : string) : json :=
  JObj [("bytesBase64Encoded", JStr (Base64.b64encode data));
        ("mimeType", JStr mime_type)].

(** The [payload] that [submit_video_generation_request] builds. *)
Definition submit_payload (prompt : string) (image_data : bytes) (mime_type : string)
    (aspect_ratio : string) (second_image_data : option bytes)
    (second_mime_type : option string) : json :=
  let instance_data :=
    ([("prompt", JStr prompt); ("image", image_part image_data mime_type)] ++
     (if bytes_truthy second_image_data && opt_str_truthy second_mime_type then
        [("image2", image_part (default [] second_image_data) (default "" second_mime_type))]
      else []))%list in
  JObj [("instances", JArr [JObj instance_data]);
        ("parameters",
         JObj (if PyStr.truthy aspect_ratio then [("aspectRatio", JStr aspect_ratio)] else []))].

Definition unavailable_submit : string :=
  "Gemini video service is not available. Please configure the Gemini API key.".

Definition submit_endpoint (self : t) : string :=
  base_url self +:+ "/models/" +:+ model_name self +:+ ":predictLongRunning".

Definition submit_headers (self : t) : list (string * string) :=
  [("x-goog-api-key", api_key self); ("Content-Type", "application/json")].

Definition submit_video_generation_request (self : t) (prompt : string)
    (image_data : bytes) (mime_type : string) (aspect_ratio : string)
    (second_image_data : option bytes) (second_mime_type : option string)
    : M submit_result :=
  if negb (is_available self) then raise (Exn RuntimeError unavailable_submit)
  else
    let payload :=
      submit_payload prompt image_data mime_type aspect_ratio
        second_image_data second_mime_type in
    try_except
      (let* response := http (POST (submit_endpoint self) (submit_headers self) payload) in
       let* _ := lift (raise_for_status response) in
       let* data := lift (response_json response) in
       let* has_name := lift (py_in "name" data) in
       if negb has_name then
         raise (Exn RuntimeError "Invalid API response: operation name not found")
       else
         let* name := lift (py_getitem data "name") in
         let* d := lift (py_get data "done" (JBool false)) in
         ret (SubmitResult name d (if py_truthy d then "completed" else "running")))
      (fun _ => true)
      (fun e =>
         if is_request_exception e then
           raise (Exn RuntimeError ("Gemini API request failed: " +:+ exn_str e))
         else
           raise (Exn RuntimeError ("Video generation failed: " +:+ exn_str e))).

(** The default values of [max_wait_seconds] and [poll_interval_seconds]. *)
Definition default_max_wait_seconds : Z := 300.
Definition default_poll_interval_seconds : Z := 10.

Definition timeout_message (max_wait_seconds : Z) : string :=
  "Video generation timeout after " +:+ PyStr.of_Z max_wait_seconds +:+ " seconds".

Definition polling_failed_message (e : exn) : string :=
  "Video operation polling failed: " +:+ exn_str e.

Definition poll_headers (self : t) : list (string * string) :=
  [("x-goog-api-key", api_key self)].

(** The wait between two polls. Without [verbose] the loop
    [while slept < poll_interval_seconds] sleeps half a second at a time,
    that is [2 * poll_interval_seconds] times for an [int] interval. *)
Fixpoint sleep_halves (n : nat) : M unit :=
  match n with
  | O => ret tt
  | S n' => let* _ := time_sleep 500 in sleep_halves n'
  end.

Definition wait_interval (self : t) (poll_interval_seconds : Z) : M unit :=
  if verbose self then time_sleep (1000 * poll_interval_seconds)
  else sleep_halves (Z.to_nat (2 * poll_interval_seconds)).

(** The [while True] loop of [poll_operation_status]; [fuel] bounds the
    number of iterations. *)
Fixpoint poll_loop (fuel : nat) (self : t) (poll_url : string) (start_time : Z)
    (max_wait_seconds poll_interval_seconds : Z) : M json :=
  match fuel with
  | O => out_of_fuel
  | S fuel' =>
      let* now := time_time in
      let elapsed := now - start_time in
      if elapsed >? 1000 * max_wait_seconds then
        raise (Exn RuntimeError (timeout_message max_wait_seconds))
      else
        let* finished :=
          try_except
            (let* response := http (GET poll_url (poll_headers self)) in
             let* _ := lift (raise_for_status response) in
             let* data := lift (response_json response) in
             let* d := lift (py_get data "done" (JBool false)) in
             if py_truthy d then ret (Some data)
             else
               let* _ := wait_interval self poll_interval_seconds in
               ret None)
            is_request_exception
            (fun e => raise (Exn RuntimeError (polling_failed_message e))) in
        match finished with
        | Some data => ret data
        | None =>
            poll_loop fuel' self poll_url start_time max_wait_seconds poll_interval_seconds
        end
  end.

Definition poll_operation_status (fuel : nat) (self : t) (operation_name : string)
    (max_wait_seconds poll_interval_seconds : Z) : M json :=
  if negb (is_available self) then
    raise (Exn RuntimeError "Gemini video service is not available.")
  else
    let poll_url := base_url self +:+ "/" +:+ operation_name in
    let* start_time := time_time in
    poll_loop fuel self poll_url start_time max_wait_seconds poll_interval_seconds.

Definition no_video_uri : string :=
  "No video URI found in completed operation response".

Definition safety_message (reasons_str filtered_count : string) : string :=
  "Video generation was blocked by safety filters. " +:+
  "Reason(s): " +:+ reasons_str +:+ ". " +:+
  "Filtered count: " +:+ filtered_count +:+ ". " +:+
  "Suggestions: 1) Simplify your prompt (remove brand names, celebrities, or copyrighted content), " +:+
  "2) If audio is the issue, retry with --silent-video flag or add 'silent video' to your prompt, " +:+
  "3) Check that your image doesn't contain restricted content. " +:+
  "You have not been charged for this attempt.".

Definition extract_video_uri `{PyLib} (operation_data : json) : res json :=
  let not_found : res json := Raise (Exn RuntimeError no_video_uri) in
  let? has_response := py_in "response" operation_data in
  if has_response then
    let? response_data := py_getitem operation_data "response" in
    let? has_gen := py_in "generateVideoResponse" response_data in
    if has_gen then
      let? gen_res := py_getitem response_data "generateVideoResponse" in
      let? filtered := py_in "raiMediaFilteredReasons" gen_res in
      if filtered then
        let? reasons := py_getitem gen_res "raiMediaFilteredReasons" in
        let? reasons_str :=
          match reasons with
          | JArr l => py_join ", " l
          | _ => Ok (py_str reasons)
          end in
        let? filtered_count :=
          py_get gen_res "raiMediaFilteredCount"
            (match reasons with JArr l => JInt (Z.of_nat (length l)) | _ => JInt 1 end) in
        Raise (Exn RuntimeError (safety_message reasons_str (py_str filtered_count)))
      else
        let? has_samples := py_in "generatedSamples" gen_res in
        let? nonempty :=
          if has_samples then
            let? samples := py_getitem gen_res "generatedSamples" in Ok (py_truthy samples)
          else Ok false in
        if nonempty then
          let? samples := py_getitem gen_res "generatedSamples" in
          let? sample := py_getitem0 samples in
          let? has_video := py_in "video" sample in
          let? has_uri :=
            if has_video then
              let? video := py_getitem sample "video" in py_in "uri" video
            else Ok false in
          if has_uri then
            let? video := py_getitem sample "video" in py_getitem video "uri"
          else not_found
        else not_found
    else not_found
  else not_found.

(** The URI that [download_video] fetches. *)
Definition download_uri (self : t) (video_uri : string) : string :=
  if PyStr.contains "generativelanguage.googleapis.com" video_uri
     && negb (PyStr.contains "key=" video_uri) then
    let separator := if PyStr.contains "?" video_uri then "&" else "?" in
    video_uri +:+ separator +:+ "key=" +:+ api_key self
  else video_uri.

Definition download_video (self : t) (video_uri : string) : M bytes :=
  let headers := [("x-goog-api-key", api_key self)] in
  let* response := http (GET (download_uri self video_uri) headers) in
  let* _ := lift (raise_for_status response) in
  let video_content := content response in
  match video_content with
  | [] => raise (Exn RuntimeError "Video download returned empty content")
  | _ => ret video_content
  end.

(** [download_video] for a [video_uri] that may be any decoded value, as
    [extract_video_uri] returns it: the [in] tests are Python's, and both the
    f-string and [requests.get] take [str(video_uri)]. *)
Definition download_video_any `{PyLib} (self : t) (video_uri : json) : M bytes :=
  let headers := [("x-goog-api-key", api_key self)] in
  let* on_host := lift (py_in "generativelanguage.googleapis.com" video_uri) in
  let* has_key := if on_host then lift (py_in "key=" video_uri) else ret true in
  let* url :=
    if on_host && negb has_key then
      let* has_query := lift (py_in "?" video_uri) in
      let separator := if has_query then "&" else "?" in
      ret (py_str video_uri +:+ separator +:+ "key=" +:+ api_key self)
    else ret (py_str video_uri) in
  let* response := http (GET url headers) in
  let* _ := lift (raise_for_status response) in
  let video_content := content response in
  match video_content with
  | [] => raise (Exn RuntimeError "Video download returned empty content")
  | _ => ret video_content
  end.

Definition default_base_url : string :=
  "https://generativelanguage.googleapis.com/v1beta".

(** [GeminiVideoService.__init__] *)
Definition init (env : environ) (api_key base_url : option string) (verbose : bool) : t :=
  let key :=
    match api_key with
    | Some (String c r) => String c r
    | _ => default "" (env !! "GEMINI_API_KEY")
    end in
  let url :=
    match base_url with
    | Some (String c r) => PyStr.rstrip_char "/"%char (String c r)
    | _ =>
        match env !! "GOOGLE_API_DOMAIN" with
        | Some (String c r) => PyStr.rstrip_char "/"%char (String c r)
        | _ => default_base_url
        end
    end in
  Make key url "veo-3.1-generate-preview" verbose.

End Service.

(** ** [class GeminiVideoGenerator] *)
Module Generator.

(** The fields of the object as [__init__] leaves them. *)
Record t := Make {
  api_key : string;
  base_path : PurePath.t;
  video_dir : PurePath.t;
  base_url : option string;
  verbose : bool;
  video_service : Service.t
}.

(** The dict that [get_cached_video] returns. *)
Record cached_video := CachedVideo {
  fromCache : bool;
  videoUrl : string;
  videoPath : string;
  status : string
}.

(** The dict that [generate_video_from_image] returns after a submission. *)
Record operation := Operation {
  operationName : json;
  cacheKey : string;
  done : json;
  op_status : string
}.

Inductive gen_result :=
| FromCache (c : cached_video)
| Started (o : operation).

Definition is_available (self : t) : bool := Service.is_available (video_service self).

Definition _get_relative_video_path (self : t) (filename : string) : string :=
  let video_file_path := PurePath.joinpath (video_dir self) filename in
  match PurePath.relative_to video_file_path (base_path self) with
  | Some relative_path => PyStr.replace_char "\"%char "/"%char (PurePath.to_str relative_path)
  | None => filename
  end.

Definition is_url (path_or_url : string) : bool :=
  PyStr.startswith "http://" path_or_url || PyStr.startswith "https://" path_or_url.

Definition download_image_from_url `{PyLib} (url : string) : M (bytes * string) :=
  try_except
    (let* response := http (GET url []) in
     let* _ := lift (raise_for_status response) in
     let mime_type :=
       PyStr.strip (PyStr.before_char ";"%char (default "" (content_type response))) in
     let mime_type :=
       if negb (PyStr.truthy mime_type) || (mime_type =? "application/octet-stream")%string
       then
         match guess_type url with
         | Some (String c r) => String c r
         | _ => "image/jpeg"
         end
       else mime_type in
     ret (content response, mime_type))
    is_request_exception
    (fun e =>
       raise (Exn RuntimeError
                ("Failed to download image from URL " +:+ url +:+ ": " +:+ exn_str e))).

Definition resolve_image_path (self : t) (image_path : string) : option PurePath.t :=
  if is_url image_path then None
  else
    let image_path_obj := PurePath.of_str image_path in
    if PurePath.is_absolute image_path_obj then Some image_path_obj
    else
      let image_path :=
        if PyStr.startswith "pub/media/" image_path
        then PurePath.drop_str 10 image_path else image_path in
      Some (PurePath.joinpath
              (PurePath.joinpath (PurePath.joinpath (base_path self) "pub") "media")
              (PyStr.lstrip_char "/"%char image_path)).

(** The helper [get_image_hash] of [generate_cache_key]. *)
Definition get_image_hash `{PyLib} (path : string) : M string :=
  if is_url path then
    let* (image_data, _) := download_image_from_url path in
    ret (MD5.hexdigest image_data)
  else
    let image_path_obj := PurePath.of_str path in
    let* found := path_exists image_path_obj in
    if negb found then raise (Exn FileNotFoundError ("Image not found: " +:+ path))
    else
      let* data := read_file image_path_obj in
      ret (MD5.hexdigest data).

(** The text that [generate_cache_key] hashes. *)
Definition cache_data (image_hash second_image_hash prompt aspect_ratio : string) : string :=
  image_hash +:+ ":" +:+ second_image_hash +:+ ":" +:+ prompt +:+ ":" +:+ aspect_ratio.

Definition generate_cache_key `{PyLib} (self : t) (image_path prompt aspect_ratio : string)
    (second_image_path : option string) : M string :=
  let* image_hash := get_image_hash image_path in
  let* second_image_hash :=
    match second_image_path with
    | Some (String c r) => get_image_hash (String c r)
    | _ => ret ""
    end in
  ret (MD5.hexdigest
         (PyStr.encode (cache_data image_hash second_image_hash prompt aspect_ratio))).

Definition video_filename (cache_key : string) : string :=
  "veo_" +:+ cache_key +:+ ".mp4".

Definition get_cached_video (self : t) (cache_key : string) : M (option cached_video) :=
  let filename := video_filename cache_key in
  let video_path := PurePath.joinpath (video_dir self) filename in
  let* found := path_exists video_path in
  if found then
    let relative_path := _get_relative_video_path self filename in
    let video_url :=
      match base_url self with
      | Some (String c r) =>
          PyStr.rstrip_char "/"%char (String c r) +:+ "/" +:+ relative_path
      | _ => "/" +:+ relative_path
      end in
    ret (Some (CachedVideo true video_url (PurePath.to_str video_path) "completed"))
  else ret None.

Definition _load_image `{PyLib} (self : t) (image_path : string)
    : M (bytes * string * string) :=
  if is_url image_path then
    let* (image_data, mime_type) := download_image_from_url image_path in
    ret (image_data, mime_type, image_path)
  else
    let not_found : M (bytes * string * string) :=
      raise (Exn FileNotFoundError ("Source image not found: " +:+ image_path)) in
    match resolve_image_path self image_path with
    | None => not_found
    | Some source_path =>
        let* found := path_exists source_path in
        if negb found then not_found
        else
          let* image_data := read_file source_path in
          let mime_type :=
            match guess_type (PurePath.to_str source_path) with
            | Some (String c r) => String c r
            | _ => "image/jpeg"
            end in
          ret (image_data, mime_type, PurePath.to_str source_path)
    end.

Definition or_else (s alt : string) : string :=
  match s with EmptyString => alt | _ => s end.

Definition _get_image_reference_name `{PyLib} (image_path : string) : res string :=
  if is_url image_path then
    match urlparse_path image_path with
    | inl msg => Raise (Exn ValueError msg)
    | inr path => Ok (or_else (PurePath.stem (PurePath.of_str path)) "image")
    end
  else
    let path_obj := PurePath.of_str image_path in
    Ok (or_else (PurePath.stem path_obj) (PurePath.name path_obj)).

(** The keywords whose presence in the lowered prompt counts as a
    reference to the images. *)
Definition reference_keywords (image1_name image2_name : string) : list string :=
  ["image1"; "image2"; "first image"; "second image"; "image 1"; "image 2";
   PyStr.lower image1_name; PyStr.lower image2_name].

Definition has_reference (prompt image1_name image2_name : string) : bool :=
  existsb (fun keyword => PyStr.contains keyword (PyStr.lower prompt))
          (reference_keywords image1_name image2_name).

(** The sentence put before the prompt. *)
Definition context_prefix (image1_name image2_name : string) : string :=
  "Context: You have two images - '" +:+ image1_name +:+ "' (image1/first image) and " +:+
  "'" +:+ image2_name +:+ "' (image2/second image). ".

Definition _enhance_prompt_with_image_references `{PyLib} (prompt image_path : string)
    (second_image_path : option string) (auto_reference : bool) : res string :=
  match second_image_path with
  | Some (String c r) =>
      if negb auto_reference then Ok prompt
      else
        let? image1_name := _get_image_reference_name image_path in
        let? image2_name := _get_image_reference_name (String c r) in
        if has_reference prompt image1_name image2_name then Ok prompt
        else Ok (context_prefix image1_name image2_name +:+ PyStr.strip prompt)
  | _ => Ok prompt
  end.

(** The prompt that [generate_video_from_image] hashes and submits. *)
Definition final_prompt_of `{PyLib} (prompt image_path : string)
    (second_image_path : option string) (auto_reference_images silent_video : bool)
    : res string :=
  let? final_prompt :=
    _enhance_prompt_with_image_references prompt image_path second_image_path
      auto_reference_images in
  Ok (if silent_video then PyStr.strip final_prompt +:+ " silent video" else final_prompt).

Definition generate_video_from_image `{PyLib} (self : t) (image_path prompt : string)
    (aspect_ratio : string) (silent_video : bool) (second_image_path : option string)
    (auto_reference_images : bool) : M gen_result :=
  if negb (is_available self) then raise (Exn RuntimeError Service.unavailable_submit)
  else
    let* (image_data, mime_type, source_path_str) := _load_image self image_path in
    let* (second_image_data, second_mime_type, second_source_path_str) :=
      match second_image_path with
      | Some (String c r) =>
          let* (d, m, s) := _load_image self (String c r) in
          ret (Some d, Some m, Some s)
      | _ => ret (None, None, None)
      end in
    let* final_prompt :=
      lift (final_prompt_of prompt image_path second_image_path
              auto_reference_images silent_video) in
    let* cache_key :=
      generate_cache_key self source_path_str final_prompt aspect_ratio
        second_source_path_str in
    let* cached_video := get_cached_video self cache_key in
    match cached_video with
    | Some c => ret (FromCache c)
    | None =>
        let* result :=
          Service.submit_video_generation_request (video_service self) final_prompt
            image_data mime_type aspect_ratio second_image_data second_mime_type in
        ret (Started (Operation (Service.operationName result) cache_key
                        (Service.done result) (Service.status result)))
    end.

(** [_get_base_url] *)
Definition _get_base_url (env : environ) : option string :=
  match getenv_or env "MAGENTO_BASE_URL" "BASE_URL" with
  | Some (String c r) =>
      let base_url := PyStr.rstrip_char "/"%char (String c r) in
      let base_url :=
        if PyStr.contains "/default/" base_url
        then PyStr.replace "/default/" "/" base_url else base_url in
      Some (PyStr.rstrip_char "/"%char base_url)
  | _ =>
      match getenv_or env "HTTP_HOST" "SERVER_NAME" with
      | Some (String c r) =>
          let scheme :=
            match env !! "HTTPS" with
            | Some v => if (v =? "on")%string then "https" else "http"
            | None => "http"
            end in
          Some (scheme +:+ "://" +:+ String c r)
      | _ => None
      end
  end.

(** The dict that [poll_video_operation] returns. *)
Record video_result := VideoResult {
  vr_videoUrl : string;
  vr_videoPath : string;
  vr_embedUrl : string;
  vr_status : string
}.

Definition save_video `{PyLib} `{Disk} (self : t) (video_uri : json) (cache_key : string)
    : M string :=
  let filename := video_filename cache_key in
  let video_path := PurePath.joinpath (video_dir self) filename in
  let* video_content := Service.download_video_any (video_service self) video_uri in
  let* _ := write_file video_path video_content in
  ret (PurePath.to_str video_path).

(** [operation_name.split('/')[-1]] *)
Definition last_segment (operation_name : json) : res string :=
  match operation_name with
  | JStr s => Ok (List.last (PyStr.split_char "/"%char s) "")
  | v => Raise (Exn AttributeError ("'" +:+ type_name v +:+ "' object has no attribute 'split'"))
  end.

Definition embed_html (video_url : string) : string :=
  let q := String PyStr.dquote "" in
  "<video controls width=" +:+ q +:+ "100%" +:+ q +:+ " height=" +:+ q +:+ "auto" +:+ q
  +:+ "><source src=" +:+ q +:+ video_url +:+ q +:+ " type=" +:+ q +:+ "video/mp4" +:+ q
  +:+ ">Your browser does not support the video tag.</video>".

(** [poll_video_operation]; the operation name is the decoded value that
    the submission returned, and [fuel] bounds the turns of the poll loop. *)
Definition poll_video_operation `{PyLib} `{Disk} (fuel : nat) (self : t) (operation_name : json)
    (max_wait_seconds poll_interval_seconds : Z) (cache_key : option string)
    : M video_result :=
  let* operation_data :=
    Service.poll_operation_status fuel (video_service self) (py_str operation_name)
      max_wait_seconds poll_interval_seconds in
  let* video_uri := lift (Service.extract_video_uri operation_data) in
  let* video_path :=
    match cache_key with
    | Some (String c r) => save_video self video_uri (String c r)
    | _ =>
        let* key := lift (last_segment operation_name) in
        save_video self video_uri key
    end in
  let video_filename := PurePath.name (PurePath.of_str video_path) in
  let relative_path := _get_relative_video_path self video_filename in
  let video_url :=
    match base_url self with
    | Some (String c r) =>
        PyStr.rstrip_char "/"%char (String c r) +:+ "/" +:+ relative_path
    | _ => "/" +:+ relative_path
    end in
  ret (VideoResult video_url video_path (embed_html video_url) "completed").

End Generator.

(** ** The command line: [load_env_file] and [main] *)
Module Cli.

Definition has_nul (s : string) : bool := PyStr.contains (String "000"%char "") s.

(** One turn of the loop of the manual [.env] parser of [load_env_file] on
    a line of the file; setting [os.environ] refuses a null byte. *)
Definition env_line (line : string) (env : environ) : res environ :=
  let line := PyStr.strip line in
  if PyStr.truthy line && negb (PyStr.startswith "#" line) && PyStr.contains "=" line then
    let key := PyStr.strip (PyStr.before_char "="%char line) in
    let value :=
      PyStr.strip_char "'"%char
        (PyStr.strip_char PyStr.dquote (PyStr.strip (PyStr.after_char "="%char line))) in
    if PyStr.truthy key && negb (bool_decide (is_Some (env !! key))) then
      if has_nul key || has_nul value then Raise (Exn ValueError "embedded null byte")
      else Ok (<[key := value]> env)
    else Ok env
  else Ok env.

(** The loop [for line in f] of the manual parser. *)
Fixpoint load_env_lines (lines : list string) (env : environ) : res environ :=
  match lines with
  | [] => Ok env
  | line :: rest => let? env' := env_line line env in load_env_lines rest env'
  end.

(** The arguments of [main] that the loop over the images uses. *)
Record args := Args {
  image_path : list string;
  second_image : option string;
  prompt : string;
  no_auto_reference : bool;
  aspect_ratio : string;
  silent_video : bool;
  sync : bool
}.

(** [if args.second_image: result_item['secondImagePath'] = args.second_image] *)
Definition with_second_image (a : args) (item : list (string * json))
    : list (string * json) :=
  match second_image a with
  | Some (String c r) => (item ++ [("secondImagePath", JStr (String c r))])%list
  | _ => item
  end.

Definition cached_item (a : args) (path : string) (c : Generator.cached_video) : json :=
  JObj (with_second_image a
          [("imagePath", JStr path); ("success", JBool true); ("status", JStr "completed");
           ("videoUrl", JStr (Generator.videoUrl c));
           ("videoPath", JStr (Generator.videoPath c)); ("cached", JBool true)]).

Definition completed_item (a : args) (path : string) (v : Generator.video_result) : json :=
  JObj (with_second_image a
          [("imagePath", JStr path); ("success", JBool true); ("status", JStr "completed");
           ("videoUrl", JStr (Generator.vr_videoUrl v));
           ("videoPath", JStr (Generator.vr_videoPath v));
           ("embedUrl", JStr (Generator.vr_embedUrl v))]).

Definition processing_item (a : args) (path : string) (operation_name : json) : json :=
  JObj (with_second_image a
          [("imagePath", JStr path); ("success", JBool true); ("status", JStr "processing");
           ("operationName", operation_name);
           ("message",
            JStr "Video generation started. Use --sync option to wait for completion.")]).

Definition error_item (path message : string) : json :=
  JObj [("imagePath", JStr path); ("success", JBool false); ("error", JStr message)].

(** The body of the loop [for image_path in image_paths]: the entry added
    to [results] ([inl]) or to [errors] ([inr]). *)
Definition process_image `{PyLib} `{Disk} (fuel : nat) (generator : Generator.t) (a : args)
    (path : string) : M (json + json) :=
  try_except
    (let* operation :=
       Generator.generate_video_from_image generator path (prompt a) (aspect_ratio a)
         (silent_video a) (second_image a) (negb (no_auto_reference a)) in
     match operation with
     | Generator.FromCache c =>
         if Generator.fromCache c then ret (inl (cached_item a path c))
         else raise (Exn KeyError "'operationName'")
     | Generator.Started o =>
         if sync a then
           let* result_data :=
             Generator.poll_video_operation fuel generator (Generator.operationName o)
               300 10 (Some (Generator.cacheKey o)) in
           ret (inl (completed_item a path result_data))
         else ret (inl (processing_item a path (Generator.operationName o)))
     end)
    (fun _ => true)
    (fun e =>
       match exn_cls e with
       | FileNotFoundError =>
           ret (inr (error_item path ("Source image not found: " +:+ exn_str e)))
       | _ => ret (inr (error_item path (exn_str e)))
       end).

(** The loop over the image paths, with the lists [results] and [errors]
    it appends to. *)
Fixpoint process_images `{PyLib} `{Disk} (fuel : nat) (generator : Generator.t) (a : args)
    (paths : list string) (results errors : list json) : M (list json * list json) :=
  match paths with
  | [] => ret (results, errors)
  | path :: rest =>
      let* entry := process_image fuel generator a path in
      match entry with
      | inl item => process_images fuel generator a rest (results ++ [item])%list errors
      | inr item => process_images fuel generator a rest results (errors ++ [item])%list
      end
  end.

Definition bool_of_list {A} (l : list A) : bool :=
  match l with [] => false | _ => true end.

(** The value that [main] prints. *)
Definition final_result (a : args) (results errors : list json) : res json :=
  if (length (image_path a) =? 1)%nat then
    match results, errors with
    | r :: _, _ => Ok r
    | [], e :: _ => Ok e
    | [], [] => Raise (Exn IndexError "list index out of range")
    end
  else
    Ok (JObj [("success", JBool (negb (bool_of_list errors)));
              ("total", JInt (Z.of_nat (length (image_path a))));
              ("succeeded", JInt (Z.of_nat (length results)));
              ("failed", JInt (Z.of_nat (length errors)));
              ("results", JArr results); ("errors", JArr errors)]).

(** [main] from the availability check of the generator on: the value
    printed and the exit code. *)
Definition main_loop `{PyLib} `{Disk} (fuel : nat) (generator : Generator.t) (a : args)
    : M (json * Z) :=
  try_except
    (if negb (Generator.is_available generator) then
       ret (JObj [("success", JBool false);
                  ("error",
                   JStr "Video service is not available. Please configure Gemini API key.")],
            1)
     else
       let* (results, errors) := process_images fuel generator a (image_path a) [] [] in
       let* result := lift (final_result a results errors) in
       ret (result, if bool_of_list errors then 1 else 0))
    (fun _ => true)
    (fun e => ret (JObj [("success", JBool false); ("error", JStr (exn_str e))], 1)).

End Cli.

(** ** [video_api_server.py]: [class VideoAPIHandler]

    Logging and failures of the socket are not part of the model. *)
Module Server.

(** The handler: the configured API key and [str(self.python_script)]. *)
Record t := Make {
  api_key : option string;
  python_script : string
}.

(** [self.headers.get(name, '')]: the first header of that name, compared
    without case. *)
Fixpoint header_get (name : string) (headers : list (string * string)) : string :=
  match headers with
  | [] => ""
  | (k, v) :: rest =>
      if (PyStr.lower k =? PyStr.lower name)%string then v else header_get name rest
  end.

Definition has_header (name : string) (headers : list (string * string)) : bool :=
  existsb (fun kv => (PyStr.lower (fst kv) =? PyStr.lower name)%string) headers.

(** The key that [authenticate] takes from the headers; [""] stands for
    none. *)
Definition provided_key (headers : list (string * string)) : string :=
  let auth_header := header_get "Authorization" headers in
  let api_key_header := header_get "X-API-Key" headers in
  if PyStr.startswith "Bearer " auth_header then PyStr.drop 7 auth_header
  else if PyStr.truthy auth_header then auth_header
  else api_key_header.

Definition authenticate (self : t) (headers : list (string * string)) : bool :=
  let key := provided_key headers in
  if negb (PyStr.truthy key) then false
  else
    match api_key self with
    | Some k => (key =? k)%string
    | None => false
    end.

(** How [subprocess.run] ends: the process completed, the timeout expired,
    or another exception was raised ([str(e)]). *)
Inductive run_outcome :=
| Completed (returncode : Z) (stdout stderr : string)
| TimeoutExpired
| RunFailed (msg : string).

(** How [json.loads(s)] ends: with a value, with a [JSONDecodeError], or
    with another exception (a [RecursionError] on a text nested too deep,
    the [ValueError] of an integer with too many digits), of which
    [str(e)] is kept. *)
Inductive loads_outcome :=
| Loaded (j : json)
| DecodeError (msg : string)
| LoadsRaises (msg : string).

(** How [json.loads(body.decode('utf-8'))] ends: with an exception that is
    no [JSONDecodeError] (of [decode], or one of those above), with a
    [JSONDecodeError], or with a value. *)
Inductive body_outcome :=
| BodyRaises (msg : string)
| BadJson (msg : string)
| Parsed (j : json).

(** The process around the handler, and the library functions taken as
    given: [int(s)] with the text of its error, [json.loads(s)] and
    [json.loads(body.decode('utf-8'))]. *)
Record env := Env {
  executable : string;
  gemini_api_key : option string;
  run : list string -> run_outcome;
  py_int : string -> string + Z;
  json_loads : string -> loads_outcome;
  parse_body : bytes -> body_outcome
}.

(** The items of [for x in v] *)
Definition py_iter (v : json) : res (list json) :=
  match v with
  | JArr l => Ok l
  | JObj o => Ok (List.map (fun kv => JStr (fst kv)) o)
  | JStr s => Ok (List.map (fun c => JStr (String c "")) (list_ascii_of_string s))
  | _ => Raise (Exn TypeError ("'" +:+ type_name v +:+ "' object is not iterable"))
  end.

(** [command.extend([flag, request_data[key]])] when
    [request_data.get(key)] is true *)
Definition optional_flag (request_data : json) (key flag : string) (command : list json)
    : res (list json) :=
  let? v := py_get request_data key JNull in
  if py_truthy v then
    let? x := py_getitem request_data key in Ok (command ++ [JStr flag; x])%list
  else Ok command.

(** [command.append(flag)] when [request_data.get(key, default)] is true *)
Definition optional_switch (request_data : json) (key : string) (default : bool)
    (flag : string) (command : list json) : res (list json) :=
  let? v := py_get request_data key (JBool default) in
  Ok (if py_truthy v then command ++ [JStr flag] else command)%list.

(** The command that [generate_video] builds. *)
Definition build_command (self : t) (e : env) (request_data : json) : res (list json) :=
  let command := [JStr (executable e); JStr (python_script self)] in
  let? image_paths := py_getitem request_data "image_path" in
  let? image_paths :=
    match image_paths with
    | JStr _ => Ok [image_paths]
    | v => py_iter v
    end in
  let command :=
    (command ++ List.concat (List.map (fun x => [JStr "-ip"; x]) image_paths))%list in
  let? has_second := py_in "second_image" request_data in
  let? command :=
    if has_second then
      let? second := py_getitem request_data "second_image" in
      if py_truthy second then
        let? second := py_getitem request_data "second_image" in
        Ok (command ++ [JStr "-si"; second])%list
      else Ok command
    else Ok command in
  let? prompt := py_getitem request_data "prompt" in
  let command := (command ++ [JStr "-p"; prompt])%list in
  let? command := optional_flag request_data "aspect_ratio" "-ar" command in
  let? command := optional_switch request_data "silent_video" false "-sv" command in
  let? command := optional_switch request_data "sync" true "--sync" command in
  let? command :=
    optional_switch request_data "no_auto_reference" false "--no-auto-reference" command in
  let? requested_key := py_get request_data "api_key" JNull in
  let command :=
    if py_truthy requested_key then (command ++ [JStr "--api-key"; requested_key])%list
    else
      match gemini_api_key e with
      | Some (String c r) => (command ++ [JStr "--api-key"; JStr (String c r)])%list
      | _ => command
      end in
  let? command := optional_flag request_data "base_path" "--base-path" command in
  let? command := optional_flag request_data "save_path" "--save-path" command in
  let? command := optional_flag request_data "base_url" "--base-url" command in
  let? command := optional_flag request_data "env_file" "--env-file" command in
  Ok command.

Definition failure (message : string) : json :=
  JObj [("success", JBool false); ("error", JStr message)].

(** The dict made from a completed process. An exception of
    [json.loads(result.stdout)] that is no [JSONDecodeError] reaches the
    [except Exception] of [generate_video]. *)
Definition completed_result (e : env) (returncode : Z) (stdout stderr : string) : json :=
  if returncode =? 0 then
    match json_loads e stdout with
    | Loaded output_json => JObj [("success", JBool true); ("data", output_json)]
    | DecodeError _ =>
        JObj [("success", JBool true);
              ("data", JObj [("output", JStr stdout);
                             ("message", JStr "Video generation completed")])]
    | LoadsRaises msg => failure msg
    end
  else
    let error_msg :=
      match stderr, stdout with
      | String c r, _ => String c r
      | EmptyString, String c r => String c r
      | EmptyString, EmptyString => "Unknown error"
      end in
    JObj [("success", JBool false); ("error", JStr error_msg);
          ("return_code", JInt returncode)].

(** [generate_video]: the dict returned and the commands run. *)
Definition generate_video (self : t) (e : env) (request_data : json)
    : json * list (list string) :=
  match build_command self e request_data with
  | Raise x => (failure (exn_str x), [])
  | OutOfFuel => (failure "", [])
  | Ok command =>
      (* the log line joins the command with spaces *)
      match str_items 0 command with
      | Raise x => (failure (exn_str x), [])
      | OutOfFuel => (failure "", [])
      | Ok argv =>
          match run e argv with
          | Completed returncode stdout stderr =>
              (completed_result e returncode stdout stderr, [argv])
          | TimeoutExpired =>
              (failure "Video generation timed out after 10 minutes", [argv])
          | RunFailed msg => (failure msg, [argv])
          end
      end
  end.

(** What the handler sends: [send_error(code, message)], or the headers of
    a response with the value whose [json.dumps(..., indent=2)] is the body. *)
Inductive sent :=
| SendError (code : Z) (message : string)
| SendJson (code : Z) (headers : list (string * string)) (body : json).


(** [self.rfile.read(n)] on the bytes that the client sent: a length below
    -1 is refused with a [ValueError], and -1 reads all of them. *)
Definition rfile_read (rfile : bytes) (n : Z) : string + bytes :=
  if n <? -1 then inl "read length must be non-negative or -1"
  else if n <? 0 then inr rfile
  else inr (take (Z.to_nat n) rfile).

(** [do_POST]: what is sent and the commands run. *)
Definition do_POST (self : t) (e : env) (headers : list (string * string))
    (rfile : bytes) : sent * list (list string) :=
  if negb (authenticate self headers) then
    (SendError 401 "Unauthorized: Invalid API key", [])
  else
    let length_or_error :=
      if has_header "Content-Length" headers
      then py_int e (header_get "Content-Length" headers) else inr 0 in
    match length_or_error with
    | inl msg => (SendError 500 ("Internal Server Error: " +:+ msg), [])
    | inr content_length =>
        if content_length =? 0 then (SendError 400 "Bad Request: Empty request body", [])
        else
          match rfile_read rfile content_length with
          | inl msg => (SendError 500 ("Internal Server Error: " +:+ msg), [])
          | inr body =>
              match parse_body e body with
              | BodyRaises msg => (SendError 500 ("Internal Server Error: " +:+ msg), [])
              | BadJson msg => (SendError 400 ("Bad Request: Invalid JSON - " +:+ msg), [])
              | Parsed request_data =>
                  match py_in "image_path" request_data with
                  | Ok false => (SendError 400 "Bad Request: 'image_path' is required", [])
                  | Ok true =>
                      match py_in "prompt" request_data with
                      | Ok false => (SendError 400 "Bad Request: 'prompt' is required", [])
                      | Ok true =>
                          let (result, commands) := generate_video self e request_data in
                          (SendJson 200
                             [("Content-Type", "application/json");
                              ("Access-Control-Allow-Origin", "*")]
                             result,
                           commands)
                      | Raise x =>
                          (SendError 500 ("Internal Server Error: " +:+ exn_str x), [])
                      | OutOfFuel => (SendError 500 "Internal Server Error: ", [])
                      end
                  | Raise x => (SendError 500 ("Internal Server Error: " +:+ exn_str x), [])
                  | OutOfFuel => (SendError 500 "Internal Server Error: ", [])
                  end
              end
          end
    end.

(** [do_OPTIONS] *)
Definition do_OPTIONS : Z * list (string * string) :=
  (200, [("Access-Control-Allow-Origin", "*");
         ("Access-Control-Allow-Methods", "POST, OPTIONS");
         ("Access-Control-Allow-Headers", "Content-Type, Authorization");
         ("Content-Length", "0")]).

End Server.

(** ** Notions used to state the properties *)

(** The requests of a trace that are submissions. *)
Definition is_post (r : request) : bool :=
  match r with POST _ _ _ => true | GET _ _ => false end.

Definition posts (tr : list request) : list request := List.filter is_post tr.

(** The remote side answers a request the same way whatever was asked
    before. *)
Definition history_independent (rem : list request -> request -> reply) : Prop :=
  forall h h' req, rem h req = rem h' req.

(** Two worlds with the same files and the same remote side. *)
Definition same_env (w w2 : World) : Prop :=
  fs w = fs w2 /\ remote w = remote w2.

(** A computation that leaves the files and the remote side as they are,
    makes no submission, and whose result, when the remote side is
    history independent, is the same in every world with these files and
    this remote side. *)
Definition reads_only {A} (m : M A) : Prop :=
  forall w,
    same_env w (snd (m w))
    /\ posts (trace (snd (m w))) = posts (trace w)
    /\ (history_independent (remote w) ->
        forall w2, same_env w w2 -> fst (m w2) = fst (m w)).

(** From the history [h0] on, the remote side serves [url] as it did at
    [h0]. *)
Definition served_as_before (rem : list request -> request -> reply)
    (h0 : list request) (url : string) : Prop :=
  forall h, outcome (rem (h0 ++ h)%list (GET url [])) = outcome (rem h0 (GET url [])).

(** The images of a request that are URLs are served, from the world [w]
    on, as they are served in [w]. Nothing is asked of an image that is a
    local file. *)
Definition sources_as_before (w : World) (image_path : string)
    (second_image_path : option string) : Prop :=
  forall url,
    url = image_path \/ second_image_path = Some url ->
    Generator.is_url url = true ->
    served_as_before (remote w) (trace w) url.

(** A computation that leaves the files and the remote side as they are,
    only adds to the trace, and whose result is the same in every world
    with these files and this remote side, as long as the URLs in [U] are
    served as before: of the remote side it only reads these. *)
Definition reads_from (U : string -> Prop) {A} (m : M A) : Prop :=
  forall w,
    same_env w (snd (m w))
    /\ (exists h, trace (snd (m w)) = (trace w ++ h)%list)
    /\ forall h0 w2,
         same_env w w2 ->
         (exists h, trace w = (h0 ++ h)%list) ->
         (exists h, trace w2 = (h0 ++ h)%list) ->
         (forall url, U url -> served_as_before (remote w) h0 url) ->
         fst (m w2) = fst (m w).

(** The cache key of a request: what [generate_video_from_image] computes
    before it looks into the cache. *)
Definition request_key `{PyLib} (self : Generator.t) (image_path prompt aspect_ratio : string)
    (silent_video : bool) (second_image_path : option string)
    (auto_reference_images : bool) : M string :=
  let* (_, _, source_path_str) := Generator._load_image self image_path in
  let* (_, _, second_source_path_str) :=
    match second_image_path with
    | Some (String c r) =>
        let* (d, m, s) := Generator._load_image self (String c r) in
        ret (Some d, Some m, Some s)
    | _ => ret (None, None, None)
    end in
  let* final_prompt :=
    lift (Generator.final_prompt_of prompt image_path second_image_path
            auto_reference_images silent_video) in
  Generator.generate_cache_key self source_path_str final_prompt aspect_ratio
    second_source_path_str.

(** The text of the path of the video file of a cache key. *)
Definition video_file (self : Generator.t) (cache_key : string) : string :=
  PurePath.to_str
    (PurePath.joinpath (Generator.video_dir self) (Generator.video_filename cache_key)).

(** The descriptor of the cached video of a key, as [get_cached_video]
    builds it. *)
Definition cached_descriptor (self : Generator.t) (cache_key : string)
    : Generator.cached_video :=
  Generator.CachedVideo true
    (match Generator.base_url self with
     | Some (String c r) =>
         PyStr.rstrip_char "/"%char (String c r) +:+ "/"
         +:+ Generator._get_relative_video_path self (Generator.video_filename cache_key)
     | _ =>
         "/" +:+ Generator._get_relative_video_path self (Generator.video_filename cache_key)
     end)
    (video_file self cache_key) "completed".

(** The world after a turn of the poll loop that found the operation
    running: the request was made and answered, and the interval waited. *)
Definition after_turn (rem : list request -> request -> reply) (poll_request : request)
    (poll_interval_seconds : Z) (w : World) : World :=
  MkWorld (fs w)
    (clock w + duration (rem (trace w) poll_request) + 1000 * poll_interval_seconds)
    rem (trace w ++ [poll_request]).

(** The image at [path] (a URL or the text of a local path) has the byte
    content [data]. *)
Definition image_bytes_at (w : World) (path : string) (data : bytes) : Prop :=
  if Generator.is_url path then
    exists d resp,
      remote w (trace w) (GET path []) = Reply d (inr resp)
      /\ raise_for_status resp = Ok tt
      /\ content resp = data
  else fs w !! PurePath.to_str (PurePath.of_str path) = Some (File data).

(** Whatever was asked before, the remote side answers [req] in some time
    [d >= 0] with a successful response whose JSON body does not report
    [done]. *)
Definition never_done (rem : list request -> request -> reply) (req : request) : Prop :=
  forall h, exists d resp data v,
    rem h req = Reply d (inr resp)
    /\ 0 <= d
    /\ raise_for_status resp = Ok tt
    /\ json_body resp = inr data
    /\ py_get data "done" (JBool false) = Ok v
    /\ py_truthy v = false.

(** Every run of the computation leads from a world to a world related to
    it by [R]. *)
Definition preserves (R : relation World) {A} (m : M A) : Prop :=
  forall w, R w (snd (m w)).

(** The files and the remote side are the same, and no submission was
    made in between. *)
Definition quiet (w w' : World) : Prop :=
  same_env w w' /\ posts (trace w') = posts (trace w).

(** A path as [pathlib] builds it: the root is [""], ["/"] or ["//"], and
    no component is empty, ["."] or contains a ["/"]. *)
Definition well_formed (p : PurePath.t) : bool :=
  ((PurePath.root p =? "") || (PurePath.root p =? "/") || (PurePath.root p =? "//"))%string
  && forallb (fun x => PurePath.is_part x && negb (PyStr.contains "/" x)) (PurePath.parts p).

(** A hex digest of MD5: 32 characters among [0-9a-f]. *)
Definition is_hex_digest (s : string) : bool :=
  (String.length s =? 32)%nat
  && forallb (PyStr.one_of "0123456789abcdef") (list_ascii_of_string s).

(** The remote side takes no negative time to answer. *)
Definition answers_in_time (rem : list request -> request -> reply) : Prop :=
  forall h req, 0 <= duration (rem h req).

(** A computation that ends, with a value or an exception, whenever the
    remote side takes no negative time to answer, and leaves the remote
    side as it is. *)
Definition finishes {A} (m : M A) : Prop :=
  forall w, answers_in_time (remote w) ->
    fst (m w) <> OutOfFuel /\ remote (snd (m w)) = remote w.

(** The key under which [poll_video_operation] saves the video: the cache
    key when there is one that is not empty, and otherwise the last
    segment of the operation name. *)
Definition saved_under (operation_name : json) (cache_key : option string) : res string :=
  match cache_key with
  | Some (String c r) => Ok (String c r)
  | _ => Generator.last_segment operation_name
  end.

(** What the words of the download contract mean for a URI
    [scheme://host/path?query#fragment]: its host, and whether its query
    string has a parameter of a given name. *)
Module UriSpec.

(** The text after the first occurrence of [sep]. *)
Fixpoint after_str (sep s : string) {struct s} : option string :=
  if String.prefix sep s then Some (PurePath.drop_str (String.length sep) s)
  else
    match s with
    | EmptyString => None
    | String _ r => after_str sep r
    end.

Definition host (uri : string) : string :=
  match after_str "://" uri with
  | Some rest => PyStr.take_until (PyStr.one_of "/?#") rest
  | None => ""
  end.

Definition query (uri : string) : option string :=
  after_str "?" (PyStr.before_char "#"%char uri).

Definition has_param (name uri : string) : bool :=
  match query uri with
  | Some q => existsb (PyStr.startswith (name +:+ "=")) (PyStr.split_char "&"%char q)
  | None => false
  end.

End UriSpec.

(** ** Sample data for the examples *)
Module Sample.

(** [repr] of decoded values whose strings need no escaping. *)
Fixpoint repr (v : json) : string :=
  match v with
  | JNull => "None"
  | JBool true => "True"
  | JBool false => "False"
  | JInt n => PyStr.of_Z n
  | JStr s => "'" +:+ s +:+ "'"
  | JArr l => "[" +:+ PyStr.join ", " (List.map repr l) +:+ "]"
  | JObj o =>
      "{" +:+ PyStr.join ", " (List.map (fun kv => "'" +:+ fst kv +:+ "': " +:+ repr (snd kv)) o)
      +:+ "}"
  end.

(** The path of a plain [http://host/path?query#fragment] URL. *)
Definition url_path (url : string) : string + string :=
  let rest :=
    if PyStr.startswith "https://" url then PurePath.drop_str 8 url
    else PurePath.drop_str 7 url in
  inr (PyStr.take_until (PyStr.one_of "?#") (PyStr.drop_until (PyStr.one_of "/?#") rest)).

Definition mime_of (name : string) : option string :=
  let n := PyStr.lower name in
  if PyStr.contains ".png" n then Some "image/png"
  else if PyStr.contains ".jpg" n then Some "image/jpeg"
  else None.

Definition lib : PyLib :=
  {| guess_type := mime_of; urlparse_path := url_path; py_repr := repr |}.

Definition service : Service.t :=
  Service.Make "test-key" "https://generativelanguage.googleapis.com/v1beta"
    "veo-3.1-generate-preview" false.

Definition generator : Generator.t :=
  Generator.Make "test-key" (PurePath.of_str "/var/www")
    (PurePath.of_str "/var/www/pub/media/video") (Some "https://shop.example/")
    false service.

(** [a.jpg]: 32 bytes of 0xFF. *)
Definition a_jpg : bytes := repeat "255"%byte 32.

Definition ok_json (url : string) (j : json) : reply :=
  Reply 200 (inr (Response 200 "OK" url (Some "application/json") [] (inr j))).

(** A remote side that accepts every submission as [operations/op1] and
    never reports it done. *)
Definition remote_running (h : list request) (req : request) : reply :=
  match req with
  | POST url _ _ => ok_json url (JObj [("name", JStr "operations/op1")])
  | GET url _ => ok_json url (JObj [("name", JStr "operations/op1"); ("done", JBool false)])
  end.

Definition b_png : bytes := ["137"; "080"; "078"; "071"]%byte.

Definition files : gmap string fs_node :=
  <["/var/www/pub/media/a.jpg" := File a_jpg]>
  (<["/var/www/pub/media/b.png" := File b_png]>
   (<["/var/www/pub/media/empty.png" := File []]> ∅)).

Definition world : World := MkWorld files 0 remote_running [].

(** The same with the video of the request [a.jpg], ["zoom in"], ["16:9"]
    in the video directory. *)
Definition files_cached : gmap string fs_node :=
  <["/var/www/pub/media/video/veo_68945617fa171e7a02ee24197e3ff85f.mp4" := File a_jpg]>
  files.

Definition world_cached : World := MkWorld files_cached 0 remote_running [].

(** A remote side that serves three bytes under every [files/] URL and
    nothing elsewhere. *)
Definition remote_video (h : list request) (req : request) : reply :=
  match req with
  | GET url _ =>
      Reply 900
        (inr (Response 200 "OK" url (Some "video/mp4")
                (if PyStr.contains "/files/" url then ["001"; "002"; "003"]%byte else [])
                (inl "Expecting value: line 1 column 1 (char 0)")))
  | POST url _ _ => Reply 50 (inl "Connection refused")
  end.

Definition world_video : World := MkWorld files 0 remote_video [].

(** A remote side that reports the operation done at the third poll. *)
Definition done_response : json :=
  JObj [("name", JStr "operations/op1"); ("done", JBool true);
        ("response",
         JObj [("generateVideoResponse",
                JObj [("generatedSamples",
                       JArr [JObj [("video",
                                    JObj [("uri", JStr "https://example.org/v.mp4")])]])])])].

Definition remote_done (h : list request) (req : request) : reply :=
  match req with
  | GET url _ =>
      if (2 <=? length h)%nat then ok_json url done_response
      else ok_json url (JObj [("name", JStr "operations/op1"); ("done", JBool false)])
  | POST url _ _ => ok_json url (JObj [("name", JStr "operations/op1")])
  end.

Definition world_done : World := MkWorld files 0 remote_done [].

(** A generator whose service has no API key. *)
Definition generator_no_key : Generator.t :=
  Generator.Make "" (PurePath.of_str "/var/www")
    (PurePath.of_str "/var/www/pub/media/video") (Some "https://shop.example/")
    false (Service.Make "" "https://generativelanguage.googleapis.com/v1beta"
             "veo-3.1-generate-preview" false).

(** A remote side that accepts every submission as [operations/op1],
    reports the operation done at every poll, and serves three bytes under
    every other URL. *)
Definition remote_complete (h : list request) (req : request) : reply :=
  match req with
  | POST url _ _ => ok_json url (JObj [("name", JStr "operations/op1")])
  | GET url _ =>
      if PyStr.contains "/operations/" url then ok_json url done_response
      else
        Reply 900
          (inr (Response 200 "OK" url (Some "video/mp4") ["001"; "002"; "003"]%byte
                  (inl "Expecting value: line 1 column 1 (char 0)")))
  end.

Definition world_complete : World := MkWorld files 0 remote_complete [].

(** The arguments [-ip a.jpg -p "zoom in" -ar 16:9 --sync]. *)
Definition sync_args : Cli.args :=
  Cli.Args ["a.jpg"] None "zoom in" false "16:9" false true.

(** The video of the request [a.jpg], ["zoom in"], ["16:9"] as
    [poll_video_operation] describes it. *)
Definition video_a : Generator.video_result :=
  let url :=
    "https://shop.example/pub/media/video/veo_68945617fa171e7a02ee24197e3ff85f.mp4" in
  Generator.VideoResult url
    "/var/www/pub/media/video/veo_68945617fa171e7a02ee24197e3ff85f.mp4"
    (Generator.embed_html url) "completed".

(** An environment with an API key, and the lines of a [.env] file. *)
Definition environment : environ := <["GEMINI_API_KEY" := "from-env"]> ∅.

Definition env_lines : list string :=
  ["# keys"; "GEMINI_API_KEY=from-file"; "BASE_URL = 'https://shop.example/'"].

(** The world of the cached video with a remote side that answers the
    third request otherwise than the first two. *)
Definition world_cached_done : World := MkWorld files_cached 0 remote_done [].

(** A world in which the video of the request for the image at
    [https://cdn.example/a.jpg] is in the video directory. *)
Definition world_url_cached : World :=
  MkWorld
    (<["/var/www/pub/media/video/veo_2e8c547744711241a0d09cad0338a75e.mp4" := File a_jpg]>
       files)
    0 remote_complete [].

(** A disk on which every write goes through. *)
Definition disk : Disk := {| write_ends := fun _ _ _ => Written |}.

(** A full disk: a write fails after the first byte. *)
Definition disk_full : Disk :=
  {| write_ends := fun _ _ _ =>
       WriteFails 1 (Exn OSError "[Errno 28] No space left on device") |}.

(** A handler of the API server, and a process around it whose
    subprocess always ends with return code 0 and prints an empty
    object. *)
Definition handler : Server.t :=
  Server.Make (Some "secret") "/srv/pygento/agento_video.py".

Definition server_env : Server.env :=
  Server.Env "/usr/bin/python3" (Some "gemini-key")
    (fun argv => Server.Completed 0 "{}" "")
    (fun s =>
       match NilZero.int_of_string s with
       | Some n => inr (Z.of_int n)
       | None => inl ("invalid literal for int() with base 10: '" +:+ s +:+ "'")
       end)
    (fun s =>
       if (s =? "{}")%string then Server.Loaded (JObj [])
       else Server.DecodeError "Expecting value: line 1 column 1 (char 0)")
    (fun body =>
       match body with
       | [] => Server.BadJson "Expecting value: line 1 column 1 (char 0)"
       | _ =>
           Server.Parsed (JObj [("image_path", JArr [JStr "a.jpg"; JStr "b.png"]);
                                ("prompt", JStr "zoom in");
                                ("sync", JBool false)])
       end).

End Sample.

(** * Properties *)

(** ** The library models on test vectors

    The values on the right are those of CPython 3.11. *)
Section LibraryChecks.

Example md5_empty : MD5.hexdigest [] = "d41d8cd98f00b204e9800998ecf8427e".
Proof. vm_compute. reflexivity. Qed.

Example md5_abc :
  MD5.hexdigest (list_byte_of_string "abc") = "900150983cd24fb0d6963f7d28e17f72".
Proof. vm_compute. reflexivity. Qed.

Example md5_two_blocks :
  MD5.hexdigest (repeat "x"%byte 64) = "c1bb4f81d892b2d57947682aeb252456".
Proof. vm_compute. reflexivity. Qed.

Example b64_padding :
  (Base64.b64encode (list_byte_of_string "M"),
   Base64.b64encode (list_byte_of_string "Ma"),
   Base64.b64encode (list_byte_of_string "Man is d"),
   Base64.b64encode Sample.a_jpg)
  = ("TQ==", "TWE=", "TWFuIGlzIGQ=", "//////////////////////////////////////////8=").
Proof. vm_compute. reflexivity. Qed.

Example lower_upper_range :
  List.filter (fun n => negb (PyStr.code (PyStr.lower_char (PyStr.chr n)) =? n))
    (List.map Z.of_nat (seq 0 256))
  = (List.map Z.of_nat (seq 65 26) ++ List.map Z.of_nat (seq 192 23)
     ++ List.map Z.of_nat (seq 216 7))%list.
Proof. vm_compute. reflexivity. Qed.

Example isspace_range :
  List.filter (fun n => PyStr.isspace (PyStr.chr n)) (List.map Z.of_nat (seq 0 256))
  = [9; 10; 11; 12; 13; 28; 29; 30; 31; 32; 133; 160].
Proof. vm_compute. reflexivity. Qed.

Example encode_two_bytes :
  PyStr.encode (String (PyStr.chr 233) "a") = ["195"; "169"; "097"]%byte.
Proof. vm_compute. reflexivity. Qed.

Example strip_spaces : PyStr.strip "  a b  " = "a b".
Proof. vm_compute. reflexivity. Qed.

Example path_text :
  List.map (fun s => PurePath.to_str (PurePath.of_str s))
    [""; "/"; "//"; "///"; "//a"; "a//b/./c/"; "./a"; "a/.."]
  = ["."; "/"; "//"; "/"; "//a"; "a/b/c"; "a"; "a/.."].
Proof. vm_compute. reflexivity. Qed.

Example path_stem :
  List.map (fun s => PurePath.stem (PurePath.of_str s))
    ["/a/b.tar.gz"; ".bashrc"; "a."; "x/.a."; "/"; "background.jpg"]
  = ["b.tar"; ".bashrc"; "a."; ".a."; ""; "background"].
Proof. vm_compute. reflexivity. Qed.

Example path_join :
  List.map (fun ab => PurePath.to_str (PurePath.joinpath (PurePath.of_str (fst ab)) (snd ab)))
    [("/a/b", "c"); ("/a/b", "/c"); ("/a/b", ""); ("", "c"); ("a", "//c")]
  = ["/a/b/c"; "/c"; "/a/b"; "c"; "//c"].
Proof. vm_compute. reflexivity. Qed.

Example path_relative_to :
  List.map
    (fun ab => option_map PurePath.to_str
                 (PurePath.relative_to (PurePath.of_str (fst ab)) (PurePath.of_str (snd ab))))
    [("/a/b/c", "/a"); ("/a/b", "/a/b"); ("/a", "a"); ("//a/b", "/a"); ("a/b", "")]
  = [Some "b/c"; Some "."; None; None; Some "a/b"].
Proof. vm_compute. reflexivity. Qed.

(** The poll loop returns the response that reports [done]. *)
Example poll_returns_done :
  fst (Service.poll_operation_status 5 Sample.service "operations/op1" 300 10
         Sample.world_done)
  = Ok Sample.done_response.
Proof. vm_compute. reflexivity. Qed.

End LibraryChecks.

(** ** Strings *)
Section StringFacts.

Lemma append_nil (s : string) : "" +:+ s = s.
Proof. reflexivity. Qed.

Lemma append_cons (c : ascii) (s t : string) : String c s +:+ t = String c (s +:+ t).
Proof. reflexivity. Qed.

Lemma append_assoc (a b c : string) : (a +:+ b) +:+ c = a +:+ (b +:+ c).
Proof. induction a as [|x a IH]; [now rewrite !append_nil|]. rewrite !append_cons. now f_equal. Qed.

Lemma prefix_append (p s t : string) :
  String.prefix p s = true -> String.prefix p (s +:+ t) = true.
Proof.
  revert s; induction p as [|x p IH]; intros s Hp; [now destruct (s +:+ t)|].
  destruct s as [|y s]; [discriminate|].
  rewrite append_cons. simpl in *.
  destruct (ascii_dec x y); [auto | discriminate].
Qed.

Lemma contains_cons (k : string) (c : ascii) (r : string) :
  PyStr.contains k (String c r) = String.prefix k (String c r) || PyStr.contains k r.
Proof. reflexivity. Qed.

Lemma contains_append_l (k s t : string) :
  PyStr.contains k s = true -> PyStr.contains k (s +:+ t) = true.
Proof.
  induction s as [|y s IH]; intros Hc.
  - destruct k; [|discriminate].
    rewrite append_nil. destruct t; reflexivity.
  - rewrite contains_cons in Hc. apply orb_true_iff in Hc as [Hp | Hr].
    + apply (prefix_append _ _ t) in Hp.
      rewrite append_cons in *. rewrite contains_cons. now rewrite Hp.
    + rewrite append_cons, contains_cons, (IH Hr). apply orb_true_r.
Qed.

Lemma contains_append_r (k s t : string) :
  PyStr.contains k t = true -> PyStr.contains k (s +:+ t) = true.
Proof.
  intros Hc; induction s as [|y s IH]; [exact Hc|].
  rewrite append_cons, contains_cons, IH. apply orb_true_r.
Qed.

Lemma lower_append (s t : string) :
  PyStr.lower (s +:+ t) = PyStr.lower s +:+ PyStr.lower t.
Proof.
  induction s as [|x s IH]; [reflexivity|].
  rewrite append_cons. simpl. now rewrite IH, append_cons.
Qed.


End StringFacts.

(** ** Prompt enhancement *)
Section EnhanceFacts.
Context `{PyLib}.

Lemma context_prefix_has_reference (n1 n2 rest m1 m2 : string) :
  Generator.has_reference (Generator.context_prefix n1 n2 +:+ rest) m1 m2 = true.
Proof.
  unfold Generator.has_reference, Generator.reference_keywords.
  cbn [existsb]. apply orb_true_iff; left.
  unfold Generator.context_prefix.
  rewrite !lower_append.
  apply contains_append_l, contains_append_r, contains_append_r, contains_append_l.
  vm_compute. reflexivity.
Qed.

(** C10. Enhancing an enhanced prompt again, with the same image paths and
    the same auto-reference setting, returns it unchanged: when
    [_enhance_prompt_with_image_references] returns [q] for a prompt, it
    returns [q] for [q]. *)
Theorem enhance_prompt_idempotent (prompt image_path : string)
    (second_image_path : option string) (auto_reference : bool) (q : string) :
  Generator._enhance_prompt_with_image_references prompt image_path second_image_path
    auto_reference = Ok q ->
  Generator._enhance_prompt_with_image_references q image_path second_image_path
    auto_reference = Ok q.
Proof.
  unfold Generator._enhance_prompt_with_image_references.
  destruct second_image_path as [[|c r]|]; try (intros [= ->]; reflexivity).
  destruct auto_reference; cbn [negb]; [|intros [= ->]; reflexivity].
  destruct (Generator._get_image_reference_name image_path) as [n1|e|]; cbn [rbind];
    try discriminate.
  destruct (Generator._get_image_reference_name (String c r)) as [n2|e|]; cbn [rbind];
    try discriminate.
  destruct (Generator.has_reference prompt n1 n2) eqn:Href; intros [= <-].
  - now rewrite Href.
  - now rewrite context_prefix_has_reference.
Qed.

(** The names of local images are always found, so the enhancement of a
    prompt for local images always returns. *)
Lemma enhance_prompt_local_returns (prompt image_path : string)
    (second_image_path : option string) (auto_reference : bool) :
  Generator.is_url image_path = false ->
  (forall p, second_image_path = Some p -> Generator.is_url p = false) ->
  exists q,
    Generator._enhance_prompt_with_image_references prompt image_path second_image_path
      auto_reference = Ok q.
Proof.
  intros H1 H2. unfold Generator._enhance_prompt_with_image_references.
  destruct second_image_path as [[|c r]|]; try (eexists; reflexivity).
  destruct auto_reference; cbn [negb]; [|eexists; reflexivity].
  unfold Generator._get_image_reference_name.
  rewrite H1, (H2 _ eq_refl). cbn [rbind].
  match goal with |- context [if ?b then _ else _] => destruct b end;
    eexists; reflexivity.
Qed.

End EnhanceFacts.

(** ** The service: extraction, payload, download *)
Section ServiceFacts.
Context `{PyLib}.

Lemma str_items_strings (i : Z) (l : list string) :
  str_items i (List.map JStr l) = Ok l.
Proof.
  revert i; induction l as [|s l IH]; intros i; [reflexivity|].
  cbn [List.map str_items]. now rewrite IH.
Qed.

Lemma safety_message_not_generic (reasons_str filtered_count : string) :
  Service.safety_message reasons_str filtered_count <> Service.no_video_uri.
Proof. unfold Service.safety_message, Service.no_video_uri. discriminate. Qed.

Lemma str_items_not_str (ss : list string) (v : json) (rest : list json) :
  (forall s, v <> JStr s) ->
  forall i,
    str_items i (List.map JStr ss ++ v :: rest) =
    Raise (Exn TypeError
             ("sequence item " +:+ PyStr.of_Z (i + Z.of_nat (length ss))
              +:+ ": expected str instance, " +:+ type_name v +:+ " found")).
Proof.
  intros Hv. induction ss as [|s ss IH]; intros i.
  - cbn [List.map app length Z.of_nat]. rewrite Z.add_0_r.
    destruct v; try reflexivity. now destruct (Hv s).
  - cbn [List.map app str_items]. rewrite IH. cbn [rbind length].
    replace (i + 1 + Z.of_nat (length ss)) with (i + Z.of_nat (S (length ss))) by lia.
    reflexivity.
Qed.

(** What [extract_video_uri] does with a response whose
    [generateVideoResponse] has a field [raiMediaFilteredReasons]. When the
    reasons are a list of strings, or are not a list, it raises the
    safety-filter error: the message holds the reasons (joined by [", "],
    or as [str] gives them) and the [raiMediaFilteredCount] of the
    response (without one: the number of reasons, or 1), and it is not the
    message of the generic no-video-URI failure. When the reasons are a
    list with an item that is not a string, the [join] raises a
    [TypeError] that names the first such item, and no safety-filter error
    is raised. *)
Lemma extract_video_uri_safety_filtered (o r g : list (string * json)) (reasons : json) :
  assoc "response" o = Some (JObj r) ->
  assoc "generateVideoResponse" r = Some (JObj g) ->
  assoc "raiMediaFilteredReasons" g = Some reasons ->
  let count :=
    match assoc "raiMediaFilteredCount" g with
    | Some c => c
    | None => match reasons with JArr l => JInt (Z.of_nat (length l)) | _ => JInt 1 end
    end in
  let message reasons_str :=
    "Video generation was blocked by safety filters. Reason(s): " +:+ reasons_str
    +:+ ". Filtered count: " +:+ py_str count
    +:+ ". Suggestions: 1) Simplify your prompt (remove brand names, celebrities, or "
    +:+ "copyrighted content), 2) If audio is the issue, retry with --silent-video flag "
    +:+ "or add 'silent video' to your prompt, 3) Check that your image doesn't contain "
    +:+ "restricted content. You have not been charged for this attempt." in
  (forall strings, reasons = JArr (List.map JStr strings) ->
     Service.extract_video_uri (JObj o)
     = Raise (Exn RuntimeError (message (PyStr.join ", " strings)))
     /\ message (PyStr.join ", " strings)
        <> "No video URI found in completed operation response")
  /\ ((forall l, reasons <> JArr l) ->
      Service.extract_video_uri (JObj o) = Raise (Exn RuntimeError (message (py_str reasons)))
      /\ message (py_str reasons) <> "No video URI found in completed operation response")
  /\ (forall strings v rest,
        reasons = JArr (List.map JStr strings ++ v :: rest) -> (forall s, v <> JStr s) ->
        Service.extract_video_uri (JObj o)
        = Raise (Exn TypeError
                   ("sequence item " +:+ PyStr.of_Z (Z.of_nat (length strings))
                    +:+ ": expected str instance, " +:+ type_name v +:+ " found"))).
Proof.
  intros Ho Hr Hg count message.
  assert (Hrun : Service.extract_video_uri (JObj o) =
                 let? reasons_str :=
                   match reasons with
                   | JArr l => py_join ", " l
                   | _ => Ok (py_str reasons)
                   end in
                 Raise (Exn RuntimeError
                          (Service.safety_message reasons_str (py_str count)))).
  { unfold Service.extract_video_uri, py_in, py_getitem, py_get.
    rewrite Ho. cbn [rbind bool_decide]. rewrite bool_decide_eq_true_2 by eauto.
    rewrite Hr. cbn [rbind]. rewrite bool_decide_eq_true_2 by eauto.
    rewrite Hg. cbn [rbind]. rewrite bool_decide_eq_true_2 by eauto.
    reflexivity. }
  assert (Hmessage : forall reasons_str,
            Service.safety_message reasons_str (py_str count) = message reasons_str).
  { intros reasons_str. reflexivity. }
  assert (Hgeneric : forall reasons_str,
            message reasons_str <> "No video URI found in completed operation response").
  { intros reasons_str. unfold message. discriminate. }
  rewrite Hrun. split; [|split].
  - intros strings ->. split; [|apply Hgeneric].
    unfold py_join. rewrite str_items_strings. cbn [rbind]. now rewrite Hmessage.
  - intros Hlist. split; [|apply Hgeneric].
    destruct reasons; try (cbn [rbind]; now rewrite Hmessage).
    now destruct (Hlist l).
  - intros strings v rest -> Hv. unfold py_join.
    rewrite (str_items_not_str strings v rest Hv 0). reflexivity.
Qed.

(** A response without filter reasons and with a sample gives its URI. *)
Lemma extract_video_uri_success (uri : json) :
  Service.extract_video_uri
    (JObj [("done", JBool true);
           ("response",
            JObj [("generateVideoResponse",
                   JObj [("generatedSamples",
                          JArr [JObj [("video", JObj [("uri", uri)])]])])])])
  = Ok uri.
Proof. reflexivity. Qed.

Lemma submit_payload_without_image2 (prompt : string) (image_data : bytes)
    (mime_type aspect_ratio : string) (d2 : option bytes) (m2 : option string) :
  Service.bytes_truthy d2 && Service.opt_str_truthy m2 = false ->
  Service.submit_payload prompt image_data mime_type aspect_ratio d2 m2 =
  JObj [("instances",
         JArr [JObj [("prompt", JStr prompt);
                     ("image", Service.image_part image_data mime_type)]]);
        ("parameters",
         JObj (if PyStr.truthy aspect_ratio
               then [("aspectRatio", JStr aspect_ratio)] else []))].
Proof. intros Hc. unfold Service.submit_payload. now rewrite Hc. Qed.

(** The texts hashed into the cache key without a second image and with an
    empty second image differ: the second field is empty in one and the
    digest of the empty byte string in the other. *)
Lemma cache_data_absent_vs_empty (image_hash prompt aspect_ratio : string) :
  Generator.cache_data image_hash "" prompt aspect_ratio <>
  Generator.cache_data image_hash (MD5.hexdigest []) prompt aspect_ratio.
Proof.
  unfold Generator.cache_data. intros Heq.
  apply String.app_inj in Heq.
  replace (MD5.hexdigest []) with "d41d8cd98f00b204e9800998ecf8427e" in Heq
    by (vm_compute; reflexivity).
  discriminate Heq.
Qed.

(** The one request of [submit_video_generation_request], when the service
    has an API key: the POST of the payload, whatever the answer. *)
Lemma submit_request (self : Service.t) (prompt : string) (image_data : bytes)
    (mime_type aspect_ratio : string) (d2 : option bytes) (m2 : option string) (w : World) :
  Service.is_available self = true ->
  trace (snd (Service.submit_video_generation_request self prompt image_data mime_type
                aspect_ratio d2 m2 w))
  = (trace w ++ [POST (Service.submit_endpoint self) (Service.submit_headers self)
                   (Service.submit_payload prompt image_data mime_type aspect_ratio
                      d2 m2)])%list.
Proof.
  intros Havail. unfold Service.submit_video_generation_request.
  rewrite Havail. cbn [negb].
  unfold try_except, bind, http, lift, raise, ret.
  destruct (outcome _) as [msg|resp]; [reflexivity|].
  destruct (raise_for_status resp) as [[]|e|];
    [|destruct (is_request_exception e); reflexivity|reflexivity].
  destruct (response_json resp) as [data|e|];
    [|destruct (is_request_exception e); reflexivity|reflexivity].
  destruct (py_in "name" data) as [[]|e|]; cbn [negb];
    [| reflexivity |destruct (is_request_exception e); reflexivity|reflexivity].
  destruct (py_getitem data "name") as [name|e|];
    [|destruct (is_request_exception e); reflexivity|reflexivity].
  destruct (py_get data "done" (JBool false)) as [d|e|];
    [reflexivity|destruct (is_request_exception e); reflexivity|reflexivity].
Qed.

(** A call of [submit_video_generation_request] whose second image data is
    the empty byte string, or whose second MIME type is empty, submits a
    payload whose instance has the fields [prompt] and [image] only: that
    is the payload posted, it is the payload of the same call without a
    second image, and the call behaves as that call does. The text hashed
    into the cache key of a request with an empty second image is
    nevertheless not the text hashed without one. *)
Lemma submit_ignores_empty_second_image (self : Service.t) (prompt : string)
    (image_data : bytes) (mime_type aspect_ratio : string)
    (d2 : option bytes) (m2 : option string) :
  d2 = Some [] \/ m2 = Some "" ->
  let payload :=
    JObj [("instances",
           JArr [JObj [("prompt", JStr prompt);
                       ("image",
                        JObj [("bytesBase64Encoded", JStr (Base64.b64encode image_data));
                              ("mimeType", JStr mime_type)])]]);
          ("parameters",
           JObj (if PyStr.truthy aspect_ratio
                 then [("aspectRatio", JStr aspect_ratio)] else []))] in
  (forall w,
     Service.is_available self = true ->
     trace (snd (Service.submit_video_generation_request self prompt image_data mime_type
                   aspect_ratio d2 m2 w))
     = (trace w ++ [POST (Service.submit_endpoint self) (Service.submit_headers self)
                      payload])%list)
  /\ Service.submit_payload prompt image_data mime_type aspect_ratio None None = payload
  /\ (forall w,
        Service.submit_video_generation_request self prompt image_data mime_type
          aspect_ratio d2 m2 w =
        Service.submit_video_generation_request self prompt image_data mime_type
          aspect_ratio None None w)
  /\ (forall image_hash final_prompt,
        Generator.cache_data image_hash (MD5.hexdigest []) final_prompt aspect_ratio <>
        Generator.cache_data image_hash "" final_prompt aspect_ratio).
Proof.
  intros Hempty payload.
  assert (Hc : Service.bytes_truthy d2 && Service.opt_str_truthy m2 = false).
  { destruct Hempty as [-> | ->]; [reflexivity|]. apply andb_false_r. }
  assert (Hp : Service.submit_payload prompt image_data mime_type aspect_ratio d2 m2
               = payload).
  { now apply submit_payload_without_image2. }
  assert (Hnone : Service.submit_payload prompt image_data mime_type aspect_ratio None None
                  = payload).
  { now apply submit_payload_without_image2. }
  split; [|split; [|split]].
  - intros w Havail. rewrite <- Hp. now apply submit_request.
  - exact Hnone.
  - intros w. unfold Service.submit_video_generation_request. now rewrite Hp, Hnone.
  - intros h p Heq. now apply (cache_data_absent_vs_empty h p aspect_ratio).
Qed.

(** The request that [download_video] makes. *)
Lemma download_video_request (self : Service.t) (video_uri : string) (w : World) :
  trace (snd (Service.download_video self video_uri w)) =
  (trace w ++ [GET (Service.download_uri self video_uri)
                   [("x-goog-api-key", Service.api_key self)]])%list.
Proof.
  unfold Service.download_video, bind, http, lift, raise, ret.
  destruct (outcome _) as [msg|resp]; [reflexivity|].
  destruct (raise_for_status resp) as [[]|e|]; try reflexivity.
  destruct (content resp); reflexivity.
Qed.

(** C6. When the response to the download has an empty body,
    [download_video] raises: the HTTP error for a status from 400 to 599, the
    empty-content error otherwise. When the body is not empty and the status
    is not an error status, it returns exactly the body. *)
Theorem download_video_body (self : Service.t) (video_uri : string) (w : World)
    (d : Z) (resp : response) :
  remote w (trace w)
    (GET (Service.download_uri self video_uri) [("x-goog-api-key", Service.api_key self)])
  = Reply d (inr resp) ->
  (content resp = [] ->
   fst (Service.download_video self video_uri w) =
   Raise (match raise_for_status resp with
          | Raise e => e
          | _ => Exn RuntimeError "Video download returned empty content"
          end))
  /\ (content resp <> [] -> ~ (400 <= status_code resp < 600) ->
      fst (Service.download_video self video_uri w) = Ok (content resp)).
Proof.
  intros Hreply.
  unfold Service.download_video, bind, http, lift. rewrite Hreply. cbn [outcome].
  split.
  - intros Hempty. unfold raise_for_status.
    destruct ((400 <=? status_code resp) && (status_code resp <? 500)); [reflexivity|].
    destruct ((500 <=? status_code resp) && (status_code resp <? 600)); [reflexivity|].
    now rewrite Hempty.
  - intros Hbody Hstatus.
    assert (Hok : raise_for_status resp = Ok tt).
    { unfold raise_for_status.
      replace ((400 <=? status_code resp) && (status_code resp <? 500)) with false
        by (symmetry; apply andb_false_iff; rewrite Z.leb_gt, Z.ltb_ge; lia).
      replace ((500 <=? status_code resp) && (status_code resp <? 600)) with false
        by (symmetry; apply andb_false_iff; rewrite Z.leb_gt, Z.ltb_ge; lia).
      reflexivity. }
    rewrite Hok. destruct (content resp); [contradiction | reflexivity].
Qed.

End ServiceFacts.

(** ** The download URI *)
Section DownloadUriFacts.

Lemma contains_String (k : string) (c : ascii) (r : string) :
  PyStr.contains k r = true -> PyStr.contains k (String c r) = true.
Proof. intros Hc. rewrite contains_cons, Hc. apply orb_true_r. Qed.

Lemma contains_drop_str (k : string) (n : nat) (s : string) :
  PyStr.contains k (PurePath.drop_str n s) = true -> PyStr.contains k s = true.
Proof.
  revert s; induction n as [|n IH]; intros s; [destruct s; exact id|].
  destruct s as [|c r]; [exact id|].
  cbn [PurePath.drop_str]. intros Hc. apply contains_String, IH, Hc.
Qed.

Lemma after_str_unfold (sep s : string) :
  UriSpec.after_str sep s =
  if String.prefix sep s then Some (PurePath.drop_str (String.length sep) s)
  else match s with
       | EmptyString => None
       | String _ r => UriSpec.after_str sep r
       end.
Proof. destruct s; reflexivity. Qed.

Lemma contains_after_str (k sep s t : string) :
  UriSpec.after_str sep s = Some t ->
  PyStr.contains k t = true -> PyStr.contains k s = true.
Proof.
  induction s as [|c r IH]; rewrite after_str_unfold;
    destruct (String.prefix sep _).
  - intros [= <-]. apply contains_drop_str.
  - discriminate.
  - intros [= <-]. apply contains_drop_str.
  - intros Ha Hc. apply contains_String, IH; assumption.
Qed.

Lemma before_char_prefix (c : ascii) (s : string) :
  exists rest, s = PyStr.before_char c s +:+ rest.
Proof.
  induction s as [|x s [rest IH]]; [exists ""; reflexivity|].
  cbn [PyStr.before_char]. destruct (Ascii.eqb x c).
  - exists (String x s). reflexivity.
  - exists rest. now rewrite append_cons, <- IH.
Qed.

Lemma contains_before_char (k : string) (c : ascii) (s : string) :
  PyStr.contains k (PyStr.before_char c s) = true -> PyStr.contains k s = true.
Proof.
  intros Hc. destruct (before_char_prefix c s) as [rest Hs].
  rewrite Hs. now apply contains_append_l.
Qed.

Lemma split_char_head (c : ascii) (s w : string) (ws : list string) :
  PyStr.split_char c s = w :: ws -> exists rest, s = w +:+ rest.
Proof.
  revert w ws; induction s as [|x s IH]; intros w ws.
  - intros [= <- <-]. exists "". reflexivity.
  - cbn [PyStr.split_char]. destruct (Ascii.eqb x c).
    + intros [= <- <-]. exists (String x s). reflexivity.
    + destruct (PyStr.split_char c s) as [|w' ws'] eqn:Hsplit.
      * intros [= <- <-]. exists s. reflexivity.
      * intros [= <- <-]. destruct (IH _ _ eq_refl) as [rest ->].
        exists rest. reflexivity.
Qed.

Lemma contains_split_char (k : string) (c : ascii) (s : string) :
  k <> "" ->
  existsb (PyStr.startswith k) (PyStr.split_char c s) = true ->
  PyStr.contains k s = true.
Proof.
  intros Hk. unfold PyStr.startswith.
  induction s as [|x s IH].
  - destruct k; [contradiction | discriminate].
  - cbn [PyStr.split_char]. destruct (Ascii.eqb x c).
    + cbn [existsb]. destruct k; [contradiction|]. cbn [String.prefix orb].
      intros He. apply contains_String, IH, He.
    + destruct (PyStr.split_char c s) as [|w ws] eqn:Hsplit.
      * cbn [existsb]. rewrite orb_false_r. intros Hp.
        apply (prefix_append _ _ s) in Hp.
        rewrite contains_cons. rewrite append_cons, append_nil in Hp. now rewrite Hp.
      * cbn [existsb]. intros He. apply orb_true_iff in He as [Hp | Hrest].
        -- destruct (split_char_head _ _ _ _ Hsplit) as [rest ->].
           apply (prefix_append _ _ rest) in Hp.
           rewrite contains_cons. rewrite append_cons in Hp. now rewrite Hp.
        -- apply contains_String, IH. cbn [existsb]. rewrite Hrest. apply orb_true_r.
Qed.

(** A URI whose query string has a [key] parameter contains the text
    [key=]. *)
Lemma has_key_param_contains (uri : string) :
  UriSpec.has_param "key" uri = true -> PyStr.contains "key=" uri = true.
Proof.
  unfold UriSpec.has_param, UriSpec.query.
  destruct (UriSpec.after_str "?" _) as [q|] eqn:Hq; [|discriminate].
  intros He. apply (contains_split_char "key=") in He; [|discriminate].
  eapply contains_before_char, contains_after_str; eassumption.
Qed.

Lemma prefix_refl (k : string) : String.prefix k k = true.
Proof.
  induction k as [|c k IH]; [reflexivity|].
  cbn [String.prefix]. destruct (ascii_dec c c); [exact IH | contradiction].
Qed.

Lemma contains_refl (k : string) : PyStr.contains k k = true.
Proof. destruct k; cbn [PyStr.contains]; rewrite prefix_refl; reflexivity. Qed.

Lemma take_until_prefix (p : ascii -> bool) (s : string) :
  exists rest, s = PyStr.take_until p s +:+ rest.
Proof.
  induction s as [|x s [rest IH]]; [exists ""; reflexivity|].
  cbn [PyStr.take_until]. destruct (p x).
  - exists (String x s). reflexivity.
  - exists rest. now rewrite append_cons, <- IH.
Qed.

(** A URI contains the name of its host. *)
Lemma host_contains (uri : string) :
  UriSpec.host uri <> "" -> PyStr.contains (UriSpec.host uri) uri = true.
Proof.
  unfold UriSpec.host.
  destruct (UriSpec.after_str "://" uri) as [rest|] eqn:Hrest; [|contradiction].
  intros _. eapply contains_after_str; [exact Hrest|].
  destruct (take_until_prefix (PyStr.one_of "/?#") rest) as [tail Htail].
  rewrite Htail at 2. apply contains_append_l, contains_refl.
Qed.

(** What [download_video] does with the URI, in terms of its text. A URI
    that contains the text [generativelanguage.googleapis.com], as every
    URI on that host does, and does not contain the text [key=] is fetched
    with [key=<api key>] appended, after [&] when the URI contains a [?]
    and after [?] otherwise; a URI that contains [key=], as every URI with
    a [key] query parameter does, is fetched as it is. The request made is
    the GET of that URI. *)
Lemma download_uri_appends_key (self : Service.t) (video_uri : string) (w : World) :
  (PyStr.contains "generativelanguage.googleapis.com" video_uri = true ->
   PyStr.contains "key=" video_uri = false ->
   Service.download_uri self video_uri =
   video_uri +:+ (if PyStr.contains "?" video_uri then "&" else "?")
             +:+ "key=" +:+ Service.api_key self)
  /\ (UriSpec.host video_uri = "generativelanguage.googleapis.com" ->
      PyStr.contains "generativelanguage.googleapis.com" video_uri = true)
  /\ (PyStr.contains "key=" video_uri = true ->
      Service.download_uri self video_uri = video_uri)
  /\ (UriSpec.has_param "key" video_uri = true ->
      Service.download_uri self video_uri = video_uri)
  /\ trace (snd (Service.download_video self video_uri w)) =
     (trace w ++ [GET (Service.download_uri self video_uri)
                      [("x-goog-api-key", Service.api_key self)]])%list.
Proof.
  assert (Hkey : PyStr.contains "key=" video_uri = true ->
                 Service.download_uri self video_uri = video_uri).
  { intros Hk. unfold Service.download_uri. rewrite Hk. now rewrite andb_false_r. }
  repeat split.
  - intros Hhost Hk. unfold Service.download_uri. now rewrite Hhost, Hk.
  - intros Hhost. rewrite <- Hhost. apply host_contains. now rewrite Hhost.
  - exact Hkey.
  - intros Hp. apply Hkey, has_key_param_contains, Hp.
  - apply download_video_request.
Qed.

(** C7 fails on the code, which tests the text of the URI where its
    comment says: append the key if it is a Google API URI and does not
    have it. The first URI is on the trusted host and has no [key] query
    parameter (its parameters are [alt] and [sortkey]), yet it is fetched
    as it is, without the configured key. The second has no query string
    (its [?] is in the fragment), yet the key is appended after [&], into
    the fragment: the URI fetched has no [key] parameter either. *)
Theorem download_uri_key_not_appended :
  let uri :=
    "https://generativelanguage.googleapis.com/v1beta/files/f1:download?alt=media&sortkey=name" in
  let uri2 :=
    "https://generativelanguage.googleapis.com/v1beta/files/f1:download#t?x" in
  UriSpec.host uri = "generativelanguage.googleapis.com"
  /\ UriSpec.has_param "key" uri = false
  /\ Service.download_uri Sample.service uri = uri
  /\ Service.download_uri Sample.service uri <> uri +:+ "&key=" +:+ Service.api_key Sample.service
  /\ trace (snd (Service.download_video Sample.service uri Sample.world)) =
     [GET uri [("x-goog-api-key", "test-key")]]
  /\ UriSpec.host uri2 = "generativelanguage.googleapis.com"
  /\ UriSpec.query uri2 = None
  /\ Service.download_uri Sample.service uri2 = uri2 +:+ "&key=test-key"
  /\ UriSpec.has_param "key" (Service.download_uri Sample.service uri2) = false.
Proof. vm_compute. repeat split; discriminate. Qed.

End DownloadUriFacts.


(** ** Running the monad *)
Section MonadFacts.
Context {A B : Type}.

Lemma bind_ok (m : M A) (k : A -> M B) (w w1 : World) (a : A) :
  m w = (Ok a, w1) -> bind m k w = k a w1.
Proof. intros Hm. unfold bind. now rewrite Hm. Qed.

Lemma bind_ok_inv (m : M A) (k : A -> M B) (w w' : World) (b : B) :
  bind m k w = (Ok b, w') ->
  exists a w1, m w = (Ok a, w1) /\ k a w1 = (Ok b, w').
Proof.
  unfold bind. destruct (m w) as [[a|e|] w1]; try discriminate. eauto.
Qed.

Lemma try_except_ok (m : M A) (sel : exn -> bool) (h : exn -> M A) (w w1 : World) (a : A) :
  m w = (Ok a, w1) -> try_except m sel h w = (Ok a, w1).
Proof. intros Hm. unfold try_except. now rewrite Hm. Qed.

End MonadFacts.

(** ** The cache key *)
Section CacheKeyFacts.
Context `{PyLib}.

Lemma path_exists_run (p : PurePath.t) (w : World) (n : fs_node) :
  fs w !! PurePath.to_str p = Some n -> path_exists p w = (Ok true, w).
Proof. intros Hn. unfold path_exists. now rewrite bool_decide_eq_true_2 by eauto. Qed.

Lemma read_file_run (p : PurePath.t) (w : World) (data : bytes) :
  fs w !! PurePath.to_str p = Some (File data) -> read_file p w = (Ok data, w).
Proof. intros Hn. unfold read_file. now rewrite Hn. Qed.

Lemma download_image_run (url : string) (w : World) (d : Z) (resp : response) :
  remote w (trace w) (GET url []) = Reply d (inr resp) ->
  raise_for_status resp = Ok tt ->
  exists mime,
    Generator.download_image_from_url url w =
    (Ok (content resp, mime),
     MkWorld (fs w) (clock w + d) (remote w) (trace w ++ [GET url []])).
Proof.
  intros Hreply Hstatus. eexists.
  unfold Generator.download_image_from_url.
  apply try_except_ok.
  erewrite bind_ok; [|unfold http; rewrite Hreply; reflexivity].
  erewrite bind_ok; [|unfold lift; rewrite Hstatus; reflexivity].
  reflexivity.
Qed.

Lemma get_image_hash_value (w : World) (path : string) (data : bytes) :
  image_bytes_at w path data ->
  exists w1,
    Generator.get_image_hash path w = (Ok (MD5.hexdigest data), w1)
    /\ fs w1 = fs w /\ remote w1 = remote w /\ posts (trace w1) = posts (trace w).
Proof.
  unfold image_bytes_at, Generator.get_image_hash.
  destruct (Generator.is_url path).
  - intros (d & resp & Hreply & Hstatus & <-).
    destruct (download_image_run _ _ _ _ Hreply Hstatus) as [mime Hrun].
    eexists. split; [erewrite bind_ok by exact Hrun; reflexivity|].
    cbn [fs remote trace]. repeat split.
    unfold posts. rewrite List.filter_app. apply app_nil_r.
  - intros Hfile. exists w. split; [|auto].
    erewrite bind_ok by (eapply path_exists_run, Hfile). cbn [negb].
    erewrite bind_ok by (eapply read_file_run, Hfile). reflexivity.
Qed.

(** C2. Without a second image, the key that [generate_cache_key] returns
    is the hex MD5 digest of the text made of the hex MD5 digest of the image
    bytes, [":"], the empty second field, [":"], the prompt, [":"] and the
    aspect ratio. *)
Theorem generate_cache_key_single_image (self : Generator.t) (w : World)
    (image_path prompt aspect_ratio : string) (second_image_path : option string)
    (image_bytes : bytes) :
  second_image_path = None \/ second_image_path = Some "" ->
  image_bytes_at w image_path image_bytes ->
  fst (Generator.generate_cache_key self image_path prompt aspect_ratio
         second_image_path w)
  = Ok (MD5.hexdigest
          (PyStr.encode
             (MD5.hexdigest image_bytes +:+ ":" +:+ "" +:+ ":" +:+ prompt +:+ ":"
              +:+ aspect_ratio))).
Proof.
  intros Hsecond Himage.
  destruct (get_image_hash_value _ _ _ Himage) as (w1 & Hhash & _).
  unfold Generator.generate_cache_key.
  erewrite bind_ok by exact Hhash.
  destruct Hsecond as [-> | ->]; reflexivity.
Qed.

(** With two local images, both digests enter the hashed text. *)
Lemma generate_cache_key_two_local_images (self : Generator.t) (w : World)
    (image_path prompt aspect_ratio : string) (c : ascii) (r : string) (d1 d2 : bytes) :
  Generator.is_url image_path = false ->
  Generator.is_url (String c r) = false ->
  image_bytes_at w image_path d1 ->
  image_bytes_at w (String c r) d2 ->
  Generator.generate_cache_key self image_path prompt aspect_ratio (Some (String c r)) w
  = (Ok (MD5.hexdigest
           (PyStr.encode
              (Generator.cache_data (MD5.hexdigest d1) (MD5.hexdigest d2) prompt
                 aspect_ratio))), w).
Proof.
  unfold image_bytes_at. intros U1 U2. rewrite U1, U2. intros F1 F2.
  unfold Generator.generate_cache_key, Generator.get_image_hash.
  rewrite U1, U2.
  erewrite bind_ok.
  2:{ erewrite bind_ok by (eapply path_exists_run, F1). cbn [negb].
      erewrite bind_ok by (eapply read_file_run, F1). reflexivity. }
  erewrite bind_ok.
  2:{ erewrite bind_ok by (eapply path_exists_run, F2). cbn [negb].
      erewrite bind_ok by (eapply read_file_run, F2). reflexivity. }
  reflexivity.
Qed.

End CacheKeyFacts.

(** ** The poll loop *)
Section PollFacts.

Lemma sleep_halves_run (n : nat) (w : World) :
  Service.sleep_halves n w =
  (Ok tt, MkWorld (fs w) (clock w + 500 * Z.of_nat n) (remote w) (trace w)).
Proof.
  revert w; induction n as [|n IH]; intros w.
  - destruct w as [f c r t]. unfold Service.sleep_halves, ret. cbn [fs clock remote trace].
    do 2 f_equal. lia.
  - cbn [Service.sleep_halves].
    erewrite bind_ok by (unfold time_sleep; reflexivity).
    rewrite IH. cbn [fs clock remote trace]. do 2 f_equal. lia.
Qed.

Lemma wait_interval_run (self : Service.t) (poll_interval_seconds : Z) (w : World) :
  0 < poll_interval_seconds ->
  Service.wait_interval self poll_interval_seconds w =
  (Ok tt, MkWorld (fs w) (clock w + 1000 * poll_interval_seconds) (remote w) (trace w)).
Proof.
  intros Hpos. unfold Service.wait_interval. destruct (Service.verbose self).
  - unfold time_sleep.
    destruct (Z.ltb_spec (1000 * poll_interval_seconds) 0); [lia | reflexivity].
  - rewrite sleep_halves_run. do 2 f_equal. lia.
Qed.

Lemma timeout_message_distinct (max_wait_seconds : Z) :
  (forall e, Service.timeout_message max_wait_seconds <> Service.polling_failed_message e)
  /\ Service.timeout_message max_wait_seconds <> "Gemini video service is not available."
  /\ Service.timeout_message max_wait_seconds <> Service.no_video_uri
  /\ (forall reasons_str filtered_count,
        Service.timeout_message max_wait_seconds <>
        Service.safety_message reasons_str filtered_count).
Proof.
  unfold Service.timeout_message, Service.polling_failed_message, Service.no_video_uri,
    Service.safety_message.
  repeat split; intros; intros Heq;
    apply (f_equal (PurePath.take_str 18)) in Heq; vm_compute in Heq; discriminate Heq.
Qed.

Variables (self : Service.t) (poll_url : string).
Variables (start_time max_wait_seconds poll_interval_seconds : Z).
Variable rem : list request -> request -> reply.
Hypothesis interval_positive : 0 < poll_interval_seconds.
Hypothesis running : never_done rem (GET poll_url (Service.poll_headers self)).

Local Abbreviation poll_request := (GET poll_url (Service.poll_headers self)).
Local Abbreviation turn := (after_turn rem poll_request poll_interval_seconds).

Lemma poll_loop_time_up (fuel : nat) (w : World) :
  1000 * max_wait_seconds < clock w - start_time ->
  Service.poll_loop (S fuel) self poll_url start_time max_wait_seconds
    poll_interval_seconds w
  = (Raise (Exn RuntimeError (Service.timeout_message max_wait_seconds)), w).
Proof.
  intros Hup. cbn [Service.poll_loop].
  erewrite bind_ok by reflexivity. rewrite Z.gtb_ltb.
  destruct (Z.ltb_spec (1000 * max_wait_seconds) (clock w - start_time));
    [reflexivity | lia].
Qed.

Lemma poll_loop_turn (fuel : nat) (w : World) :
  remote w = rem ->
  clock w - start_time <= 1000 * max_wait_seconds ->
  Service.poll_loop (S fuel) self poll_url start_time max_wait_seconds
    poll_interval_seconds w
  = Service.poll_loop fuel self poll_url start_time max_wait_seconds
      poll_interval_seconds (turn w).
Proof.
  intros Hrem Hnot_up.
  destruct (running (trace w)) as (d & resp & data & v & Hreply & Hd & Hst & Hjs & Hget & Hv).
  cbn [Service.poll_loop].
  erewrite bind_ok by reflexivity. rewrite Z.gtb_ltb.
  destruct (Z.ltb_spec (1000 * max_wait_seconds) (clock w - start_time)); [lia|].
  erewrite bind_ok; cycle 1.
  { apply try_except_ok.
    erewrite bind_ok; [|unfold http; rewrite Hrem, Hreply; reflexivity].
    erewrite bind_ok; [|unfold lift; rewrite Hst; reflexivity].
    erewrite bind_ok; [|unfold lift, response_json; rewrite Hjs; reflexivity].
    erewrite bind_ok; [|unfold lift; rewrite Hget; reflexivity].
    rewrite Hv.
    erewrite bind_ok; [|apply wait_interval_run, interval_positive].
    reflexivity. }
  cbn [fs clock remote trace outcome duration]. unfold after_turn. rewrite Hreply. reflexivity.
Qed.

Lemma after_turn_clock (w : World) :
  clock w + 1000 * poll_interval_seconds <= clock (turn w).
Proof.
  destruct (running (trace w)) as (d & resp & data & v & Hreply & Hd & _).
  unfold after_turn. cbn [clock]. rewrite Hreply. cbn [duration]. lia.
Qed.

Lemma poll_loop_times_out (n : nat) :
  forall w,
    remote w = rem ->
    1000 * max_wait_seconds - (clock w - start_time)
      < 1000 * poll_interval_seconds * Z.of_nat n ->
    exists w',
      (forall fuel, (n < fuel)%nat ->
         Service.poll_loop fuel self poll_url start_time max_wait_seconds
           poll_interval_seconds w
         = (Raise (Exn RuntimeError (Service.timeout_message max_wait_seconds)), w'))
      /\ 1000 * max_wait_seconds < clock w' - start_time
      /\ posts (trace w') = posts (trace w).
Proof.
  induction n as [|n IH]; intros w Hrem Hbound.
  - exists w. split; [|split; [lia | reflexivity]].
    intros [|fuel] Hfuel; [lia|]. apply poll_loop_time_up. lia.
  - destruct (Z_lt_le_dec (1000 * max_wait_seconds) (clock w - start_time)) as [Hup | Hnot].
    + exists w. split; [|split; [lia | reflexivity]].
      intros [|fuel] Hfuel; [lia|]. now apply poll_loop_time_up.
    + destruct (IH (turn w) eq_refl) as (w' & Hrun & Hclock & Hposts).
      { pose proof (after_turn_clock w). lia. }
      exists w'. split; [|split; [exact Hclock|]].
      * intros [|fuel] Hfuel; [lia|].
        rewrite poll_loop_turn by assumption. apply Hrun. lia.
      * rewrite Hposts. unfold after_turn. cbn [trace]. unfold posts.
        rewrite List.filter_app. apply app_nil_r.
Qed.

(** While the operation is running the loop never returns a value. *)
Lemma poll_loop_never_returns (fuel : nat) :
  forall w data,
    remote w = rem ->
    fst (Service.poll_loop fuel self poll_url start_time max_wait_seconds
           poll_interval_seconds w) <> Ok data.
Proof.
  induction fuel as [|fuel IH]; intros w data Hrem; [discriminate|].
  destruct (Z_lt_le_dec (1000 * max_wait_seconds) (clock w - start_time)) as [Hup | Hnot].
  - rewrite poll_loop_time_up by assumption. discriminate.
  - rewrite poll_loop_turn by assumption. now apply IH.
Qed.

End PollFacts.

(** C4. When every poll finds the operation running and the poll interval
    is positive, [poll_operation_status] stops: with enough steps it raises
    the timeout error, after more than the maximum wait has elapsed, and
    without any submission; whatever the number of steps, it returns no
    value; and the timeout message is none of the messages of the other
    failures. *)
Theorem poll_never_done_times_out (self : Service.t) (operation_name : string)
    (max_wait_seconds poll_interval_seconds : Z) (w : World) :
  Service.is_available self = true ->
  0 < poll_interval_seconds ->
  never_done (remote w)
    (GET (Service.base_url self +:+ "/" +:+ operation_name) (Service.poll_headers self)) ->
  exists w',
    (forall fuel,
       (Z.to_nat (max_wait_seconds / poll_interval_seconds) + 2 <= fuel)%nat ->
       Service.poll_operation_status fuel self operation_name max_wait_seconds
         poll_interval_seconds w
       = (Raise (Exn RuntimeError (Service.timeout_message max_wait_seconds)), w'))
    /\ 1000 * max_wait_seconds < clock w' - clock w
    /\ posts (trace w') = posts (trace w)
    /\ (forall fuel data,
          fst (Service.poll_operation_status fuel self operation_name max_wait_seconds
                 poll_interval_seconds w) <> Ok data)
    /\ (forall e, Service.timeout_message max_wait_seconds <> Service.polling_failed_message e)
    /\ Service.timeout_message max_wait_seconds <> "Gemini video service is not available.".
Proof.
  intros Havail Hpos Hrun.
  destruct (poll_loop_times_out self _ (clock w) max_wait_seconds poll_interval_seconds
              (remote w) Hpos Hrun
              (Z.to_nat (max_wait_seconds / poll_interval_seconds) + 1) w eq_refl)
    as (w' & Hloop & Hclock & Hposts).
  { destruct (Z_lt_le_dec max_wait_seconds 0) as [Hneg | Hnonneg].
    - assert (0 <= Z.of_nat (Z.to_nat (max_wait_seconds / poll_interval_seconds))) by lia.
      nia.
    - pose proof (Z.mul_succ_div_gt max_wait_seconds poll_interval_seconds Hpos).
      assert (0 <= max_wait_seconds / poll_interval_seconds)
        by (apply Z.div_pos; lia).
      rewrite Nat2Z.inj_add, Z2Nat.id by assumption. nia. }
  exists w'. repeat split; try assumption.
  - intros fuel Hfuel. unfold Service.poll_operation_status. rewrite Havail. cbn [negb].
    erewrite bind_ok by reflexivity. apply Hloop. lia.
  - intros fuel data. unfold Service.poll_operation_status. rewrite Havail. cbn [negb].
    erewrite bind_ok by reflexivity.
    now apply (poll_loop_never_returns self _ (clock w) max_wait_seconds
                 poll_interval_seconds (remote w) Hpos Hrun).
  - apply timeout_message_distinct.
  - apply timeout_message_distinct.
Qed.

(** ** Computations that only read *)
Section ReadsOnly.

Lemma same_env_refl (w : World) : same_env w w.
Proof. split; reflexivity. Qed.

Lemma same_env_trans (w1 w2 w3 : World) :
  same_env w1 w2 -> same_env w2 w3 -> same_env w1 w3.
Proof. intros [? ?] [? ?]; split; congruence. Qed.

Lemma same_env_sym (w1 w2 : World) : same_env w1 w2 -> same_env w2 w1.
Proof. intros [? ?]; split; congruence. Qed.

Lemma reads_only_pure {A} (r : res A) : reads_only (fun w => (r, w)).
Proof. intros w. cbn [fst snd]. auto using same_env_refl. Qed.

Lemma reads_only_ret {A} (a : A) : reads_only (ret a).
Proof. apply reads_only_pure. Qed.

Lemma reads_only_raise {A} (e : exn) : reads_only (@raise A e).
Proof. apply reads_only_pure. Qed.

Lemma reads_only_lift {A} (r : res A) : reads_only (lift r).
Proof. apply reads_only_pure. Qed.

Lemma reads_only_bind {A B} (m : M A) (k : A -> M B) :
  reads_only m -> (forall a, reads_only (k a)) -> reads_only (bind m k).
Proof.
  intros Hm Hk w. destruct (Hm w) as (Henv & Hposts & Hind).
  unfold bind. destruct (m w) as [[a|e|] w1] eqn:Hrun; cbn [fst snd] in *.
  - destruct (Hk a w1) as (Henv1 & Hposts1 & Hind1). split; [|split].
    + eapply same_env_trans; eassumption.
    + congruence.
    + intros Hhist w2 Hw2. specialize (Hind Hhist w2 Hw2).
      destruct (Hm w2) as (Henv2 & _ & _).
      destruct (m w2) as [r2 w2']; cbn [fst snd] in *. subst r2.
      apply Hind1.
      * destruct Henv as [_ <-]. exact Hhist.
      * eauto using same_env_trans, same_env_sym.
  - repeat split; try apply Henv; try assumption.
    intros Hhist w2 Hw2. specialize (Hind Hhist w2 Hw2).
    destruct (m w2) as [r2 w2']; cbn [fst] in *. now subst r2.
  - repeat split; try apply Henv; try assumption.
    intros Hhist w2 Hw2. specialize (Hind Hhist w2 Hw2).
    destruct (m w2) as [r2 w2']; cbn [fst] in *. now subst r2.
Qed.

Lemma reads_only_try_except {A} (m : M A) (sel : exn -> bool) (h : exn -> M A) :
  reads_only m -> (forall e, reads_only (h e)) -> reads_only (try_except m sel h).
Proof.
  intros Hm Hh w. destruct (Hm w) as (Henv & Hposts & Hind).
  unfold try_except. destruct (m w) as [[a|e|] w1] eqn:Hrun; cbn [fst snd] in *.
  - repeat split; try apply Henv; try assumption.
    intros Hhist w2 Hw2. specialize (Hind Hhist w2 Hw2).
    destruct (m w2) as [r2 w2']; cbn [fst] in *. now subst r2.
  - destruct (sel e) eqn:Hsel.
    + destruct (Hh e w1) as (Henv1 & Hposts1 & Hind1). split; [|split].
      * eapply same_env_trans; eassumption.
      * congruence.
      * intros Hhist w2 Hw2. specialize (Hind Hhist w2 Hw2).
        destruct (Hm w2) as (Henv2 & _ & _).
        destruct (m w2) as [r2 w2']; cbn [fst snd] in *. subst r2. rewrite Hsel.
        apply Hind1.
        -- destruct Henv as [_ <-]. exact Hhist.
        -- eauto using same_env_trans, same_env_sym.
    + repeat split; try apply Henv; try assumption.
      intros Hhist w2 Hw2. specialize (Hind Hhist w2 Hw2).
      destruct (m w2) as [r2 w2']; cbn [fst] in *. subst r2. now rewrite Hsel.
  - repeat split; try apply Henv; try assumption.
    intros Hhist w2 Hw2. specialize (Hind Hhist w2 Hw2).
    destruct (m w2) as [r2 w2']; cbn [fst] in *. now subst r2.
Qed.

Lemma reads_only_get (url : string) (headers : list (string * string)) :
  reads_only (http (GET url headers)).
Proof.
  intros w. unfold http.
  assert (Hp : posts (trace w ++ [GET url headers]) = posts (trace w)).
  { unfold posts. rewrite List.filter_app. apply app_nil_r. }
  split; [|split].
  - destruct (outcome _); split; reflexivity.
  - destruct (outcome _); exact Hp.
  - intros Hhist w2 [_ Hrem]. rewrite <- Hrem, (Hhist (trace w2) (trace w)).
    destruct (outcome _); reflexivity.
Qed.

Lemma reads_only_path_exists (p : PurePath.t) : reads_only (path_exists p).
Proof.
  intros w. unfold path_exists. cbn [fst snd].
  repeat split. intros _ w2 [Hfs _]. now rewrite Hfs.
Qed.

Lemma reads_only_read_file (p : PurePath.t) : reads_only (read_file p).
Proof.
  intros w. unfold read_file. split; [|split].
  - destruct (fs w !! _) as [[]|]; apply same_env_refl.
  - destruct (fs w !! _) as [[]|]; reflexivity.
  - intros _ w2 [Hfs _]. rewrite <- Hfs. destruct (fs w !! _) as [[]|]; reflexivity.
Qed.

End ReadsOnly.

Create HintDb reads.

#[local] Hint Resolve reads_only_ret reads_only_raise reads_only_lift reads_only_get
  reads_only_path_exists reads_only_read_file : reads.

Ltac reads_only_step :=
  first
    [ apply reads_only_bind; [|intros]
    | apply reads_only_try_except; [|intros]
    | solve [auto with reads]
    | match goal with
      | |- reads_only (if ?b then _ else _) => destruct b
      | |- reads_only (match ?x with _ => _ end) => destruct x
      end ].

Section GeneratorFacts.
Context `{PyLib}.

Lemma reads_only_download_image (url : string) :
  reads_only (Generator.download_image_from_url url).
Proof. unfold Generator.download_image_from_url. repeat reads_only_step. Qed.

Lemma reads_only_load_image (self : Generator.t) (image_path : string) :
  reads_only (Generator._load_image self image_path).
Proof.
  unfold Generator._load_image.
  repeat (apply reads_only_download_image || reads_only_step).
Qed.

Lemma reads_only_get_image_hash (path : string) :
  reads_only (Generator.get_image_hash path).
Proof.
  unfold Generator.get_image_hash.
  repeat (apply reads_only_download_image || reads_only_step).
Qed.

Lemma reads_only_generate_cache_key (self : Generator.t)
    (image_path prompt aspect_ratio : string) (second_image_path : option string) :
  reads_only (Generator.generate_cache_key self image_path prompt aspect_ratio
                second_image_path).
Proof.
  unfold Generator.generate_cache_key.
  repeat (apply reads_only_get_image_hash || reads_only_step).
Qed.

Lemma reads_only_request_key (self : Generator.t) (image_path prompt aspect_ratio : string)
    (silent_video : bool) (second_image_path : option string)
    (auto_reference_images : bool) :
  reads_only (request_key self image_path prompt aspect_ratio silent_video
                second_image_path auto_reference_images).
Proof.
  unfold request_key.
  repeat (apply reads_only_load_image || apply reads_only_generate_cache_key
          || reads_only_step).
Qed.

End GeneratorFacts.

(** ** Requests *)
Section RequestFacts.
Context `{PyLib}.

Lemma get_cached_video_hit (self : Generator.t) (key : string) (w : World) :
  is_Some (fs w !! video_file self key) ->
  Generator.get_cached_video self key w = (Ok (Some (cached_descriptor self key)), w).
Proof.
  intros [n Hn]. unfold Generator.get_cached_video.
  erewrite bind_ok by (eapply path_exists_run, Hn). reflexivity.
Qed.


Lemma get_cached_video_world (self : Generator.t) (key : string) (w : World) :
  snd (Generator.get_cached_video self key w) = w.
Proof.
  unfold Generator.get_cached_video, bind, path_exists. cbn beta iota.
  destruct (bool_decide _); reflexivity.
Qed.

Lemma generate_video_cache_hit (self : Generator.t) (image_path prompt aspect_ratio : string)
    (silent_video : bool) (second_image_path : option string)
    (auto_reference_images : bool) (w w1 : World) (key : string) :
  Generator.is_available self = true ->
  request_key self image_path prompt aspect_ratio silent_video second_image_path
    auto_reference_images w = (Ok key, w1) ->
  is_Some (fs w1 !! video_file self key) ->
  Generator.generate_video_from_image self image_path prompt aspect_ratio silent_video
    second_image_path auto_reference_images w
  = (Ok (Generator.FromCache (cached_descriptor self key)), w1).
Proof.
  intros Havail Hkey Hfile.
  unfold request_key in Hkey.
  apply bind_ok_inv in Hkey as ([[d m] src] & wa & Hload & Hkey).
  apply bind_ok_inv in Hkey as ([[sd sm] ss] & wb & Hsecond & Hkey).
  apply bind_ok_inv in Hkey as (final & wc & Hfinal & Hkey).
  unfold Generator.generate_video_from_image. rewrite Havail. cbn [negb].
  erewrite bind_ok by exact Hload. cbn beta iota.
  erewrite bind_ok by exact Hsecond. cbn beta iota.
  erewrite bind_ok by exact Hfinal.
  erewrite bind_ok by exact Hkey.
  erewrite bind_ok by (apply get_cached_video_hit, Hfile).
  reflexivity.
Qed.

Lemma generate_cache_key_inv (self : Generator.t) (image_path prompt aspect_ratio : string)
    (second_image_path : option string) (w w' : World) (key : string) :
  Generator.generate_cache_key self image_path prompt aspect_ratio second_image_path w
  = (Ok key, w') ->
  (exists h1 h2,
     key = MD5.hexdigest (PyStr.encode (Generator.cache_data h1 h2 prompt aspect_ratio)))
  /\ posts (trace w') = posts (trace w).
Proof.
  intros Hrun.
  pose proof (reads_only_generate_cache_key self image_path prompt aspect_ratio
                second_image_path w) as (_ & Hposts & _).
  rewrite Hrun in Hposts. split; [|exact Hposts].
  unfold Generator.generate_cache_key in Hrun.
  apply bind_ok_inv in Hrun as (h1 & wa & _ & Hrun).
  apply bind_ok_inv in Hrun as (h2 & wb & _ & Hrun).
  unfold ret in Hrun. injection Hrun as <- _. eauto.
Qed.

Lemma submit_ok_trace (self : Service.t) (prompt : string) (image_data : bytes)
    (mime_type aspect_ratio : string) (d2 : option bytes) (m2 : option string)
    (w w' : World) (sr : Service.submit_result) :
  Service.submit_video_generation_request self prompt image_data mime_type aspect_ratio
    d2 m2 w = (Ok sr, w') ->
  trace w' =
  (trace w ++ [POST (Service.submit_endpoint self) (Service.submit_headers self)
                 (Service.submit_payload prompt image_data mime_type aspect_ratio d2 m2)])%list.
Proof.
  unfold Service.submit_video_generation_request.
  destruct (Service.is_available self); cbn [negb]; [|discriminate].
  unfold try_except.
  match goal with |- context [bind ?m ?k w] => destruct (bind m k w) as [[a|e|] wa] eqn:Hrun end.
  - intros [= <- <-].
    apply bind_ok_inv in Hrun as (resp & wb & Hhttp & Hrun).
    assert (Hwb : trace wb =
      (trace w ++ [POST (Service.submit_endpoint self) (Service.submit_headers self)
                     (Service.submit_payload prompt image_data mime_type aspect_ratio
                        d2 m2)])%list).
    { unfold http in Hhttp. destruct (outcome _); [discriminate|].
      injection Hhttp as _ <-. reflexivity. }
    apply bind_ok_inv in Hrun as (? & ? & [= _ <-] & Hrun).
    apply bind_ok_inv in Hrun as (? & ? & [= _ <-] & Hrun).
    apply bind_ok_inv in Hrun as (has & ? & [= _ <-] & Hrun).
    destruct has; cbn [negb] in Hrun; [|discriminate].
    apply bind_ok_inv in Hrun as (? & ? & [= _ <-] & Hrun).
    apply bind_ok_inv in Hrun as (? & ? & [= _ <-] & Hrun).
    injection Hrun as _ <-. exact Hwb.
  - destruct (is_request_exception e); discriminate.
  - discriminate.
Qed.


End RequestFacts.

(** ** The further string operations on test vectors *)
Section MoreLibraryChecks.

Example replace_without_overlap :
  PyStr.replace "aa" "b" "aaaaa" = "bba"
  /\ PyStr.replace "/default/" "/" "/default//default/x/default/" = "//x/".
Proof. vm_compute. split; reflexivity. Qed.

Example get_base_url_store_code :
  Generator._get_base_url (<["BASE_URL" := "https://x.example/default/shop//"]> ∅)
  = Some "https://x.example/shop"
  /\ Generator._get_base_url (<["BASE_URL" := "https://x.example/default/"]> ∅)
     = Some "https://x.example/default"
  /\ Generator._get_base_url (<["HTTP_HOST" := "h.example"]> (<["HTTPS" := "on"]> ∅))
     = Some "https://h.example".
Proof. vm_compute. repeat split. Qed.

Example env_line_quotes :
  Cli.env_line " A = 'x y' " ∅ = Ok (<["A" := "x y"]> ∅)
  /\ Cli.env_line "D=a=b" ∅ = Ok (<["D" := "a=b"]> ∅)
  /\ Cli.env_line "# c=1" ∅ = Ok ∅
  /\ Cli.env_line "=v" ∅ = Ok ∅.
Proof. vm_compute. repeat split. Qed.

Example last_segment_of_name :
  Generator.last_segment (JStr "operations/op1") = Ok "op1"
  /\ Generator.last_segment (JStr "a/b/") = Ok ""
  /\ Generator.last_segment (JInt 5)
     = Raise (Exn AttributeError "'int' object has no attribute 'split'").
Proof. vm_compute. repeat split. Qed.

End MoreLibraryChecks.

(** ** Computations that keep the files *)
#[local] Instance same_env_preorder : PreOrder same_env.
Proof.
  split; [exact same_env_refl | intros w1 w2 w3; apply same_env_trans].
Qed.

#[local] Instance quiet_preorder : PreOrder quiet.
Proof.
  split.
  - intros w. split; [apply same_env_refl | reflexivity].
  - intros w1 w2 w3 [He1 Hp1] [He2 Hp2].
    split; [eapply same_env_trans; eassumption | congruence].
Qed.

Section Preserves.
Context (R : relation World) `{!PreOrder R}.

Lemma preserves_same {A} (m : M A) : (forall w, snd (m w) = w) -> preserves R m.
Proof. intros Hm w. rewrite Hm. reflexivity. Qed.

Lemma preserves_ret {A} (a : A) : preserves R (ret a).
Proof. now apply preserves_same. Qed.

Lemma preserves_raise {A} (e : exn) : preserves R (@raise A e).
Proof. now apply preserves_same. Qed.

Lemma preserves_lift {A} (r : res A) : preserves R (lift r).
Proof. now apply preserves_same. Qed.

Lemma preserves_out_of_fuel {A} : preserves R (@out_of_fuel A).
Proof. now apply preserves_same. Qed.

Lemma preserves_time_time : preserves R time_time.
Proof. now apply preserves_same. Qed.

Lemma preserves_path_exists (p : PurePath.t) : preserves R (path_exists p).
Proof. now apply preserves_same. Qed.

Lemma preserves_read_file (p : PurePath.t) : preserves R (read_file p).
Proof.
  apply preserves_same. intros w. unfold read_file.
  destruct (fs w !! _) as [[]|]; reflexivity.
Qed.

Lemma preserves_bind {A B} (m : M A) (k : A -> M B) :
  preserves R m -> (forall a, preserves R (k a)) -> preserves R (bind m k).
Proof.
  intros Hm Hk w. specialize (Hm w). unfold bind.
  destruct (m w) as [[a|e|] w1]; cbn [snd] in *; try assumption.
  etransitivity; [exact Hm | apply Hk].
Qed.

Lemma preserves_try_except {A} (m : M A) (sel : exn -> bool) (h : exn -> M A) :
  preserves R m -> (forall e, preserves R (h e)) -> preserves R (try_except m sel h).
Proof.
  intros Hm Hh w. specialize (Hm w). unfold try_except.
  destruct (m w) as [[a|e|] w1]; cbn [snd] in *; try assumption.
  destruct (sel e); [|assumption].
  etransitivity; [exact Hm | apply Hh].
Qed.

End Preserves.

Lemma quiet_get (url : string) (headers : list (string * string)) :
  preserves quiet (http (GET url headers)).
Proof.
  intros w. unfold http.
  assert (Hp : posts (trace w ++ [GET url headers]) = posts (trace w)).
  { unfold posts. rewrite List.filter_app. apply app_nil_r. }
  destruct (outcome _); (split; [split; reflexivity | exact Hp]).
Qed.

Lemma quiet_time_sleep (ms : Z) : preserves quiet (time_sleep ms).
Proof.
  intros w. unfold time_sleep.
  destruct (ms <? 0); (split; [split; reflexivity | reflexivity]).
Qed.

Lemma same_env_http (req : request) : preserves same_env (http req).
Proof. intros w. unfold http. destruct (outcome _); split; reflexivity. Qed.

Lemma quiet_same_env {A} (m : M A) : preserves quiet m -> preserves same_env m.
Proof. intros Hm w. apply Hm. Qed.

Lemma reads_only_quiet {A} (m : M A) : reads_only m -> preserves quiet m.
Proof. intros Hm w. destruct (Hm w) as (He & Hp & _). now split. Qed.

Create HintDb preserves.

#[local] Hint Resolve preserves_ret preserves_raise preserves_lift preserves_out_of_fuel
  preserves_time_time preserves_path_exists preserves_read_file
  quiet_get quiet_time_sleep same_env_http : preserves.

#[local] Hint Extern 1 (PreOrder _) => exact _ : preserves.

Ltac preserves_step :=
  first
    [ apply preserves_bind; [exact _| |intros]
    | apply preserves_bind; [|intros]
    | apply preserves_try_except; [exact _| |intros]
    | apply preserves_try_except; [|intros]
    | assumption
    | solve [auto with preserves typeclass_instances]
    | match goal with
      | |- preserves _ (if ?b then _ else _) => destruct b
      | |- preserves _ (match ?x with _ => _ end) => destruct x
      end ].

Section ServicePreserves.
Context `{PyLib}.

Lemma quiet_sleep_halves (n : nat) : preserves quiet (Service.sleep_halves n).
Proof. induction n; cbn [Service.sleep_halves]; repeat preserves_step. Qed.

Lemma quiet_wait_interval (self : Service.t) (i : Z) :
  preserves quiet (Service.wait_interval self i).
Proof.
  unfold Service.wait_interval. destruct (Service.verbose self);
    auto using quiet_sleep_halves with preserves.
Qed.

Lemma quiet_poll_loop (fuel : nat) (self : Service.t) (poll_url : string)
    (start_time max_wait_seconds poll_interval_seconds : Z) :
  preserves quiet (Service.poll_loop fuel self poll_url start_time max_wait_seconds
                     poll_interval_seconds).
Proof.
  induction fuel as [|fuel IH]; cbn [Service.poll_loop].
  { auto with preserves. }
  repeat (first [apply quiet_wait_interval | apply IH | preserves_step]).
Qed.

Lemma quiet_poll_operation_status (fuel : nat) (self : Service.t)
    (operation_name : string) (max_wait_seconds poll_interval_seconds : Z) :
  preserves quiet (Service.poll_operation_status fuel self operation_name max_wait_seconds
                     poll_interval_seconds).
Proof.
  unfold Service.poll_operation_status.
  repeat (first [apply quiet_poll_loop | preserves_step]).
Qed.

Lemma quiet_download_video_any (self : Service.t) (video_uri : json) :
  preserves quiet (Service.download_video_any self video_uri).
Proof. unfold Service.download_video_any. repeat preserves_step. Qed.

Lemma same_env_submit (self : Service.t) (prompt : string) (image_data : bytes)
    (mime_type aspect_ratio : string) (d2 : option bytes) (m2 : option string) :
  preserves same_env (Service.submit_video_generation_request self prompt image_data
                        mime_type aspect_ratio d2 m2).
Proof. unfold Service.submit_video_generation_request. repeat preserves_step. Qed.

Lemma same_env_generate_video (self : Generator.t)
    (image_path prompt aspect_ratio : string) (silent_video : bool)
    (second_image_path : option string) (auto_reference_images : bool) :
  preserves same_env (Generator.generate_video_from_image self image_path prompt aspect_ratio
                        silent_video second_image_path auto_reference_images).
Proof.
  unfold Generator.generate_video_from_image.
  repeat (first
    [ apply quiet_same_env, reads_only_quiet, reads_only_load_image
    | apply quiet_same_env, reads_only_quiet, reads_only_generate_cache_key
    | apply same_env_submit
    | match goal with
      | |- preserves _ (Generator.get_cached_video _ _) =>
          unfold Generator.get_cached_video
      end
    | preserves_step ]).
Qed.

End ServicePreserves.

(** ** Paths and file names *)
Section PathFacts.

Lemma contains_char_cons (ch c : ascii) (r : string) :
  PyStr.contains (String ch "") (String c r) = false ->
  Ascii.eqb c ch = false /\ PyStr.contains (String ch "") r = false.
Proof.
  rewrite contains_cons. intros Hc. apply orb_false_iff in Hc as [Hp Hr].
  split; [|exact Hr].
  cbn in Hp. destruct (ascii_dec ch c) as [->|Hne].
  - destruct r; discriminate.
  - rewrite Ascii.eqb_sym. now apply Ascii.eqb_neq.
Qed.

Lemma split_char_none (ch : ascii) (s : string) :
  PyStr.contains (String ch "") s = false -> PyStr.split_char ch s = [s].
Proof.
  induction s as [|c r IH]; [reflexivity|].
  intros Hc. apply contains_char_cons in Hc as [Hne Hr].
  cbn [PyStr.split_char]. rewrite Hne, (IH Hr). reflexivity.
Qed.

Lemma split_char_nonempty (ch : ascii) (s : string) : PyStr.split_char ch s <> [].
Proof.
  destruct s as [|c r]; cbn [PyStr.split_char]; [discriminate|].
  destruct (Ascii.eqb c ch); [discriminate|].
  destruct (PyStr.split_char ch r); discriminate.
Qed.

Lemma split_char_app (ch : ascii) (a b : string) :
  PyStr.split_char ch (a +:+ String ch b)
  = (PyStr.split_char ch a ++ PyStr.split_char ch b)%list.
Proof.
  induction a as [|c r IH].
  - rewrite append_nil. cbn [PyStr.split_char]. rewrite Ascii.eqb_refl. reflexivity.
  - rewrite append_cons. cbn [PyStr.split_char]. rewrite IH.
    destruct (Ascii.eqb c ch); [reflexivity|].
    pose proof (split_char_nonempty ch r).
    destruct (PyStr.split_char ch r); [congruence | reflexivity].
Qed.

Lemma last_filter_snoc {A} (p : A -> bool) (l : list A) (x d : A) :
  p x = true -> List.last (List.filter p (l ++ [x])) d = x.
Proof.
  intros Hx. rewrite List.filter_app. cbn [List.filter]. rewrite Hx.
  apply List.last_last.
Qed.

(** The name of a path text that ends in ["/" ++ f], or is [f], is [f]. *)
Lemma name_of_text (a f : string) :
  PyStr.contains "/" f = false -> PurePath.is_part f = true ->
  PurePath.name (PurePath.of_str f) = f
  /\ PurePath.name (PurePath.of_str (a +:+ String "/" f)) = f.
Proof.
  intros Hf Hp. unfold PurePath.name, PurePath.of_str. cbn [PurePath.parts]. split.
  - rewrite (split_char_none _ _ Hf). apply (last_filter_snoc _ []), Hp.
  - rewrite split_char_app, (split_char_none _ _ Hf). now apply last_filter_snoc.
Qed.

Lemma join_snoc (sep : string) (l : list string) (f : string) :
  l <> [] -> PyStr.join sep (l ++ [f]) = PyStr.join sep l +:+ sep +:+ f.
Proof.
  induction l as [|x l IH]; [congruence|]. intros _.
  destruct l as [|y l].
  - reflexivity.
  - change (PyStr.join sep ((x :: y :: l) ++ [f]))
      with (x +:+ sep +:+ PyStr.join sep ((y :: l) ++ [f])).
    rewrite IH by discriminate.
    change (PyStr.join sep (x :: y :: l)) with (x +:+ sep +:+ PyStr.join sep (y :: l)).
    now rewrite !append_assoc.
Qed.

Lemma of_str_filename (f : string) :
  PyStr.contains "/" f = false -> PurePath.is_part f = true ->
  PurePath.of_str f = PurePath.Path "" [f].
Proof.
  intros Hf Hp. unfold PurePath.of_str. rewrite (split_char_none _ _ Hf).
  cbn [List.filter]. rewrite Hp. f_equal.
  unfold PurePath.parse_root, PyStr.startswith.
  destruct f as [|c r]; [reflexivity|].
  apply contains_char_cons in Hf as [Hne _].
  cbn. destruct (ascii_dec c "/") as [->|Hc]; [discriminate|].
  assert (Hc' : Ascii.eqb "/" c = false) by (apply Ascii.eqb_neq; congruence).
  unfold Ascii.eqb in Hc'. 
  destruct c as [[] [] [] [] [] [] [] []]; try reflexivity; discriminate.
Qed.

Lemma joinpath_filename (d : PurePath.t) (f : string) :
  PyStr.contains "/" f = false -> PurePath.is_part f = true ->
  PurePath.joinpath d f = PurePath.Path (PurePath.root d) (PurePath.parts d ++ [f]).
Proof.
  intros Hf Hp. unfold PurePath.joinpath. rewrite (of_str_filename _ Hf Hp). reflexivity.
Qed.

Lemma to_str_snoc (r x : string) (l : list string) (f : string) :
  PurePath.to_str (PurePath.Path r ((x :: l) ++ [f]))
  = (r +:+ PyStr.join "/" (x :: l)) +:+ String "/" f.
Proof.
  change (String "/" f) with ("/" +:+ f).
  rewrite append_assoc, <- (join_snoc "/" (x :: l) f) by discriminate.
  unfold PurePath.to_str. cbn [PurePath.root PurePath.parts].
  destruct r; reflexivity.
Qed.

(** [Path(str(d / f)).name] is [f] for a file name [f]. *)
Lemma name_joinpath (d : PurePath.t) (f : string) :
  well_formed d = true ->
  PyStr.contains "/" f = false -> PurePath.is_part f = true ->
  PurePath.name (PurePath.of_str (PurePath.to_str (PurePath.joinpath d f))) = f.
Proof.
  intros Hwf Hf Hp. rewrite (joinpath_filename _ _ Hf Hp).
  destruct (PurePath.parts d) as [|x l] eqn:Hparts.
  - apply andb_true_iff in Hwf as [Hroot _].
    apply orb_true_iff in Hroot as [Hroot | Hroot];
      [apply orb_true_iff in Hroot as [Hroot | Hroot]|];
      apply String.eqb_eq in Hroot; rewrite Hroot.
    + apply (name_of_text "" f Hf Hp).
    + apply (name_of_text "" f Hf Hp).
    + apply (name_of_text "/" f Hf Hp).
  - rewrite to_str_snoc. apply (name_of_text _ f Hf Hp).
Qed.

End PathFacts.

(** ** The shape of a cache key *)
Section DigestFacts.

Lemma hex_digit_hex (n : Z) :
  0 <= n < 16 -> PyStr.one_of "0123456789abcdef" (MD5.hex_digit n) = true.
Proof.
  intros Hn. rewrite <- (Z2Nat.id n) by lia.
  assert (Hk : (Z.to_nat n < 16)%nat) by lia.
  revert Hk. generalize (Z.to_nat n). intros k Hk.
  do 16 (destruct k as [|k]; [reflexivity|]). lia.
Qed.

Lemma hex_chars (l : list Z) :
  Forall (fun x => 0 <= x < 256) l ->
  String.length (MD5.hex l) = (2 * length l)%nat
  /\ forallb (PyStr.one_of "0123456789abcdef") (list_ascii_of_string (MD5.hex l)) = true.
Proof.
  induction 1 as [|x l Hx Hl [IHlen IHall]]; [split; reflexivity|].
  cbn [MD5.hex String.length length list_ascii_of_string forallb]. split; [lia|].
  rewrite IHall, !hex_digit_hex; [reflexivity| |].
  - change 15 with (Z.ones 4). rewrite Z.land_ones by lia.
    apply Z.mod_pos_bound. reflexivity.
  - rewrite Z.shiftr_div_pow2 by lia. change (2 ^ 4) with 16.
    split; [apply Z.div_pos; lia | apply Z.div_lt_upper_bound; lia].
Qed.

Lemma le_bytes_range (n : nat) (x : Z) :
  length (MD5.le_bytes n x) = n /\ Forall (fun b => 0 <= b < 256) (MD5.le_bytes n x).
Proof.
  unfold MD5.le_bytes. split; [now rewrite List.length_map, List.length_seq|].
  apply Forall_map, Forall_forall. intros k _. cbn beta.
  change 255 with (Z.ones 8). rewrite Z.land_ones by lia.
  apply Z.mod_pos_bound. reflexivity.
Qed.

Lemma hexdigest_is_hex (data : bytes) : is_hex_digest (MD5.hexdigest data) = true.
Proof.
  unfold is_hex_digest, MD5.hexdigest, MD5.digest.
  set (st := MD5.blocks _ _ _).
  assert (Hrange : Forall (fun b => 0 <= b < 256)
            (MD5.le_bytes 4 (MD5.sa st) ++ MD5.le_bytes 4 (MD5.sb st)
             ++ MD5.le_bytes 4 (MD5.sc st) ++ MD5.le_bytes 4 (MD5.sd st))).
  { repeat (apply Forall_app; split); apply le_bytes_range. }
  destruct (hex_chars _ Hrange) as [Hlen Hall].
  rewrite Hlen, Hall, !List.length_app.
  rewrite !(proj1 (le_bytes_range 4 _)). reflexivity.
Qed.

Lemma prefix_char (ch c : ascii) (r : string) :
  String.prefix (String ch "") (String c r) = Ascii.eqb ch c.
Proof.
  cbn [String.prefix]. destruct (ascii_dec ch c) as [->|Hne].
  - rewrite Ascii.eqb_refl. now destruct r.
  - symmetry. now apply Ascii.eqb_neq.
Qed.

Lemma contains_char_append (ch : ascii) (a b : string) :
  PyStr.contains (String ch "") (a +:+ b)
  = PyStr.contains (String ch "") a || PyStr.contains (String ch "") b.
Proof.
  induction a as [|c r IH]; [now rewrite append_nil|].
  rewrite append_cons, !contains_cons, !prefix_char, IH. apply orb_assoc.
Qed.

Lemma hex_no_slash (s : string) :
  forallb (PyStr.one_of "0123456789abcdef") (list_ascii_of_string s) = true ->
  PyStr.contains "/" s = false.
Proof.
  induction s as [|c r IH]; [reflexivity|].
  cbn [list_ascii_of_string forallb]. intros Hall.
  apply andb_true_iff in Hall as [Hc Hr].
  rewrite contains_cons, (IH Hr), orb_false_r, prefix_char.
  destruct (Ascii.eqb_spec "/" c) as [<-|Hne]; [discriminate Hc | reflexivity].
Qed.

Lemma video_filename_is_name (key : string) :
  PyStr.contains "/" key = false ->
  PyStr.contains "/" (Generator.video_filename key) = false
  /\ PurePath.is_part (Generator.video_filename key) = true.
Proof.
  intros Hkey. unfold Generator.video_filename. split; [|reflexivity].
  now rewrite !contains_char_append, Hkey.
Qed.

End DigestFacts.

(** ** Saving the video *)
Section SaveFacts.
Context `{PyLib} `{Disk}.

(** For a URI that is a string, [download_video_any] is [download_video]. *)
Lemma download_video_any_str (self : Service.t) (video_uri : string) :
  Service.download_video_any self (JStr video_uri) = Service.download_video self video_uri.
Proof.
  unfold Service.download_video_any, Service.download_video, Service.download_uri.
  cbn [py_in py_str].
  destruct (PyStr.contains "generativelanguage.googleapis.com" video_uri);
    [destruct (PyStr.contains "key=" video_uri)|]; reflexivity.
Qed.

Lemma download_video_any_nonempty (self : Service.t) (video_uri : json) (w w' : World)
    (data : bytes) :
  Service.download_video_any self video_uri w = (Ok data, w') -> data <> [].
Proof.
  unfold Service.download_video_any. intros Hrun.
  apply bind_ok_inv in Hrun as (? & ? & _ & Hrun).
  apply bind_ok_inv in Hrun as (? & ? & _ & Hrun).
  apply bind_ok_inv in Hrun as (? & ? & _ & Hrun).
  apply bind_ok_inv in Hrun as (resp & ? & _ & Hrun).
  apply bind_ok_inv in Hrun as (? & ? & _ & Hrun).
  destruct (content resp); [discriminate|].
  injection Hrun as <- _. discriminate.
Qed.

Lemma write_file_inv (p : PurePath.t) (data : bytes) (w w' : World) (u : unit) :
  write_file p data w = (Ok u, w') ->
  fs w' = <[PurePath.to_str p := File data]> (fs w)
  /\ remote w' = remote w /\ trace w' = trace w /\ clock w' = clock w.
Proof.
  unfold write_file. cbv zeta.
  destruct (fs w !! _) as [[]|]; destruct (write_ends w (PurePath.to_str p) data);
    intros Hw; try discriminate Hw;
    injection Hw as _ <-; cbn [fs remote trace clock]; auto.
Qed.

(** A write that fails leaves the files as they were, or it was
    interrupted and left the bytes written so far. *)
Lemma write_file_failure (p : PurePath.t) (data : bytes) (w w' : World) (r : res unit) :
  write_file p data w = (r, w') ->
  (forall u, r <> Ok u) ->
  w' = w
  \/ exists written e,
       write_ends w (PurePath.to_str p) data = WriteFails written e
       /\ r = Raise e
       /\ fs w' = <[PurePath.to_str p := File (take written data)]> (fs w).
Proof.
  unfold write_file. cbv zeta. intros Hw Hne.
  destruct (fs w !! _) as [[]|];
    try (injection Hw as <- <-; left; reflexivity);
    (destruct (write_ends w (PurePath.to_str p) data) as [e|written e|] eqn:Hends;
     injection Hw as <- <-;
     [left; reflexivity
     |right; exists written, e; cbn [fs]; auto
     |now destruct (Hne tt)]).
Qed.

Lemma save_video_inv (self : Generator.t) (video_uri : json) (cache_key : string)
    (w w' : World) (p : string) :
  Generator.save_video self video_uri cache_key w = (Ok p, w') ->
  p = video_file self cache_key
  /\ exists data w1,
       Service.download_video_any (Generator.video_service self) video_uri w = (Ok data, w1)
       /\ fs w' = <[p := File data]> (fs w).
Proof.
  unfold Generator.save_video. intros Hrun.
  apply bind_ok_inv in Hrun as (data & w1 & Hdown & Hrun).
  apply bind_ok_inv in Hrun as (u & w2 & Hwrite & Hrun).
  injection Hrun as <- <-.
  apply write_file_inv in Hwrite as (Hfs & _).
  pose proof (quiet_download_video_any (Generator.video_service self) video_uri w)
    as [[Hfs1 _] _].
  rewrite Hdown in Hfs1. cbn [snd] in Hfs1.
  split; [reflexivity|]. exists data, w1. split; [exact Hdown|].
  rewrite Hfs, <- Hfs1. reflexivity.
Qed.

Lemma save_video_cached (self : Generator.t) (video_uri : json) (cache_key : string)
    (w w' : World) (p : string) :
  Generator.save_video self video_uri cache_key w = (Ok p, w') ->
  p = video_file self cache_key
  /\ Generator.get_cached_video self cache_key w'
     = (Ok (Some (cached_descriptor self cache_key)), w').
Proof.
  intros Hrun. apply save_video_inv in Hrun as (-> & data & w1 & _ & Hfs).
  split; [reflexivity|].
  apply get_cached_video_hit. rewrite Hfs, lookup_insert_eq. eauto.
Qed.

(** X1. What [save_video] returns is the path of the video file of the
    cache key. The file then holds the bytes that were downloaded, which
    are not empty; the other files are as before; and a cache lookup of
    the key finds the video. *)
Theorem save_video_then_cached (self : Generator.t) (video_uri : json) (cache_key : string)
    (w w' : World) (p : string) :
  Generator.save_video self video_uri cache_key w = (Ok p, w') ->
  p = video_file self cache_key
  /\ (exists data w1,
        Service.download_video_any (Generator.video_service self) video_uri w = (Ok data, w1)
        /\ data <> []
        /\ fs w' = <[p := File data]> (fs w))
  /\ Generator.get_cached_video self cache_key w'
     = (Ok (Some (cached_descriptor self cache_key)), w').
Proof.
  intros Hrun.
  destruct (save_video_inv _ _ _ _ _ _ Hrun) as (Hp & data & w1 & Hdown & Hfs).
  split; [exact Hp|]. split.
  - exists data, w1. split; [exact Hdown|]. split; [|exact Hfs].
    eapply download_video_any_nonempty, Hdown.
  - now apply save_video_cached in Hrun.
Qed.

Lemma video_url_eq (self : Generator.t) (key : string) :
  well_formed (Generator.video_dir self) = true ->
  PyStr.contains "/" key = false ->
  PurePath.name (PurePath.of_str (video_file self key)) = Generator.video_filename key.
Proof.
  intros Hwf Hkey. destruct (video_filename_is_name key Hkey) as [Hs Hp].
  unfold video_file. now apply name_joinpath.
Qed.

(** X2. When [poll_video_operation] returns for a cache key without ["/"]
    (as every key that [generate_cache_key] makes), the video is in the
    cache under that key: the file exists, and a later lookup of the key
    returns the same path and the same URL. *)
Theorem poll_video_operation_result_cached (fuel : nat) (self : Generator.t)
    (operation_name : json) (max_wait_seconds poll_interval_seconds : Z)
    (c : ascii) (r : string) (w w' : World) (v : Generator.video_result) :
  well_formed (Generator.video_dir self) = true ->
  PyStr.contains "/" (String c r) = false ->
  Generator.poll_video_operation fuel self operation_name max_wait_seconds
    poll_interval_seconds (Some (String c r)) w = (Ok v, w') ->
  let cached := cached_descriptor self (String c r) in
  Generator.get_cached_video self (String c r) w' = (Ok (Some cached), w')
  /\ Generator.vr_videoPath v = Generator.videoPath cached
  /\ Generator.vr_videoUrl v = Generator.videoUrl cached
  /\ Generator.vr_embedUrl v = Generator.embed_html (Generator.videoUrl cached)
  /\ Generator.vr_status v = Generator.status cached.
Proof.
  intros Hwf Hkey Hrun cached.
  unfold Generator.poll_video_operation in Hrun.
  apply bind_ok_inv in Hrun as (data & w1 & _ & Hrun).
  apply bind_ok_inv in Hrun as (uri & w2 & _ & Hrun).
  apply bind_ok_inv in Hrun as (p & w3 & Hsave & Hrun).
  injection Hrun as <- <-.
  apply save_video_cached in Hsave as (-> & Hcached).
  rewrite (video_url_eq self _ Hwf Hkey).
  cbn [Generator.vr_videoPath Generator.vr_videoUrl Generator.vr_embedUrl
       Generator.vr_status].
  repeat split; try reflexivity. exact Hcached.
Qed.

End SaveFacts.

Section PollResultFacts.
Context `{PyLib} `{Disk}.

Lemma save_video_failure (self : Generator.t) (video_uri : json) (cache_key : string)
    (w w' : World) (r : res string) :
  Generator.save_video self video_uri cache_key w = (r, w') ->
  (forall p, r <> Ok p) ->
  fs w' = fs w
  \/ exists data w1 written e,
       Service.download_video_any (Generator.video_service self) video_uri w = (Ok data, w1)
       /\ write_ends w1 (video_file self cache_key) data = WriteFails written e
       /\ r = Raise e
       /\ fs w' = <[video_file self cache_key := File (take written data)]> (fs w).
Proof.
  unfold Generator.save_video. intros Hrun Hfail.
  pose proof (quiet_download_video_any (Generator.video_service self) video_uri w)
    as [[Hfs1 _] _].
  unfold bind in Hrun.
  destruct (Service.download_video_any _ _ w) as [[data|e|] w1] eqn:Hdown; cbn [snd] in *;
    try (injection Hrun as _ <-; left; symmetry; exact Hfs1).
  destruct (write_file _ data w1) as [[u|e|] w2] eqn:Hwrite;
    injection Hrun as <- <-.
  - now destruct (Hfail (PurePath.to_str (PurePath.joinpath (Generator.video_dir self)
                           (Generator.video_filename cache_key)))).
  - apply write_file_failure in Hwrite as [->|(written & e' & Hends & [= ->] & Hfs)];
      [left; symmetry; exact Hfs1| |intros ? [=]].
    right. exists data, w1, written, e'. rewrite Hfs1. auto.
  - apply write_file_failure in Hwrite as [->|(written & e' & Hends & [=] & Hfs)];
      [left; symmetry; exact Hfs1|intros ? [=]].
Qed.

(** The last step of [poll_video_operation], saving the video, when it
    fails. *)
Lemma poll_video_operation_save_failure (self : Generator.t) (operation_name uri : json)
    (cache_key : option string) (k : string -> M Generator.video_result)
    (w w' : World) (r : res Generator.video_result) :
  (let* video_path :=
     match cache_key with
     | Some (String c r) => Generator.save_video self uri (String c r)
     | _ =>
         let* key := lift (Generator.last_segment operation_name) in
         Generator.save_video self uri key
     end in
   k video_path) w = (r, w') ->
  (forall v, r <> Ok v) ->
  (forall p w, exists v, k p w = (Ok v, w)) ->
  fs w' = fs w
  \/ exists key data w1 written e,
       saved_under operation_name cache_key = Ok key
       /\ Service.download_video_any (Generator.video_service self) uri w = (Ok data, w1)
       /\ write_ends w1 (video_file self key) data = WriteFails written e
       /\ r = Raise e
       /\ fs w' = <[video_file self key := File (take written data)]> (fs w).
Proof.
  intros Hrun Hfail Hk.
  assert (Hsave : forall key,
            saved_under operation_name cache_key = Ok key ->
            (let* video_path := Generator.save_video self uri key in k video_path) w
            = (r, w') ->
            fs w' = fs w
            \/ exists key data w1 written e,
                 saved_under operation_name cache_key = Ok key
                 /\ Service.download_video_any (Generator.video_service self) uri w
                    = (Ok data, w1)
                 /\ write_ends w1 (video_file self key) data = WriteFails written e
                 /\ r = Raise e
                 /\ fs w' = <[video_file self key := File (take written data)]> (fs w)).
  { intros key Hkey Hs. unfold bind in Hs.
    destruct (Generator.save_video self uri key w) as [[p|e|] w2] eqn:Hsv.
    - destruct (Hk p w2) as [v Hv]. rewrite Hv in Hs. injection Hs as <- <-.
      exfalso; eapply Hfail; reflexivity.
    - injection Hs as <- <-.
      destruct (save_video_failure _ _ _ _ _ _ Hsv)
        as [Hfs|(data & w1 & n & e' & Hd & He & [= ->] & Hfs)];
        [intros ? [=]|left; exact Hfs|].
      right. exists key, data, w1, n, e'. auto 10.
    - injection Hs as <- <-.
      destruct (save_video_failure _ _ _ _ _ _ Hsv)
        as [Hfs|(data & w1 & n & e' & Hd & He & [=] & Hfs)];
        [intros ? [=]|left; exact Hfs]. }
  destruct cache_key as [[|c s]|]; [|now apply (Hsave (String c s))|];
    (destruct (Generator.last_segment operation_name) as [key|e|] eqn:Hlast;
     [apply (Hsave key Hlast); rewrite <- Hrun; unfold bind, lift; reflexivity
     |unfold bind, lift in Hrun; injection Hrun as _ <-; left; reflexivity..]).
Qed.

(** X3. Unless [poll_video_operation] returns the video, it leaves every
    file as it was, with one exception. A timeout, a failed poll, a
    completed operation without a video (blocked by the safety filters or
    malformed), a failed download and a file that cannot be opened change
    nothing. The exception is a write that fails after the file was
    opened: the video file of the key then holds the bytes written so far,
    a prefix of the downloaded ones, and the exception of the write is
    raised; the other files are as before. *)
Theorem poll_video_operation_failure_files (fuel : nat) (self : Generator.t)
    (operation_name : json) (max_wait_seconds poll_interval_seconds : Z)
    (cache_key : option string) (w w' : World) (r : res Generator.video_result) :
  Generator.poll_video_operation fuel self operation_name max_wait_seconds
    poll_interval_seconds cache_key w = (r, w') ->
  (forall v, r <> Ok v) ->
  fs w' = fs w
  \/ exists operation_data video_uri key data w1 w2 written e,
       Service.poll_operation_status fuel (Generator.video_service self)
         (py_str operation_name) max_wait_seconds poll_interval_seconds w
       = (Ok operation_data, w1)
       /\ Service.extract_video_uri operation_data = Ok video_uri
       /\ saved_under operation_name cache_key = Ok key
       /\ Service.download_video_any (Generator.video_service self) video_uri w1
          = (Ok data, w2)
       /\ write_ends w2 (video_file self key) data = WriteFails written e
       /\ r = Raise e
       /\ fs w' = <[video_file self key := File (take written data)]> (fs w).
Proof.
  unfold Generator.poll_video_operation. intros Hrun Hfail.
  pose proof (quiet_poll_operation_status fuel (Generator.video_service self)
                (py_str operation_name) max_wait_seconds poll_interval_seconds w)
    as [[Hfs1 _] _].
  unfold bind at 1 in Hrun.
  destruct (Service.poll_operation_status _ _ _ _ _ w) as [[data|e|] w1] eqn:Hpoll;
    cbn [snd] in *;
    try (injection Hrun as _ <-; left; symmetry; exact Hfs1).
  unfold bind at 1, lift at 1 in Hrun.
  destruct (Service.extract_video_uri data) as [uri|e|] eqn:Huri;
    try (injection Hrun as _ <-; left; symmetry; exact Hfs1).
  rewrite Hfs1. clear Hfs1.
  apply poll_video_operation_save_failure in Hrun
    as [Hfs|(key & bytes & w2 & written & e & Hkey & Hdown & Hends & Hr & Hfs)];
    [left; exact Hfs| |exact Hfail|intros p w0; eexists; reflexivity].
  right. exists data, uri, key, bytes, w1, w2, written, e. auto 10.
Qed.

End PollResultFacts.

(** ** The poll loop, whatever the remote side answers *)
Section PollGeneral.

Lemma raise_for_status_ends (r : response) : raise_for_status r <> OutOfFuel.
Proof.
  unfold raise_for_status.
  destruct (_ && _); [discriminate|]. destruct (_ && _); discriminate.
Qed.

Lemma response_json_ends (r : response) : response_json r <> OutOfFuel.
Proof. unfold response_json. destruct (json_body r); discriminate. Qed.

Lemma py_get_ends (v : json) (k : string) (d : json) : py_get v k d <> OutOfFuel.
Proof. destruct v; discriminate. Qed.

Variables (self : Service.t) (poll_url : string).
Variables (start_time max_wait_seconds poll_interval_seconds : Z).

Local Abbreviation poll_request := (GET poll_url (Service.poll_headers self)).

(** One turn of the loop: it ends the loop with a value or an exception,
    or the loop goes on in a world where the interval has been waited. *)
Lemma poll_loop_step (fuel : nat) (w : World) :
  0 < poll_interval_seconds ->
  (exists r w', r <> OutOfFuel
     /\ Service.poll_loop (S fuel) self poll_url start_time max_wait_seconds
          poll_interval_seconds w = (r, w'))
  \/ (clock w - start_time <= 1000 * max_wait_seconds
      /\ Service.poll_loop (S fuel) self poll_url start_time max_wait_seconds
           poll_interval_seconds w
         = Service.poll_loop fuel self poll_url start_time max_wait_seconds
             poll_interval_seconds
             (after_turn (remote w) poll_request poll_interval_seconds w)).
Proof.
  intros Hpos. cbn [Service.poll_loop].
  erewrite bind_ok by reflexivity. rewrite Z.gtb_ltb.
  destruct (Z.ltb_spec (1000 * max_wait_seconds) (clock w - start_time)) as [Hup|Hnot].
  { left. eexists _, _. split; [|reflexivity]. discriminate. }
  match goal with
  | |- context [bind ?t ?k w] =>
      assert (Hturn :
        (exists r w', t w = (r, w') /\ r <> OutOfFuel /\ r <> Ok None)
        \/ t w = (Ok None, after_turn (remote w) poll_request poll_interval_seconds w))
  end.
  { unfold after_turn, try_except, bind, http, lift.
    destruct (remote w (trace w) poll_request) as [d [msg|resp]] eqn:Hreply;
      cbn [outcome duration].
    { left. eexists _, _. split; [reflexivity|]. split; discriminate. }
    pose proof (raise_for_status_ends resp) as Hst.
    destruct (raise_for_status resp) as [[]|e|]; [| |congruence].
    2:{ left. destruct (is_request_exception e); eexists _, _;
          (split; [reflexivity|]); split; discriminate. }
    pose proof (response_json_ends resp) as Hjs.
    destruct (response_json resp) as [data|e|]; [| |congruence].
    2:{ left. destruct (is_request_exception e); eexists _, _;
          (split; [reflexivity|]); split; discriminate. }
    pose proof (py_get_ends data "done" (JBool false)) as Hget.
    destruct (py_get data "done" (JBool false)) as [v|e|]; [| |congruence].
    2:{ left. destruct (is_request_exception e); eexists _, _;
          (split; [reflexivity|]); split; discriminate. }
    destruct (py_truthy v).
    { left. eexists _, _. split; [reflexivity|]. split; discriminate. }
    right. rewrite (wait_interval_run _ _ _ Hpos). reflexivity. }
  destruct Hturn as [(r & w' & Hrun & Hfuel & Hnone) | Hrun].
  - left. unfold bind at 1. rewrite Hrun.
    destruct r as [[data|]|e|]; try congruence;
      eexists _, _; (split; [|reflexivity]); discriminate.
  - right. split; [exact Hnot|]. unfold bind at 1. rewrite Hrun. reflexivity.
Qed.

Lemma poll_loop_ends (n : nat) :
  forall w,
    0 < poll_interval_seconds ->
    answers_in_time (remote w) ->
    1000 * max_wait_seconds - (clock w - start_time)
      < 1000 * poll_interval_seconds * Z.of_nat n ->
    forall fuel, (n < fuel)%nat ->
      fst (Service.poll_loop fuel self poll_url start_time max_wait_seconds
             poll_interval_seconds w) <> OutOfFuel.
Proof.
  induction n as [|n IH]; intros w Hpos Htime Hbound [|fuel] Hfuel; try lia.
  - rewrite poll_loop_time_up by lia. discriminate.
  - destruct (poll_loop_step fuel w Hpos) as [(r & w' & Hr & ->) | [Hnot ->]];
      [exact Hr|].
    apply IH; [exact Hpos | exact Htime | | lia].
    unfold after_turn. cbn [clock]. specialize (Htime (trace w) poll_request). lia.
Qed.

(** A value that the loop returns is the body of a successful response to
    the last request, and it reports [done]. *)
Lemma poll_loop_returns (fuel : nat) :
  forall w w' data,
    Service.poll_loop fuel self poll_url start_time max_wait_seconds
      poll_interval_seconds w = (Ok data, w') ->
    exists tr d resp v,
      trace w' = (tr ++ [poll_request])%list
      /\ remote w tr poll_request = Reply d (inr resp)
      /\ raise_for_status resp = Ok tt
      /\ json_body resp = inr data
      /\ py_get data "done" (JBool false) = Ok v
      /\ py_truthy v = true.
Proof.
  induction fuel as [|fuel IH]; intros w w' data Hrun; [discriminate|].
  cbn [Service.poll_loop] in Hrun.
  apply bind_ok_inv in Hrun as (now & w0 & [= <- <-] & Hrun).
  destruct (_ >? _); [discriminate|].
  apply bind_ok_inv in Hrun as (finished & w1 & Hturn & Hrun).
  pose proof (quiet_poll_loop fuel self poll_url start_time max_wait_seconds
                poll_interval_seconds) as Hq.
  unfold try_except in Hturn.
  match type of Hturn with
  | context [bind ?m ?k w] => destruct (bind m k w) as [[a|e|] wa] eqn:Hbody
  end; [|destruct (is_request_exception e); discriminate|discriminate].
  injection Hturn as -> ->.
  apply bind_ok_inv in Hbody as (resp & wb & Hhttp & Hbody).
  unfold http in Hhttp.
  destruct (remote w (trace w) poll_request) as [d [msg|resp']] eqn:Hreply;
    cbn [outcome duration] in Hhttp; [discriminate|].
  injection Hhttp as -> <-.
  apply bind_ok_inv in Hbody as ([] & ? & Hst & Hbody).
  injection Hst as Hst <-.
  apply bind_ok_inv in Hbody as (data' & ? & Hjs & Hbody).
  injection Hjs as Hjs <-.
  apply bind_ok_inv in Hbody as (v & ? & Hget & Hbody).
  injection Hget as Hget <-.
  destruct (py_truthy v) eqn:Hv.
  - injection Hbody as <- <-. injection Hrun as <- <-.
    exists (trace w), d, resp, v. repeat split; try assumption.
    unfold response_json in Hjs. destruct (json_body resp); congruence.
  - apply bind_ok_inv in Hbody as ([] & wc & Hwait & Hbody).
    injection Hbody as <- <-.
    pose proof (quiet_wait_interval self poll_interval_seconds
                  (MkWorld (fs w) (clock w + d) (remote w) (trace w ++ [poll_request])))
      as [[_ Hrem] _].
    rewrite Hwait in Hrem. cbn [snd remote] in Hrem.
    apply IH in Hrun as (tr & d' & resp2 & v2 & Htr & Hreply2 & Hrest).
    exists tr, d', resp2, v2. split; [exact Htr|]. split; [|exact Hrest].
    now rewrite Hrem.
Qed.

End PollGeneral.

(** X4. With a positive poll interval and a remote side that takes no
    negative time to answer, [poll_operation_status] always ends: after at
    most [max_wait_seconds / poll_interval_seconds + 2] turns of its loop it
    has returned or raised, whatever the remote side answers. *)
Theorem poll_operation_status_ends (self : Service.t) (operation_name : string)
    (max_wait_seconds poll_interval_seconds : Z) (w : World) (fuel : nat) :
  0 < poll_interval_seconds ->
  answers_in_time (remote w) ->
  (Z.to_nat (max_wait_seconds / poll_interval_seconds) + 2 <= fuel)%nat ->
  fst (Service.poll_operation_status fuel self operation_name max_wait_seconds
         poll_interval_seconds w) <> OutOfFuel.
Proof.
  intros Hpos Htime Hfuel. unfold Service.poll_operation_status.
  destruct (Service.is_available self); cbn [negb]; [|discriminate].
  erewrite bind_ok by reflexivity.
  apply (poll_loop_ends self _ (clock w) max_wait_seconds poll_interval_seconds
           (Z.to_nat (max_wait_seconds / poll_interval_seconds) + 1) w Hpos Htime);
    [|lia].
  destruct (Z_lt_le_dec max_wait_seconds 0) as [Hneg | Hnonneg].
  - assert (0 <= Z.of_nat (Z.to_nat (max_wait_seconds / poll_interval_seconds))) by lia.
    nia.
  - pose proof (Z.mul_succ_div_gt max_wait_seconds poll_interval_seconds Hpos).
    assert (0 <= max_wait_seconds / poll_interval_seconds) by (apply Z.div_pos; lia).
    rewrite Nat2Z.inj_add, Z2Nat.id by assumption. nia.
Qed.

(** X5. What [poll_operation_status] returns is the decoded body of the
    response to its last request, a poll of the operation answered with a
    successful status, and that body reports [done]; no file has changed
    and no submission was made. *)
Theorem poll_operation_status_returns_done (fuel : nat) (self : Service.t)
    (operation_name : string) (max_wait_seconds poll_interval_seconds : Z)
    (w w' : World) (data : json) :
  Service.poll_operation_status fuel self operation_name max_wait_seconds
    poll_interval_seconds w = (Ok data, w') ->
  (exists tr d resp v,
     trace w' =
       (tr ++ [GET (Service.base_url self +:+ "/" +:+ operation_name)
                 (Service.poll_headers self)])%list
     /\ remote w tr (GET (Service.base_url self +:+ "/" +:+ operation_name)
                       (Service.poll_headers self)) = Reply d (inr resp)
     /\ raise_for_status resp = Ok tt
     /\ json_body resp = inr data
     /\ py_get data "done" (JBool false) = Ok v
     /\ py_truthy v = true)
  /\ fs w' = fs w
  /\ posts (trace w') = posts (trace w).
Proof.
  intros Hrun.
  pose proof (quiet_poll_operation_status fuel self operation_name max_wait_seconds
                poll_interval_seconds w) as [[Hfs _] Hposts].
  rewrite Hrun in Hfs, Hposts. cbn [snd] in *.
  split; [|split; [now symmetry | exact Hposts]].
  unfold Service.poll_operation_status in Hrun.
  destruct (Service.is_available self); cbn [negb] in Hrun; [|discriminate].
  apply bind_ok_inv in Hrun as (st & w0 & [= <- <-] & Hrun).
  eapply poll_loop_returns, Hrun.
Qed.

(** ** Submissions *)
Section SubmitFacts.
Context `{PyLib}.

Lemma py_in_ends (k : string) (v : json) : py_in k v <> OutOfFuel.
Proof. destruct v; discriminate. Qed.

Lemma py_getitem_ends (v : json) (k : string) : py_getitem v k <> OutOfFuel.
Proof. destruct v; try discriminate. cbn. destruct (assoc k o); discriminate. Qed.

Lemma posts_snoc_post (tr : list request) (url : string) (hs : list (string * string))
    (payload : json) :
  posts (tr ++ [POST url hs payload]) = (posts tr ++ [POST url hs payload])%list.
Proof. unfold posts. now rewrite List.filter_app. Qed.

Ltac submit_cases w :=
  unfold try_except, bind, http, lift;
  destruct (remote w (trace w) _) as [? [?|resp]]; cbn [outcome duration fst snd];
  [cbn; auto|];
  pose proof (raise_for_status_ends resp);
  destruct (raise_for_status resp) as [[]|e|]; [| |congruence];
  [|destruct (is_request_exception e); cbn; auto];
  pose proof (response_json_ends resp);
  destruct (response_json resp) as [data|e|]; [| |congruence];
  [|destruct (is_request_exception e); cbn; auto];
  pose proof (py_in_ends "name" data);
  destruct (py_in "name" data) as [[]|e|]; [| | |congruence]; cbn [negb];
  [|cbn; auto|destruct (is_request_exception e); cbn; auto];
  pose proof (py_getitem_ends data "name");
  destruct (py_getitem data "name") as [?|e|]; [| |congruence];
  [|destruct (is_request_exception e); cbn; auto];
  pose proof (py_get_ends data "done" (JBool false));
  destruct (py_get data "done" (JBool false)) as [?|e|]; [| |congruence];
  [|destruct (is_request_exception e); cbn; auto];
  cbn; auto.

Lemma submit_trace (self : Service.t) (prompt : string) (image_data : bytes)
    (mime_type aspect_ratio : string) (second_image_data : option bytes)
    (second_mime_type : option string) (w : World) :
  Service.is_available self = true ->
  trace (snd (Service.submit_video_generation_request self prompt image_data mime_type
                aspect_ratio second_image_data second_mime_type w))
  = (trace w ++
     [POST (Service.submit_endpoint self) (Service.submit_headers self)
        (Service.submit_payload prompt image_data mime_type aspect_ratio
           second_image_data second_mime_type)])%list.
Proof.
  intros Havail. unfold Service.submit_video_generation_request.
  rewrite Havail. cbn [negb]. submit_cases w.
Qed.

(** X6. [submit_video_generation_request] makes exactly one request, the
    submission, when the service has an API key and none without one; it
    changes no file; and whatever goes wrong (the transport, the status,
    the decoding, the shape of the answer) it raises a [RuntimeError]. *)
Theorem submit_request_outcome (self : Service.t) (prompt : string) (image_data : bytes)
    (mime_type aspect_ratio : string) (second_image_data : option bytes)
    (second_mime_type : option string) (w : World) :
  let run :=
    Service.submit_video_generation_request self prompt image_data mime_type aspect_ratio
      second_image_data second_mime_type w in
  trace (snd run) =
    (trace w ++
     if Service.is_available self
     then [POST (Service.submit_endpoint self) (Service.submit_headers self)
             (Service.submit_payload prompt image_data mime_type aspect_ratio
                second_image_data second_mime_type)]
     else [])%list
  /\ fs (snd run) = fs w
  /\ match fst run with
     | Ok result => True
     | Raise e => exn_cls e = RuntimeError
     | OutOfFuel => False
     end.
Proof.
  unfold Service.submit_video_generation_request.
  destruct (Service.is_available self); cbn [negb];
    [|cbn; rewrite app_nil_r; auto].
  submit_cases w.
Qed.

End SubmitFacts.

Section BindRun.
Context {A B : Type}.

(** A run of [bind m k]: [m] returned and [k] ran, or [m] did not return. *)
Lemma bind_run (m : M A) (k : A -> M B) (w w' : World) (r : res B) :
  bind m k w = (r, w') ->
  (exists a w1, m w = (Ok a, w1) /\ k a w1 = (r, w'))
  \/ (snd (m w) = w' /\ forall b, r <> Ok b).
Proof.
  unfold bind. destruct (m w) as [[a|e|] w1]; [eauto|..];
    intros [= <- <-]; right; split; try reflexivity; discriminate.
Qed.

End BindRun.

Ltac not_returned Hne :=
  match goal with
  | |- match ?r with _ => _ end =>
      destruct r as [[]| |]; trivial; exfalso; eapply Hne; reflexivity
  end.

Section GenerateFacts.
Context `{PyLib}.

Lemma get_cached_video_eq (self : Generator.t) (key : string) (w : World) :
  Generator.get_cached_video self key w
  = (Ok (if bool_decide (is_Some (fs w !! video_file self key))
         then Some (cached_descriptor self key) else None), w).
Proof.
  unfold Generator.get_cached_video, bind, path_exists, video_file. cbn beta iota.
  destruct (bool_decide _); reflexivity.
Qed.

Lemma quiet_second_image (self : Generator.t) (second_image_path : option string) :
  preserves quiet
    (match second_image_path with
     | Some (String c r) =>
         let* (d, m, s) := Generator._load_image self (String c r) in
         ret (Some d, Some m, Some s)
     | _ => ret (None, None, None)
     end).
Proof.
  destruct second_image_path as [[|c r]|]; try apply preserves_ret; try exact _.
  apply preserves_bind; [exact _ | apply reads_only_quiet, reads_only_load_image|].
  intros [[d m] s]. apply preserves_ret. exact _.
Qed.

(** X7. [generate_video_from_image] never changes a file and makes at most
    one submission. When it returns a cached video, it made none; when it
    returns a started operation, the cache had no video under the key of
    the operation, and the submission is the last request made. *)
Theorem generate_video_submits_on_miss (self : Generator.t)
    (image_path prompt aspect_ratio : string) (silent_video : bool)
    (second_image_path : option string) (auto_reference_images : bool)
    (w w' : World) (r : res Generator.gen_result) :
  Generator.generate_video_from_image self image_path prompt aspect_ratio silent_video
    second_image_path auto_reference_images w = (r, w') ->
  fs w' = fs w
  /\ (posts (trace w') = posts (trace w)
      \/ exists payload,
           let submission :=
             POST (Service.submit_endpoint (Generator.video_service self))
               (Service.submit_headers (Generator.video_service self)) payload in
           posts (trace w') = (posts (trace w) ++ [submission])%list
           /\ exists tr, trace w' = (tr ++ [submission])%list)
  /\ match r with
     | Ok (Generator.FromCache c) =>
         posts (trace w') = posts (trace w)
         /\ exists key, c = cached_descriptor self key /\ is_Some (fs w !! video_file self key)
     | Ok (Generator.Started o) =>
         posts (trace w') <> posts (trace w)
         /\ fs w !! video_file self (Generator.cacheKey o) = None
     | _ => True
     end.
Proof.
  intros Hrun.
  pose proof (same_env_generate_video self image_path prompt aspect_ratio silent_video
                second_image_path auto_reference_images w) as [Hfs _].
  rewrite Hrun in Hfs. cbn [snd] in Hfs. split; [now symmetry|]. clear Hfs.
  unfold Generator.generate_video_from_image in Hrun.
  destruct (Generator.is_available self) eqn:Havail; cbn [negb] in Hrun.
  2:{ injection Hrun as <- <-. auto. }
  apply bind_run in Hrun as [([[d m] src] & w1 & Hload & Hrun) | [<- Hne]].
  2:{ pose proof (reads_only_quiet _ (reads_only_load_image self image_path) w) as [_ Hp].
      split; [now left|]. not_returned Hne. }
  pose proof (reads_only_quiet _ (reads_only_load_image self image_path) w) as [[Hf1 _] Hp1].
  rewrite Hload in Hf1, Hp1. cbn [snd] in Hf1, Hp1.
  apply bind_run in Hrun as [([[d2 m2] src2] & w2 & Hload2 & Hrun) | [<- Hne]].
  2:{ pose proof (quiet_second_image self second_image_path w1) as [_ Hp].
      split; [left; congruence|]. not_returned Hne. }
  pose proof (quiet_second_image self second_image_path w1) as [[Hf2 _] Hp2].
  rewrite Hload2 in Hf2, Hp2. cbn [snd] in Hf2, Hp2.
  apply bind_run in Hrun as [(final & w3 & Hfinal & Hrun) | [<- Hne]].
  2:{ split; [left; unfold lift; cbn [snd]; congruence|].
      not_returned Hne. }
  injection Hfinal as Hfinal <-.
  apply bind_run in Hrun as [(key & w4 & Hkey & Hrun) | [<- Hne]].
  2:{ pose proof (reads_only_quiet _
                    (reads_only_generate_cache_key self src final aspect_ratio src2) w2)
        as [_ Hp].
      split; [left; congruence|]. not_returned Hne. }
  pose proof (reads_only_quiet _
                (reads_only_generate_cache_key self src final aspect_ratio src2) w2)
    as [[Hf4 _] Hp4].
  rewrite Hkey in Hf4, Hp4. cbn [snd] in Hf4, Hp4.
  apply bind_run in Hrun as [(cached & w5 & Hcached & Hrun) | [<- Hne]].
  2:{ rewrite get_cached_video_world.
      split; [left; congruence|]. not_returned Hne. }
  rewrite get_cached_video_eq in Hcached. injection Hcached as <- <-.
  assert (Hposts : posts (trace w4) = posts (trace w)) by congruence.
  assert (Hfs : fs w4 = fs w) by congruence.
  destruct (bool_decide (is_Some (fs w4 !! video_file self key))) eqn:Hfile.
  - injection Hrun as <- <-.
    split; [now left|]. split; [exact Hposts|].
    exists key. split; [reflexivity|].
    apply bool_decide_eq_true in Hfile. now rewrite <- Hfs.
  - apply bool_decide_eq_false in Hfile.
    assert (Hnone : fs w !! video_file self key = None).
    { rewrite <- Hfs. destruct (fs w4 !! _); [destruct Hfile; eauto | reflexivity]. }
    pose proof (submit_trace (Generator.video_service self) final d m aspect_ratio d2 m2
                  w4 Havail) as Htrace.
    apply bind_run in Hrun as [(result & w6 & Hsub & Hrun) | [<- Hne]].
    + injection Hrun as <- <-. rewrite Hsub in Htrace. cbn [snd] in Htrace.
      assert (Hp : posts (trace w6) =
                (posts (trace w) ++
                 [POST (Service.submit_endpoint (Generator.video_service self))
                    (Service.submit_headers (Generator.video_service self))
                    (Service.submit_payload final d m aspect_ratio d2 m2)])%list).
      { now rewrite Htrace, posts_snoc_post, Hposts. }
      split; [right; eexists; split; [exact Hp | eexists; exact Htrace]|].
      cbn [Generator.cacheKey]. split; [|exact Hnone].
      rewrite Hp. intros Heq. apply (f_equal (@length _)) in Heq.
      rewrite List.length_app in Heq. cbn in Heq. lia.
    + split; [|not_returned Hne].
      right. eexists. split; [|eexists; exact Htrace].
      now rewrite Htrace, posts_snoc_post, Hposts.
Qed.

End GenerateFacts.

Section UrlImageFacts.
Context `{PyLib}.

Lemma download_image_inv (url : string) (w w1 : World) (data : bytes) (mime : string) :
  Generator.download_image_from_url url w = (Ok (data, mime), w1) ->
  exists d resp,
    remote w (trace w) (GET url []) = Reply d (inr resp)
    /\ data = content resp
    /\ PyStr.truthy mime = true
    /\ w1 = MkWorld (fs w) (clock w + d) (remote w) (trace w ++ [GET url []]).
Proof.
  unfold Generator.download_image_from_url, try_except, bind, http, lift.
  destruct (remote w (trace w) (GET url [])) as [d [msg|resp]]; cbn [outcome duration].
  { discriminate. }
  destruct (raise_for_status resp) as [[]|e|]; [|destruct (is_request_exception e)|];
    try discriminate.
  unfold ret. intros [= <- <- <-]. exists d, resp. repeat split.
  destruct (_ || _) eqn:Hguess.
  - destruct (guess_type url) as [[|c r]|]; reflexivity.
  - apply orb_false_iff in Hguess as [Hnot _]. now apply negb_false_iff in Hnot.
Qed.

(** X8. For an image given by URL (and no second image), a call that starts
    an operation has fetched the URL twice before the submission: the
    payload carries the bytes of the first response, and the cache key
    hashes the bytes of the second. *)
Theorem url_image_downloaded_twice (self : Generator.t) (url prompt aspect_ratio : string)
    (silent_video auto_reference_images : bool) (w w' : World) (o : Generator.operation) :
  Generator.is_url url = true ->
  Generator.generate_video_from_image self url prompt aspect_ratio silent_video None
    auto_reference_images w = (Ok (Generator.Started o), w') ->
  let final_prompt :=
    if silent_video then PyStr.strip prompt +:+ " silent video" else prompt in
  exists d1 first d2 second mime,
    remote w (trace w) (GET url []) = Reply d1 (inr first)
    /\ remote w (trace w ++ [GET url []]) (GET url []) = Reply d2 (inr second)
    /\ trace w' =
       (trace w ++
        [GET url []; GET url [];
         POST (Service.submit_endpoint (Generator.video_service self))
           (Service.submit_headers (Generator.video_service self))
           (Service.submit_payload final_prompt (content first) mime aspect_ratio
              None None)])%list
    /\ Generator.cacheKey o =
       MD5.hexdigest
         (PyStr.encode
            (Generator.cache_data (MD5.hexdigest (content second)) "" final_prompt
               aspect_ratio)).
Proof.
  intros Hurl Hrun final_prompt.
  unfold Generator.generate_video_from_image in Hrun.
  destruct (Generator.is_available self); cbn [negb] in Hrun; [|discriminate].
  apply bind_ok_inv in Hrun as ([[d m] src] & w1 & Hload & Hrun).
  unfold Generator._load_image in Hload. rewrite Hurl in Hload.
  apply bind_ok_inv in Hload as ([d' m'] & w1' & Hdown & Hload).
  injection Hload as -> -> -> ->.
  apply download_image_inv in Hdown as (d1 & first & Hreply1 & -> & _ & ->).
  apply bind_ok_inv in Hrun as ([[d2 m2] src2] & w2 & Hsecond & Hrun).
  injection Hsecond as <- <- <- <-.
  apply bind_ok_inv in Hrun as (final & w3 & Hfinal & Hrun).
  injection Hfinal as <- <-.
  apply bind_ok_inv in Hrun as (key & w4 & Hkey & Hrun).
  unfold Generator.generate_cache_key in Hkey.
  apply bind_ok_inv in Hkey as (hash & w5 & Hhash & Hkey).
  unfold Generator.get_image_hash in Hhash. rewrite Hurl in Hhash.
  apply bind_ok_inv in Hhash as ([d3 m3] & w6 & Hdown2 & Hhash).
  injection Hhash as <- <-.
  apply download_image_inv in Hdown2 as (d2 & second & Hreply2 & -> & _ & ->).
  cbn [fs clock remote trace] in *.
  apply bind_ok_inv in Hkey as (hash2 & w7 & [= <- <-] & Hkey).
  injection Hkey as <- <-.
  apply bind_ok_inv in Hrun as (cached & w8 & Hcached & Hrun).
  rewrite get_cached_video_eq in Hcached. injection Hcached as <- <-.
  destruct (bool_decide _); [discriminate|].
  apply bind_ok_inv in Hrun as (result & w9 & Hsub & Hrun).
  injection Hrun as <- <-.
  apply submit_ok_trace in Hsub. cbn [trace] in Hsub.
  exists d1, first, d2, second, m. repeat split; try assumption.
  rewrite Hsub, <- !app_assoc. reflexivity.
Qed.

End UrlImageFacts.

(** ** Computations that end *)
Section Finishes.

Lemma finishes_same {A} (m : M A) :
  (forall w, fst (m w) <> OutOfFuel /\ remote (snd (m w)) = remote w) -> finishes m.
Proof. intros Hm w _. apply Hm. Qed.

Lemma finishes_ret {A} (a : A) : finishes (ret a).
Proof. apply finishes_same. intros w. split; [discriminate | reflexivity]. Qed.

Lemma finishes_raise {A} (e : exn) : finishes (@raise A e).
Proof. apply finishes_same. intros w. split; [discriminate | reflexivity]. Qed.

Lemma finishes_lift {A} (r : res A) : r <> OutOfFuel -> finishes (lift r).
Proof. intros Hr. apply finishes_same. intros w. split; [exact Hr | reflexivity]. Qed.

Lemma finishes_time_time : finishes time_time.
Proof. apply finishes_same. intros w. split; [discriminate | reflexivity]. Qed.

Lemma finishes_time_sleep (ms : Z) : finishes (time_sleep ms).
Proof.
  apply finishes_same. intros w. unfold time_sleep.
  destruct (ms <? 0); (split; [discriminate | reflexivity]).
Qed.

Lemma finishes_path_exists (p : PurePath.t) : finishes (path_exists p).
Proof. apply finishes_same. intros w. split; [discriminate | reflexivity]. Qed.

Lemma finishes_read_file (p : PurePath.t) : finishes (read_file p).
Proof.
  apply finishes_same. intros w. unfold read_file.
  destruct (fs w !! _) as [[]|]; (split; [discriminate | reflexivity]).
Qed.

Lemma finishes_write_file `{Disk} (p : PurePath.t) (data : bytes) :
  finishes (write_file p data).
Proof.
  apply finishes_same. intros w. unfold write_file. cbv zeta.
  destruct (fs w !! _) as [[]|]; try (split; [discriminate | reflexivity]);
    destruct (write_ends w (PurePath.to_str p) data);
    (split; [discriminate | reflexivity]).
Qed.

Lemma finishes_http (req : request) : finishes (http req).
Proof.
  apply finishes_same. intros w. unfold http.
  destruct (outcome _); (split; [discriminate | reflexivity]).
Qed.

Lemma finishes_bind {A B} (m : M A) (k : A -> M B) :
  finishes m -> (forall a, finishes (k a)) -> finishes (bind m k).
Proof.
  intros Hm Hk w Htime. destruct (Hm w Htime) as [Hne Hrem]. unfold bind.
  destruct (m w) as [[a|e|] w1]; cbn [fst snd] in *.
  - rewrite <- Hrem in Htime. destruct (Hk a w1 Htime) as [Hne' Hrem'].
    split; [exact Hne' | congruence].
  - split; [discriminate | exact Hrem].
  - now destruct Hne.
Qed.

Lemma finishes_try_except {A} (m : M A) (sel : exn -> bool) (h : exn -> M A) :
  finishes m -> (forall e, finishes (h e)) -> finishes (try_except m sel h).
Proof.
  intros Hm Hh w Htime. destruct (Hm w Htime) as [Hne Hrem]. unfold try_except.
  destruct (m w) as [[a|e|] w1]; cbn [fst snd] in *.
  - split; [discriminate | exact Hrem].
  - destruct (sel e); [|split; [discriminate | exact Hrem]].
    rewrite <- Hrem in Htime. destruct (Hh e w1 Htime) as [Hne' Hrem'].
    split; [exact Hne' | congruence].
  - now destruct Hne.
Qed.

Lemma rbind_ends {A B} (r : res A) (k : A -> res B) :
  r <> OutOfFuel -> (forall a, k a <> OutOfFuel) -> rbind r k <> OutOfFuel.
Proof. intros Hr Hk. destruct r; cbn; [apply Hk | discriminate | now destruct Hr]. Qed.

End Finishes.

Create HintDb finishes.

#[local] Hint Resolve finishes_ret finishes_raise finishes_time_time finishes_time_sleep
  finishes_path_exists finishes_read_file finishes_write_file finishes_http : finishes.

Ltac res_ends :=
  repeat first
    [ discriminate
    | apply rbind_ends; [|intros]
    | apply py_get_ends | apply py_in_ends | apply py_getitem_ends
    | apply raise_for_status_ends | apply response_json_ends
    | assumption
    | match goal with
      | |- (if ?b then _ else _) <> _ => destruct b
      | |- match ?x with _ => _ end <> _ => destruct x
      end ].

Ltac finishes_step :=
  first
    [ apply finishes_bind; [|intros]
    | apply finishes_try_except; [|intros]
    | assumption
    | solve [auto with finishes]
    | apply finishes_lift; solve [res_ends]
    | match goal with
      | |- finishes (if ?b then _ else _) => destruct b
      | |- finishes (match ?x with _ => _ end) => destruct x
      end ].

Section ServiceFinishes.
Context `{PyLib}.

Lemma str_items_ends (l : list json) : forall i, str_items i l <> OutOfFuel.
Proof.
  induction l as [|v l IH]; intros i; [discriminate|].
  destruct v; cbn [str_items]; try discriminate.
  apply rbind_ends; [apply IH | discriminate].
Qed.

Lemma py_join_ends (sep : string) (l : list json) : py_join sep l <> OutOfFuel.
Proof. unfold py_join. apply rbind_ends; [apply str_items_ends | discriminate]. Qed.

Lemma py_getitem0_ends (v : json) : py_getitem0 v <> OutOfFuel.
Proof. unfold py_getitem0. res_ends. Qed.

Lemma extract_video_uri_ends (operation_data : json) :
  Service.extract_video_uri operation_data <> OutOfFuel.
Proof.
  unfold Service.extract_video_uri.
  repeat first [apply str_items_ends | apply py_getitem0_ends | progress res_ends].
Qed.

Lemma finishes_submit (self : Service.t) (prompt : string) (image_data : bytes)
    (mime_type aspect_ratio : string) (d2 : option bytes) (m2 : option string) :
  finishes (Service.submit_video_generation_request self prompt image_data
              mime_type aspect_ratio d2 m2).
Proof. unfold Service.submit_video_generation_request. repeat finishes_step. Qed.

Lemma finishes_download_video_any (self : Service.t) (video_uri : json) :
  finishes (Service.download_video_any self video_uri).
Proof. unfold Service.download_video_any. repeat finishes_step. Qed.

End ServiceFinishes.

Section GeneratorFinishes.
Context `{PyLib} `{Disk}.

Lemma finishes_download_image (url : string) :
  finishes (Generator.download_image_from_url url).
Proof. unfold Generator.download_image_from_url. repeat finishes_step. Qed.

Lemma finishes_load_image (self : Generator.t) (image_path : string) :
  finishes (Generator._load_image self image_path).
Proof.
  unfold Generator._load_image.
  repeat first [apply finishes_download_image | finishes_step].
Qed.

Lemma finishes_get_image_hash (path : string) : finishes (Generator.get_image_hash path).
Proof.
  unfold Generator.get_image_hash.
  repeat first [apply finishes_download_image | finishes_step].
Qed.

Lemma finishes_generate_cache_key (self : Generator.t)
    (image_path prompt aspect_ratio : string) (second_image_path : option string) :
  finishes (Generator.generate_cache_key self image_path prompt aspect_ratio
              second_image_path).
Proof.
  unfold Generator.generate_cache_key.
  repeat first [apply finishes_get_image_hash | finishes_step].
Qed.

Lemma final_prompt_of_ends (prompt image_path : string) (second_image_path : option string)
    (auto_reference_images silent_video : bool) :
  Generator.final_prompt_of prompt image_path second_image_path auto_reference_images
    silent_video <> OutOfFuel.
Proof.
  unfold Generator.final_prompt_of, Generator._enhance_prompt_with_image_references,
    Generator._get_image_reference_name.
  res_ends.
Qed.

Lemma finishes_generate_video (self : Generator.t)
    (image_path prompt aspect_ratio : string) (silent_video : bool)
    (second_image_path : option string) (auto_reference_images : bool) :
  finishes (Generator.generate_video_from_image self image_path prompt aspect_ratio
              silent_video second_image_path auto_reference_images).
Proof.
  unfold Generator.generate_video_from_image, Generator.get_cached_video.
  repeat first
    [ apply finishes_load_image | apply finishes_generate_cache_key | apply finishes_submit
    | apply finishes_lift, final_prompt_of_ends
    | finishes_step ].
Qed.

Lemma finishes_save_video (self : Generator.t) (video_uri : json) (cache_key : string) :
  finishes (Generator.save_video self video_uri cache_key).
Proof.
  unfold Generator.save_video.
  repeat first [apply finishes_download_video_any | finishes_step].
Qed.

Lemma finishes_poll_operation_status (fuel : nat) (self : Service.t)
    (operation_name : string) :
  (32 <= fuel)%nat ->
  finishes (Service.poll_operation_status fuel self operation_name 300 10).
Proof.
  intros Hfuel w Htime. split.
  - unfold Service.poll_operation_status.
    destruct (Service.is_available self); cbn [negb]; [|discriminate].
    erewrite bind_ok by reflexivity.
    apply (poll_loop_ends self _ (clock w) 300 10 31 w); [lia | exact Htime | lia | lia].
  - pose proof (quiet_poll_operation_status fuel self operation_name 300 10 w)
      as [[_ Hrem] _].
    symmetry. exact Hrem.
Qed.

Lemma finishes_poll_video_operation (fuel : nat) (self : Generator.t)
    (operation_name : json) (cache_key : option string) :
  (32 <= fuel)%nat ->
  finishes (Generator.poll_video_operation fuel self operation_name 300 10 cache_key).
Proof.
  intros Hfuel. unfold Generator.poll_video_operation, Generator.last_segment.
  repeat first
    [ apply finishes_poll_operation_status; assumption
    | apply finishes_save_video
    | apply finishes_lift, extract_video_uri_ends
    | finishes_step ].
Qed.

Lemma finishes_process_image (fuel : nat) (g : Generator.t) (a : Cli.args) (path : string) :
  (32 <= fuel)%nat -> finishes (Cli.process_image fuel g a path).
Proof.
  intros Hfuel. unfold Cli.process_image.
  repeat first
    [ apply finishes_generate_video
    | apply finishes_poll_video_operation; assumption
    | finishes_step ].
Qed.

End GeneratorFinishes.

(** ** The command line *)
Section CliFacts.
Context `{PyLib} `{Disk}.

Lemma process_image_no_raise (fuel : nat) (g : Generator.t) (a : Cli.args) (path : string)
    (w : World) (e : exn) :
  fst (Cli.process_image fuel g a path w) <> Raise e.
Proof.
  unfold Cli.process_image, try_except.
  match goal with |- context [bind ?m ?k w] => destruct (bind m k w) as [[x|e'|] w1] end;
    cbn [fst]; try discriminate.
  destruct (exn_cls e'); discriminate.
Qed.

Lemma process_images_run (fuel : nat) (g : Generator.t) (a : Cli.args)
    (paths : list string) :
  forall results errors w,
    match fst (Cli.process_images fuel g a paths results errors w) with
    | Ok (results', errors') =>
        (length results' + length errors' = length results + length errors + length paths)%nat
        /\ (errors' = [] -> errors = [] /\ length results' = (length results + length paths)%nat)
    | Raise _ => False
    | OutOfFuel => True
    end.
Proof.
  induction paths as [|path rest IH]; intros results errors w.
  - cbn. split; [lia|]. intros ->. split; [reflexivity | lia].
  - cbn [Cli.process_images]. unfold bind.
    pose proof (process_image_no_raise fuel g a path w) as Hno.
    destruct (Cli.process_image fuel g a path w) as [[[item|item]|e|] w1]; cbn [fst] in *.
    + specialize (IH (results ++ [item])%list errors w1).
      destruct (fst _) as [[rs es]| |]; trivial.
      rewrite List.length_app in IH. cbn [length] in *.
      destruct IH as [Hlen Hnil]. split; [lia|].
      intros Hes. destruct (Hnil Hes). split; [assumption | lia].
    + specialize (IH results (errors ++ [item])%list w1).
      destruct (fst _) as [[rs es]| |]; trivial.
      rewrite List.length_app in IH. cbn [length] in *.
      destruct IH as [Hlen Hnil]. split; [lia|].
      intros Hes. destruct (Hnil Hes) as [Hno' _]. now destruct errors.
    + now destruct (Hno e).
    + exact I.
Qed.

Lemma finishes_process_images (fuel : nat) (g : Generator.t) (a : Cli.args)
    (paths : list string) :
  (32 <= fuel)%nat ->
  forall results errors, finishes (Cli.process_images fuel g a paths results errors).
Proof.
  intros Hfuel. induction paths as [|path rest IH]; intros results errors;
    cbn [Cli.process_images]; [apply finishes_ret|].
  apply finishes_bind; [now apply finishes_process_image|].
  intros [item|item]; apply IH.
Qed.

(** X9. [main], from the availability check on, never raises, and it ends
    when the remote side takes no negative time to answer: the poll loop
    of an image, with its 300 seconds and its interval of 10 seconds,
    takes 32 turns at most. The exit code is 0 or 1, and it is 0 exactly
    when the service is available and every image path gave an entry of
    [results], none of [errors]. *)
Theorem main_loop_exit_code (fuel : nat) (g : Generator.t) (a : Cli.args) (w : World) :
  answers_in_time (remote w) ->
  (32 <= fuel)%nat ->
  exists report code w',
    Cli.main_loop fuel g a w = (Ok (report, code), w')
    /\ (code = 0 \/ code = 1)
    /\ (code = 0 <->
        Generator.is_available g = true
        /\ exists results,
             Cli.process_images fuel g a (Cli.image_path a) [] [] w = (Ok (results, []), w')
             /\ length results = length (Cli.image_path a)).
Proof.
  intros Htime Hfuel.
  unfold Cli.main_loop, try_except.
  destruct (Generator.is_available g); cbn [negb].
  2:{ eexists _, _, _. split; [reflexivity|]. split; [now right|].
      split; [intros [=] | intros [Hf _]; discriminate Hf]. }
  unfold bind at 1.
  pose proof (process_images_run fuel g a (Cli.image_path a) [] [] w) as Hrun.
  destruct (finishes_process_images fuel g a (Cli.image_path a) Hfuel [] [] w Htime)
    as [Hends _].
  destruct (Cli.process_images fuel g a (Cli.image_path a) [] [] w)
    as [[[results errors]|e|] w1]; cbn [fst] in Hrun, Hends;
    [|contradiction|now destruct Hends].
  destruct Hrun as [Hlen Hnil]. cbn [length] in Hlen, Hnil.
  unfold bind, lift, Cli.final_result.
  assert (Hfinal : exists report,
            (if (length (Cli.image_path a) =? 1)%nat
             then match results, errors with
                  | r :: _, _ => Ok r
                  | [], e :: _ => Ok e
                  | [], [] => Raise (Exn IndexError "list index out of range")
                  end
             else Ok (JObj [("success", JBool (negb (Cli.bool_of_list errors)));
                            ("total", JInt (Z.of_nat (length (Cli.image_path a))));
                            ("succeeded", JInt (Z.of_nat (length results)));
                            ("failed", JInt (Z.of_nat (length errors)));
                            ("results", JArr results); ("errors", JArr errors)]))
            = Ok report).
  { destruct (Nat.eqb_spec (length (Cli.image_path a)) 1) as [Hone|_]; [|eauto].
    destruct results; [|eauto]. destruct errors; [|eauto].
    cbn [length] in Hlen. lia. }
  destruct Hfinal as [report ->]. unfold ret.
  eexists _, _, _. split; [reflexivity|].
  destruct errors as [|e errors]; cbn [Cli.bool_of_list].
  - split; [now left|]. split; [|reflexivity].
    intros _. split; [reflexivity|]. exists results. split; [reflexivity|].
    cbn [length] in Hlen. lia.
  - split; [now right|]. split; [intros [=]|].
    intros [_ (results' & Heq & _)]. discriminate Heq.
Qed.

Lemma load_image_missing (g : Generator.t) (path : string) (q : PurePath.t) (w : World) :
  Generator.resolve_image_path g path = Some q ->
  fs w !! PurePath.to_str q = None ->
  Generator._load_image g path w
  = (Raise (Exn FileNotFoundError ("Source image not found: " +:+ path)), w).
Proof.
  intros Hq Hnone. unfold Generator._load_image.
  assert (Hurl : Generator.is_url path = false).
  { unfold Generator.resolve_image_path in Hq.
    destruct (Generator.is_url path); [discriminate | reflexivity]. }
  rewrite Hurl, Hq. unfold bind, path_exists. rewrite Hnone.
  rewrite bool_decide_eq_false_2; [reflexivity|]. intros [? ?]; discriminate.
Qed.

(** X10. For an image path that resolves to a file that does not exist, the
    loop of [main] adds to [errors] an entry whose message names the cause
    twice, ["Source image not found: Source image not found: <path>"]: the
    exception of [_load_image] already carries the words that [main] puts
    before it. No request is made and no file changes. *)
Theorem missing_image_error_entry (fuel : nat) (g : Generator.t) (a : Cli.args)
    (path : string) (q : PurePath.t) (w : World) :
  Generator.is_available g = true ->
  Generator.resolve_image_path g path = Some q ->
  fs w !! PurePath.to_str q = None ->
  Cli.process_image fuel g a path w
  = (Ok (inr (Cli.error_item path
                ("Source image not found: Source image not found: " +:+ path))), w).
Proof.
  intros Havail Hq Hnone.
  unfold Cli.process_image, try_except, Generator.generate_video_from_image.
  rewrite Havail. cbn [negb].
  unfold bind at 1. unfold bind at 1.
  rewrite (load_image_missing g path q w Hq Hnone).
  reflexivity.
Qed.

End CliFacts.

Section EnvFacts.

Lemma env_line_keeps (line : string) (env env' : environ) :
  Cli.env_line line env = Ok env' -> env ⊆ env'.
Proof.
  unfold Cli.env_line.
  destruct (_ && _); [|now intros [= <-]].
  match goal with
  | |- context [PyStr.truthy ?k && negb (bool_decide (is_Some (env !! ?k)))] =>
      set (key := k)
  end.
  destruct (PyStr.truthy key); cbn [andb]; [|now intros [= <-]].
  destruct (bool_decide (is_Some (env !! key))) eqn:Hset; cbn [negb]; [now intros [= <-]|].
  destruct (_ || _); [discriminate|]. intros [= <-].
  apply insert_subseteq. apply bool_decide_eq_false in Hset.
  destruct (env !! key) eqn:Hk; [destruct Hset; eauto | reflexivity].
Qed.

(** X11. The manual parser of [load_env_file] never changes a variable
    that is already set: every variable of the environment has the same
    value after the file was read, whatever the file assigns to it. *)
Theorem load_env_keeps_existing (lines : list string) (env env' : environ) :
  Cli.load_env_lines lines env = Ok env' ->
  forall key value, env !! key = Some value -> env' !! key = Some value.
Proof.
  revert env. induction lines as [|line rest IH]; intros env Hrun key value Hkey.
  - now injection Hrun as <-.
  - cbn [Cli.load_env_lines] in Hrun. unfold rbind in Hrun.
    destruct (Cli.env_line line env) as [env1| |] eqn:Hline; try discriminate.
    apply (IH env1 Hrun). apply env_line_keeps in Hline.
    eapply lookup_weaken; eassumption.
Qed.

End EnvFacts.

(** ** The API server *)
Section ServerFacts.

Lemma prefix_drop (p s : string) :
  String.prefix p s = true -> s = p +:+ PyStr.drop (String.length p) s.
Proof.
  revert s. induction p as [|x p IH]; intros s Hp; [now destruct s|].
  destruct s as [|y s]; [discriminate|].
  cbn [String.prefix] in Hp. destruct (ascii_dec x y) as [->|]; [|discriminate].
  rewrite append_cons. cbn [String.length PyStr.drop]. f_equal. now apply IH.
Qed.

Lemma prefix_append_same (p s : string) : String.prefix p (p +:+ s) = true.
Proof. apply prefix_append, prefix_refl. Qed.

Lemma drop_append (p s : string) : PyStr.drop (String.length p) (p +:+ s) = s.
Proof. induction p as [|x p IH]; [now destruct s | exact IH]. Qed.

Lemma truthy_iff (s : string) : PyStr.truthy s = true <-> s <> "".
Proof. destruct s; cbn; split; congruence. Qed.

(** X12. [authenticate] accepts a request exactly when an API key is
    configured and is not empty, and the request carries it in one of three
    ways: as [Authorization: Bearer <key>]; as the whole [Authorization]
    header, for a key that does not itself start with ["Bearer "]; or in
    [X-API-Key], when the [Authorization] header is absent or empty. *)
Theorem authenticate_iff (self : Server.t) (headers : list (string * string)) :
  Server.authenticate self headers = true <->
  exists key,
    Server.api_key self = Some key /\ key <> ""
    /\ let authorization := Server.header_get "Authorization" headers in
       authorization = "Bearer " +:+ key
       \/ (authorization = key /\ PyStr.startswith "Bearer " key = false)
       \/ (authorization = "" /\ Server.header_get "X-API-Key" headers = key).
Proof.
  unfold Server.authenticate, Server.provided_key, PyStr.startswith.
  set (authorization := Server.header_get "Authorization" headers).
  set (x_api_key := Server.header_get "X-API-Key" headers).
  cbn zeta. split.
  - destruct (String.prefix "Bearer " authorization) eqn:Hbearer.
    + destruct (PyStr.truthy (PyStr.drop 7 authorization)) eqn:Hkey; [|intros [=]].
      cbn [negb]. destruct (Server.api_key self) as [k|]; [|intros [=]].
      intros Heq. apply String.eqb_eq in Heq.
      exists k. split; [reflexivity|]. split; [rewrite <- Heq; now apply truthy_iff|].
      left. rewrite <- Heq. exact (prefix_drop "Bearer " authorization Hbearer).
    + destruct (PyStr.truthy authorization) eqn:Hauth.
      * rewrite Hauth. cbn [negb]. destruct (Server.api_key self) as [k|]; [|intros [=]].
        intros Heq. apply String.eqb_eq in Heq.
        exists k. split; [reflexivity|]. split; [rewrite <- Heq; now apply truthy_iff|].
        right; left. rewrite <- Heq. split; [reflexivity | exact Hbearer].
      * destruct (PyStr.truthy x_api_key) eqn:Hx; [|intros [=]].
        cbn [negb]. destruct (Server.api_key self) as [k|]; [|intros [=]].
        intros Heq. apply String.eqb_eq in Heq.
        exists k. split; [reflexivity|]. split; [rewrite <- Heq; now apply truthy_iff|].
        right; right. rewrite <- Heq. split; [|reflexivity].
        destruct authorization; [reflexivity | discriminate Hauth].
  - intros (key & -> & Hkey & [-> | [[-> Hbearer] | [-> ->]]]);
      apply truthy_iff in Hkey.
    + rewrite prefix_append_same.
      change 7%nat with (String.length "Bearer "). rewrite drop_append, Hkey.
      apply String.eqb_refl.
    + rewrite Hbearer, Hkey. cbn [negb]. rewrite Hkey. apply String.eqb_refl.
    + cbn [String.prefix PyStr.truthy]. rewrite Hkey. apply String.eqb_refl.
Qed.



(** X14. [generate_video] reports success exactly when the process it
    started ended with return code 0 and [json.loads] of its output either
    returned a value, which is then the [data], or raised a
    [JSONDecodeError], and then the [data] holds the output as text. Every
    other outcome (a request that is not of the expected shape, a timeout,
    an exception, another return code, another exception of [json.loads])
    is reported with [success] false and an [error] text; after return
    code 0 that text is the one of the exception of [json.loads]. *)
Theorem generate_video_success (self : Server.t) (e : Server.env) (request_data : json) :
  let (result, commands) := Server.generate_video self e request_data in
  exists fields,
    result = JObj fields
    /\ (assoc "success" fields = Some (JBool true)
        /\ (exists argv stdout stderr data,
              commands = [argv] /\ Server.run e argv = Server.Completed 0 stdout stderr
              /\ assoc "data" fields = Some data
              /\ (Server.json_loads e stdout = Server.Loaded data
                  \/ (exists msg, Server.json_loads e stdout = Server.DecodeError msg)
                     /\ data = JObj [("output", JStr stdout);
                                     ("message", JStr "Video generation completed")]))
        \/ assoc "success" fields = Some (JBool false)
           /\ (exists message, assoc "error" fields = Some (JStr message))
           /\ forall argv stdout stderr,
                commands = [argv] -> Server.run e argv = Server.Completed 0 stdout stderr ->
                exists msg,
                  Server.json_loads e stdout = Server.LoadsRaises msg
                  /\ assoc "error" fields = Some (JStr msg)).
Proof.
  unfold Server.generate_video, Server.failure.
  destruct (Server.build_command self e request_data) as [command|x|].
  2,3: eexists; split; [reflexivity|]; right; cbn; split; [reflexivity|];
       split; [eauto | intros ? ? ? [=]].
  destruct (str_items 0 command) as [argv|x|].
  2,3: eexists; split; [reflexivity|]; right; cbn; split; [reflexivity|];
       split; [eauto | intros ? ? ? [=]].
  destruct (Server.run e argv) as [returncode stdout stderr| |msg] eqn:Hrun.
  2,3: eexists; split; [reflexivity|]; right; cbn; split; [reflexivity|];
       split; [eauto | intros ? ? ? [= <-]; rewrite Hrun; intros [=]].
  unfold Server.completed_result, Server.failure.
  destruct (Z.eqb_spec returncode 0) as [->|Hcode].
  - destruct (Server.json_loads e stdout) as [output_json|msg|msg] eqn:Hloads;
      (eexists; split; [reflexivity|]).
    + left. cbn. split; [reflexivity|].
      exists argv, stdout, stderr, output_json. rewrite Hloads. auto.
    + left. cbn. split; [reflexivity|].
      exists argv, stdout, stderr. eexists. rewrite Hloads. eauto 10.
    + right. cbn. split; [reflexivity|]. split; [eauto|].
      intros ? ? ? [= <-]. rewrite Hrun. intros [= <- <-]. rewrite Hloads. eauto.
  - eexists; split; [reflexivity|]. right. cbn. split; [reflexivity|]. split.
    + destruct stderr; [destruct stdout|]; eauto.
    + intros ? ? ? [= <-]. rewrite Hrun. intros [= -> _ _]. now destruct Hcode.
Qed.

End ServerFacts.

(** ** Images, keys and paths *)
Section KeyShape.
Context `{PyLib}.

(** X15. Every key that [generate_cache_key] returns is 32 lower-case
    hexadecimal digits; the video file named after it is therefore a
    single path component, directly in the video directory. *)
Theorem cache_key_is_hex_digest (self : Generator.t)
    (image_path prompt aspect_ratio : string) (second_image_path : option string)
    (w w' : World) (key : string) :
  Generator.generate_cache_key self image_path prompt aspect_ratio second_image_path w
  = (Ok key, w') ->
  is_hex_digest key = true
  /\ PurePath.joinpath (Generator.video_dir self) (Generator.video_filename key)
     = PurePath.Path (PurePath.root (Generator.video_dir self))
         (PurePath.parts (Generator.video_dir self) ++ ["veo_" +:+ key +:+ ".mp4"]).
Proof.
  intros Hrun. apply generate_cache_key_inv in Hrun as [(h1 & h2 & ->) _].
  pose proof (hexdigest_is_hex
                (PyStr.encode (Generator.cache_data h1 h2 prompt aspect_ratio))) as Hhex.
  split; [exact Hhex|].
  apply andb_true_iff in Hhex as [_ Hchars].
  destruct (video_filename_is_name _ (hex_no_slash _ Hchars)) as [Hslash Hpart].
  now apply joinpath_filename.
Qed.



(** X17. A relative path is resolved below [pub/media] of the base path
    whether or not it is written with the prefix ["pub/media/"]. *)
Theorem resolve_image_path_media_prefix (self : Generator.t) (s : string) :
  Generator.is_url s = false ->
  PurePath.is_absolute (PurePath.of_str s) = false ->
  PyStr.startswith "pub/media/" s = false ->
  Generator.resolve_image_path self ("pub/media/" +:+ s)
  = Generator.resolve_image_path self s
  /\ Generator.resolve_image_path self s
     = Some (PurePath.joinpath
               (PurePath.joinpath (PurePath.joinpath (Generator.base_path self) "pub")
                  "media") s).
Proof.
  intros Hurl Habs Hprefix.
  assert (Hstrip : PyStr.lstrip_char "/" s = s).
  { destruct s as [|c r]; [reflexivity|].
    unfold PurePath.is_absolute, PurePath.of_str, PurePath.parse_root, PyStr.startswith
      in Habs. cbn [PurePath.root] in Habs.
    unfold PyStr.lstrip_char. cbn [PyStr.lstrip_by].
    destruct (Ascii.eqb_spec "/" c) as [<-|Hne]; [|reflexivity].
    exfalso. destruct (String.prefix "//" _ && _); [discriminate|].
    cbn in Habs. destruct r; discriminate. }
  unfold Generator.resolve_image_path.
  rewrite Hurl, Habs, Hprefix, Hstrip.
  split; [|reflexivity].
  change (Generator.is_url ("pub/media/" +:+ s)) with false. cbn iota.
  change (PurePath.is_absolute (PurePath.of_str ("pub/media/" +:+ s))) with false.
  cbn iota. unfold PyStr.startswith. rewrite prefix_append_same.
  change (PurePath.drop_str 10 ("pub/media/" +:+ s)) with s.
  now rewrite Hstrip.
Qed.

End KeyShape.

Section ExtractFacts.
Context `{PyLib}.

Lemma py_getitem_in (v : json) (k : string) (x : json) :
  py_getitem v k = Ok x -> py_in k v = Ok true.
Proof.
  destruct v; try discriminate. cbn.
  destruct (assoc k o); [|discriminate]. intros _.
  now rewrite bool_decide_eq_true_2 by eauto.
Qed.

Lemma py_getitem0_truthy (v x : json) : py_getitem0 v = Ok x -> py_truthy v = true.
Proof. destruct v as [| | |[|c s]|[|y l]|]; try discriminate; reflexivity. Qed.

(** X18. [extract_video_uri] returns a URI exactly for a response of the
    shape [response.generateVideoResponse.generatedSamples[0].video.uri]
    whose [generateVideoResponse] has no [raiMediaFilteredReasons]; what it
    returns is that [uri]. *)
Theorem extract_video_uri_returns_iff (operation_data uri : json) :
  Service.extract_video_uri operation_data = Ok uri <->
  exists response_data gen_res samples sample video,
    py_getitem operation_data "response" = Ok response_data
    /\ py_getitem response_data "generateVideoResponse" = Ok gen_res
    /\ py_in "raiMediaFilteredReasons" gen_res = Ok false
    /\ py_getitem gen_res "generatedSamples" = Ok samples
    /\ py_getitem0 samples = Ok sample
    /\ py_getitem sample "video" = Ok video
    /\ py_getitem video "uri" = Ok uri.
Proof.
  unfold Service.extract_video_uri. split.
  - unfold rbind.
    destruct (py_in "response" operation_data) as [[]| |]; try discriminate.
    destruct (py_getitem operation_data "response") as [response_data| |] eqn:H1;
      try discriminate.
    destruct (py_in "generateVideoResponse" response_data) as [[]| |]; try discriminate.
    destruct (py_getitem response_data "generateVideoResponse") as [gen_res| |] eqn:H2;
      try discriminate.
    destruct (py_in "raiMediaFilteredReasons" gen_res) as [[]| |] eqn:H3; try discriminate.
    { destruct (py_getitem gen_res "raiMediaFilteredReasons") as [reasons| |];
        try discriminate.
      destruct (match reasons with JArr l => py_join ", " l | _ => Ok (py_str reasons) end);
        try discriminate.
      destruct (py_get gen_res "raiMediaFilteredCount" _); discriminate. }
    destruct (py_in "generatedSamples" gen_res) as [[]| |]; try discriminate.
    destruct (py_getitem gen_res "generatedSamples") as [samples| |] eqn:H4;
      try discriminate.
    destruct (py_truthy samples); try discriminate.
    destruct (py_getitem0 samples) as [sample| |] eqn:H5; try discriminate.
    destruct (py_in "video" sample) as [[]| |]; try discriminate.
    destruct (py_getitem sample "video") as [video| |] eqn:H6; try discriminate.
    destruct (py_in "uri" video) as [[]| |]; try discriminate.
    intros H7. exists response_data, gen_res, samples, sample, video. auto 10.
  - intros (response_data & gen_res & samples & sample & video
            & H1 & H2 & H3 & H4 & H5 & H6 & H7).
    unfold rbind.
    rewrite (py_getitem_in _ _ _ H1), H1, (py_getitem_in _ _ _ H2), H2, H3,
      (py_getitem_in _ _ _ H4), H4, (py_getitem0_truthy _ _ H5), H5,
      (py_getitem_in _ _ _ H6), H6, (py_getitem_in _ _ _ H7).
    exact H7.
Qed.

End ExtractFacts.

Section InitFacts.

Lemma rstrip_by_last (p : ascii -> bool) (s : string) (c : ascii) :
  PyStr.last_char (PyStr.rstrip_by p s) = Some c -> p c = false.
Proof.
  induction s as [|x s IH]; [discriminate|].
  cbn [PyStr.rstrip_by].
  destruct (PyStr.rstrip_by p s) as [|y r] eqn:Hr.
  - destruct (p x) eqn:Hx; [discriminate|]. cbn. now intros [= <-].
  - cbn [PyStr.last_char]. exact IH.
Qed.

Lemma rstrip_char_last (ch : ascii) (s : string) :
  PyStr.last_char (PyStr.rstrip_char ch s) <> Some ch.
Proof.
  intros Hlast. apply rstrip_by_last in Hlast. now rewrite Ascii.eqb_refl in Hlast.
Qed.

(** X19. The service that [GeminiVideoService.__init__] makes has a base URL
    that does not end in ["/"], whichever of the argument, the environment
    and the default it comes from; it is available exactly when the
    argument or, failing that, the variable [GEMINI_API_KEY] gives a key
    that is not empty; and a key given as argument that is not empty is the
    key it uses. *)
Theorem service_init_configuration (env : environ) (api_key base_url : option string)
    (verbose : bool) :
  let service := Service.init env api_key base_url verbose in
  PyStr.last_char (Service.base_url service) <> Some "/"%char
  /\ (Service.is_available service = true <->
      (exists key, api_key = Some key /\ key <> "")
      \/ (exists key, env !! "GEMINI_API_KEY" = Some key /\ key <> ""))
  /\ (forall key, api_key = Some key -> key <> "" -> Service.api_key service = key).
Proof.
  unfold Service.init, Service.is_available. cbn [Service.base_url Service.api_key].
  split; [|split].
  - destruct base_url as [[|c r]|]; try apply rstrip_char_last;
      (destruct (env !! "GOOGLE_API_DOMAIN") as [[|c r]|]; try apply rstrip_char_last);
      discriminate.
  - destruct api_key as [[|c r]|].
    + destruct (env !! "GEMINI_API_KEY") as [k|]; cbn [default].
      * rewrite truthy_iff. split; [intros Hk; right; eauto|].
        intros [(key & Heq & Hk) | (key & Heq & Hk)]; injection Heq as <-;
          [now destruct Hk | exact Hk].
      * split; [discriminate|].
        intros [(key & Heq & Hk) | (key & Heq & _)]; [|discriminate Heq].
        injection Heq as <-. now destruct Hk.
    + split; [intros _; left; eexists; split; [reflexivity | discriminate] | reflexivity].
    + destruct (env !! "GEMINI_API_KEY") as [k|]; cbn [default].
      * rewrite truthy_iff. split; [intros Hk; right; eauto|].
        intros [(key & Heq & _) | (key & Heq & Hk)]; [discriminate Heq|].
        injection Heq as <-. exact Hk.
      * split; [discriminate|].
        intros [(key & Heq & _) | (key & Heq & _)]; discriminate Heq.
  - intros key -> Hkey. destruct key; [congruence | reflexivity].
Qed.

End InitFacts.

Section FallbackName.
Context `{PyLib} `{Disk}.

Lemma split_char_parts (ch : ascii) (s : string) :
  Forall (fun x => PyStr.contains (String ch "") x = false) (PyStr.split_char ch s).
Proof.
  induction s as [|c r IH]; [repeat constructor|].
  cbn [PyStr.split_char]. destruct (Ascii.eqb c ch) eqn:Hc.
  - constructor; [reflexivity | exact IH].
  - destruct (PyStr.split_char ch r) as [|x xs]; inversion IH; subst.
    + repeat constructor. rewrite contains_cons, prefix_char, Ascii.eqb_sym, Hc.
      reflexivity.
    + constructor; [|assumption].
      rewrite contains_cons, prefix_char, Ascii.eqb_sym, Hc. assumption.
Qed.

Lemma last_segment_no_slash (operation_name : json) (key : string) :
  Generator.last_segment operation_name = Ok key ->
  exists s, operation_name = JStr s
            /\ key = List.last (PyStr.split_char "/" s) ""
            /\ PyStr.contains "/" key = false.
Proof.
  destruct operation_name; try discriminate. cbn. intros [= <-].
  exists s. split; [reflexivity|]. split; [reflexivity|].
  pose proof (split_char_parts "/" s) as Hparts.
  induction Hparts as [|x l Hx Hl IH]; [reflexivity|].
  destruct l; [exact Hx | exact IH].
Qed.

(** X20. Without a cache key ([None] or [""]), [poll_video_operation] names
    the video after the text that follows the last ["/"] of the operation
    name, which has to be a string: the video is then in the cache under
    that name, where a lookup finds it with the path and the URL that
    were returned. *)
Theorem poll_video_operation_without_key (fuel : nat) (self : Generator.t)
    (operation_name : json) (max_wait_seconds poll_interval_seconds : Z)
    (cache_key : option string) (w w' : World) (v : Generator.video_result) :
  well_formed (Generator.video_dir self) = true ->
  cache_key = None \/ cache_key = Some "" ->
  Generator.poll_video_operation fuel self operation_name max_wait_seconds
    poll_interval_seconds cache_key w = (Ok v, w') ->
  exists s,
    operation_name = JStr s
    /\ let key := List.last (PyStr.split_char "/" s) "" in
       Generator.vr_videoPath v = video_file self key
       /\ Generator.vr_videoUrl v = Generator.videoUrl (cached_descriptor self key)
       /\ Generator.get_cached_video self key w'
          = (Ok (Some (cached_descriptor self key)), w').
Proof.
  intros Hwf Hkey Hrun.
  unfold Generator.poll_video_operation in Hrun.
  apply bind_ok_inv in Hrun as (data & w1 & _ & Hrun).
  apply bind_ok_inv in Hrun as (uri & w2 & _ & Hrun).
  apply bind_ok_inv in Hrun as (p & w3 & Hsave & Hrun).
  injection Hrun as <- <-.
  assert (Hpath : exists key w4,
            Generator.last_segment operation_name = Ok key
            /\ Generator.save_video self uri key w4 = (Ok p, w3)).
  { destruct Hkey as [-> | ->];
      apply bind_ok_inv in Hsave as (key & w4 & [= Hseg <-] & Hsave); eauto. }
  destruct Hpath as (key & w4 & Hseg & Hsave').
  apply last_segment_no_slash in Hseg as (s & -> & -> & Hslash).
  apply save_video_cached in Hsave' as (-> & Hcached).
  exists s. split; [reflexivity|]. cbn zeta.
  cbn [Generator.vr_videoPath Generator.vr_videoUrl].
  rewrite (video_url_eq self _ Hwf Hslash).
  split; [reflexivity|]. split; [reflexivity | exact Hcached].
Qed.

End FallbackName.

Section SyncFacts.
Context `{PyLib} `{Disk}.

Lemma generate_video_inv (self : Generator.t) (image_path prompt aspect_ratio : string)
    (silent_video : bool) (second_image_path : option string)
    (auto_reference_images : bool) (w w' : World) (result : Generator.gen_result) :
  Generator.generate_video_from_image self image_path prompt aspect_ratio silent_video
    second_image_path auto_reference_images w = (Ok result, w') ->
  exists key,
    is_hex_digest key = true
    /\ fs w' = fs w
    /\ match result with
       | Generator.FromCache c =>
           c = cached_descriptor self key /\ is_Some (fs w !! video_file self key)
       | Generator.Started o =>
           Generator.cacheKey o = key /\ fs w !! video_file self key = None
       end.
Proof.
  intros Hrun.
  pose proof (same_env_generate_video self image_path prompt aspect_ratio silent_video
                second_image_path auto_reference_images w) as [Hfs _].
  rewrite Hrun in Hfs. cbn [snd] in Hfs.
  unfold Generator.generate_video_from_image in Hrun.
  destruct (Generator.is_available self); cbn [negb] in Hrun; [|discriminate].
  apply bind_ok_inv in Hrun as ([[d m] src] & w1 & Hload & Hrun).
  pose proof (reads_only_quiet _ (reads_only_load_image self image_path) w) as [[Hf1 _] _].
  rewrite Hload in Hf1. cbn [snd] in Hf1.
  apply bind_ok_inv in Hrun as ([[d2 m2] src2] & w2 & Hload2 & Hrun).
  pose proof (quiet_second_image self second_image_path w1) as [[Hf2 _] _].
  rewrite Hload2 in Hf2. cbn [snd] in Hf2.
  apply bind_ok_inv in Hrun as (final & w3 & [= _ <-] & Hrun).
  apply bind_ok_inv in Hrun as (key & w4 & Hkey & Hrun).
  pose proof (reads_only_quiet _
                (reads_only_generate_cache_key self src final aspect_ratio src2) w2)
    as [[Hf4 _] _].
  rewrite Hkey in Hf4. cbn [snd] in Hf4.
  apply generate_cache_key_inv in Hkey as [(h1 & h2 & ->) _].
  eexists. split; [apply hexdigest_is_hex|]. split; [now symmetry|].
  apply bind_ok_inv in Hrun as (cached & w5 & Hcached & Hrun).
  rewrite get_cached_video_eq in Hcached. injection Hcached as <- <-.
  assert (Hfs4 : fs w4 = fs w) by congruence. rewrite Hfs4 in Hrun.
  destruct (bool_decide (is_Some (fs w !! _))) eqn:Hfile.
  - injection Hrun as <- <-. split; [reflexivity|]. now apply bool_decide_eq_true in Hfile.
  - apply bind_ok_inv in Hrun as (sr & w6 & _ & Hrun). injection Hrun as <- <-.
    split; [reflexivity|]. apply bool_decide_eq_false in Hfile.
    destruct (fs w !! _); [destruct Hfile; eauto | reflexivity].
Qed.

Lemma assoc_with_second_image (a : Cli.args) (k : string) (item : list (string * json))
    (x : json) :
  assoc k item = Some x -> assoc k (Cli.with_second_image a item) = Some x.
Proof.
  intros Hk. unfold Cli.with_second_image.
  destruct (Cli.second_image a) as [[|c r]|]; try exact Hk.
  induction item as [|[k' v] item IH]; [discriminate|].
  cbn [assoc app] in *. destruct (k =? k')%string; [exact Hk | now apply IH].
Qed.

(** X21. Every entry that the loop of [main] adds to [results] in sync mode
    names a video that is in the cache when the entry is made: for some
    cache key, a digest of 32 hexadecimal digits, a cache lookup finds the
    video, with the URL and the path of the entry. *)
Theorem sync_result_is_cached (fuel : nat) (g : Generator.t) (a : Cli.args) (path : string)
    (w w' : World) (item : json) :
  well_formed (Generator.video_dir g) = true ->
  Cli.sync a = true ->
  Cli.process_image fuel g a path w = (Ok (inl item), w') ->
  exists key,
    is_hex_digest key = true
    /\ Generator.get_cached_video g key w' = (Ok (Some (cached_descriptor g key)), w')
    /\ py_getitem item "videoUrl" = Ok (JStr (Generator.videoUrl (cached_descriptor g key)))
    /\ py_getitem item "videoPath"
       = Ok (JStr (Generator.videoPath (cached_descriptor g key))).
Proof.
  intros Hwf Hsync Hrun.
  unfold Cli.process_image, try_except in Hrun.
  match type of Hrun with
  | context [bind ?m ?k w] => destruct (bind m k w) as [[entry|e|] w1] eqn:Hbody
  end; [|destruct (exn_cls e); discriminate|discriminate].
  injection Hrun as -> ->.
  apply bind_ok_inv in Hbody as (operation & w2 & Hgen & Hbody).
  apply generate_video_inv in Hgen as (key & Hhex & Hfs & Hres).
  exists key. split; [exact Hhex|].
  destruct operation as [c|o].
  - destruct Hres as [-> Hfile]. cbn [Generator.fromCache cached_descriptor] in Hbody.
    injection Hbody as <- <-.
    split; [apply get_cached_video_hit; now rewrite Hfs|].
    unfold Cli.cached_item, py_getitem.
    split; erewrite assoc_with_second_image; reflexivity.
  - destruct Hres as [Hkey Hmiss]. rewrite Hsync, Hkey in Hbody.
    apply bind_ok_inv in Hbody as (v & w3 & Hpoll & Hbody).
    injection Hbody as <- <-.
    assert (Hslash : PyStr.contains "/" key = false).
    { apply andb_true_iff in Hhex as [_ Hchars]. now apply hex_no_slash. }
    unfold Generator.poll_video_operation in Hpoll.
    apply bind_ok_inv in Hpoll as (data & wa & _ & Hpoll).
    apply bind_ok_inv in Hpoll as (uri & wb & _ & Hpoll).
    apply bind_ok_inv in Hpoll as (p & wc & Hsave & Hpoll).
    injection Hpoll as <- <-.
    assert (Hsave' : Generator.save_video g uri key wb = (Ok p, wc)).
    { destruct key as [|c r]; [discriminate Hhex | exact Hsave]. }
    apply save_video_cached in Hsave' as (-> & Hcached).
    split; [exact Hcached|].
    unfold Cli.completed_item, py_getitem.
    cbn [Generator.vr_videoUrl Generator.vr_videoPath].
    rewrite (video_url_eq g _ Hwf Hslash).
    split; erewrite assoc_with_second_image; reflexivity.
Qed.

End SyncFacts.

(** ** Computations that read the remote side at given URLs *)
Section ReadsFrom.
Context (U : string -> Prop).

Lemma reads_from_local {A} (m : M A) :
  (forall w, snd (m w) = w) ->
  (forall w w2, fs w = fs w2 -> fst (m w2) = fst (m w)) ->
  reads_from U m.
Proof.
  intros Hw Hfs w. rewrite Hw. split; [apply same_env_refl|]. split.
  - exists []. now rewrite app_nil_r.
  - intros h0 w2 [Hsame _] _ _ _. now apply Hfs.
Qed.

Lemma reads_from_ret {A} (a : A) : reads_from U (ret a).
Proof. now apply reads_from_local. Qed.

Lemma reads_from_raise {A} (e : exn) : reads_from U (@raise A e).
Proof. now apply reads_from_local. Qed.

Lemma reads_from_lift {A} (r : res A) : reads_from U (lift r).
Proof. now apply reads_from_local. Qed.

Lemma reads_from_path_exists (p : PurePath.t) : reads_from U (path_exists p).
Proof.
  apply reads_from_local; [reflexivity|].
  intros w w2 Hfs. unfold path_exists. cbn [fst]. now rewrite Hfs.
Qed.

Lemma reads_from_read_file (p : PurePath.t) : reads_from U (read_file p).
Proof.
  apply reads_from_local.
  - intros w. unfold read_file. destruct (fs w !! _) as [[]|]; reflexivity.
  - intros w w2 Hfs. unfold read_file. rewrite <- Hfs.
    destruct (fs w !! _) as [[]|]; reflexivity.
Qed.

Lemma reads_from_get (url : string) : U url -> reads_from U (http (GET url [])).
Proof.
  intros Hurl w. unfold http. split; [|split].
  - destruct (outcome _); split; reflexivity.
  - exists [GET url []]. destruct (outcome _); reflexivity.
  - intros h0 w2 [_ Hrem] [h Hh] [h2 Hh2] Hserved.
    rewrite <- Hrem, Hh, Hh2, !(Hserved url Hurl).
    destruct (outcome _); reflexivity.
Qed.

Lemma reads_from_bind_post {A B} (Q : A -> Prop) (m : M A) (k : A -> M B) :
  reads_from U m ->
  (forall w a w', m w = (Ok a, w') -> Q a) ->
  (forall a, Q a -> reads_from U (k a)) ->
  reads_from U (bind m k).
Proof.
  intros Hm HQ Hk w. destruct (Hm w) as (Henv & [h Hh] & Hsame).
  unfold bind. destruct (m w) as [[a|e|] w1] eqn:Hrun; cbn [fst snd] in *.
  - destruct (Hk a (HQ _ _ _ Hrun) w1) as (Henv1 & [h1 Hh1] & Hsame1).
    split; [eapply same_env_trans; eassumption|]. split.
    + exists (h ++ h1)%list. now rewrite Hh1, Hh, app_assoc.
    + intros h0 w2 Hw2 [t Ht] Ht2 Hserved.
      specialize (Hsame h0 w2 Hw2 (ex_intro _ t Ht) Ht2 Hserved).
      destruct (Hm w2) as (Henv2 & [h2 Hh2] & _).
      destruct (m w2) as [r2 w2']; cbn [fst snd] in *. subst r2.
      apply (Hsame1 h0).
      * eauto using same_env_trans, same_env_sym.
      * exists (t ++ h)%list. now rewrite Hh, Ht, app_assoc.
      * destruct Ht2 as [t2 Ht2]. exists (t2 ++ h2)%list.
        now rewrite Hh2, Ht2, app_assoc.
      * destruct Henv as [_ <-]. exact Hserved.
  - split; [exact Henv|]. split; [eauto|].
    intros h0 w2 Hw2 Ht Ht2 Hserved. specialize (Hsame h0 w2 Hw2 Ht Ht2 Hserved).
    destruct (m w2) as [r2 w2']; cbn [fst] in *. now subst r2.
  - split; [exact Henv|]. split; [eauto|].
    intros h0 w2 Hw2 Ht Ht2 Hserved. specialize (Hsame h0 w2 Hw2 Ht Ht2 Hserved).
    destruct (m w2) as [r2 w2']; cbn [fst] in *. now subst r2.
Qed.

Lemma reads_from_bind {A B} (m : M A) (k : A -> M B) :
  reads_from U m -> (forall a, reads_from U (k a)) -> reads_from U (bind m k).
Proof.
  intros Hm Hk. apply (reads_from_bind_post (fun _ => True)); auto.
Qed.

Lemma reads_from_try_except {A} (m : M A) (sel : exn -> bool) (h : exn -> M A) :
  reads_from U m -> (forall e, reads_from U (h e)) -> reads_from U (try_except m sel h).
Proof.
  intros Hm Hh w. destruct (Hm w) as (Henv & [t Ht] & Hsame).
  unfold try_except. destruct (m w) as [[a|e|] w1] eqn:Hrun; cbn [fst snd] in *.
  - split; [exact Henv|]. split; [eauto|].
    intros h0 w2 Hw2 Hp Hp2 Hserved. specialize (Hsame h0 w2 Hw2 Hp Hp2 Hserved).
    destruct (m w2) as [r2 w2']; cbn [fst] in *. now subst r2.
  - destruct (sel e) eqn:Hsel.
    + destruct (Hh e w1) as (Henv1 & [t1 Ht1] & Hsame1).
      split; [eapply same_env_trans; eassumption|]. split.
      * exists (t ++ t1)%list. now rewrite Ht1, Ht, app_assoc.
      * intros h0 w2 Hw2 [p Hp] Hp2 Hserved.
        specialize (Hsame h0 w2 Hw2 (ex_intro _ p Hp) Hp2 Hserved).
        destruct (Hm w2) as (Henv2 & [t2 Ht2] & _).
        destruct (m w2) as [r2 w2']; cbn [fst snd] in *. subst r2. rewrite Hsel.
        apply (Hsame1 h0).
        -- eauto using same_env_trans, same_env_sym.
        -- exists (p ++ t)%list. now rewrite Ht, Hp, app_assoc.
        -- destruct Hp2 as [p2 Hp2]. exists (p2 ++ t2)%list.
           now rewrite Ht2, Hp2, app_assoc.
        -- destruct Henv as [_ <-]. exact Hserved.
    + split; [exact Henv|]. split; [eauto|].
      intros h0 w2 Hw2 Hp Hp2 Hserved. specialize (Hsame h0 w2 Hw2 Hp Hp2 Hserved).
      destruct (m w2) as [r2 w2']; cbn [fst] in *. subst r2. now rewrite Hsel.
  - split; [exact Henv|]. split; [eauto|].
    intros h0 w2 Hw2 Hp Hp2 Hserved. specialize (Hsame h0 w2 Hw2 Hp Hp2 Hserved).
    destruct (m w2) as [r2 w2']; cbn [fst] in *. now subst r2.
Qed.

End ReadsFrom.

Create HintDb reads_from.

#[local] Hint Resolve reads_from_ret reads_from_raise reads_from_lift reads_from_path_exists
  reads_from_read_file : reads_from.

Ltac reads_from_step :=
  first
    [ apply reads_from_bind; [|intros]
    | apply reads_from_try_except; [|intros]
    | solve [auto with reads_from]
    | match goal with
      | |- reads_from _ (if ?b then _ else _) => destruct b
      | |- reads_from _ (match ?x with _ => _ end) => destruct x
      end ].

(** ** Paths are not URLs *)
Section PathsNotUrls.

Lemma well_formed_parts (l : list string) :
  Forall (fun x => PyStr.contains "/" x = false) l ->
  forallb (fun x => PurePath.is_part x && negb (PyStr.contains "/" x))
    (List.filter PurePath.is_part l) = true.
Proof.
  induction 1 as [|x l Hx Hl IH]; [reflexivity|].
  cbn [List.filter]. destruct (PurePath.is_part x) eqn:Hpart; [|exact IH].
  cbn [forallb]. now rewrite Hpart, Hx, IH.
Qed.

Lemma well_formed_of_str (s : string) : well_formed (PurePath.of_str s) = true.
Proof.
  unfold well_formed, PurePath.of_str. cbn [PurePath.root PurePath.parts].
  rewrite (well_formed_parts _ (split_char_parts "/" s)), andb_true_r.
  unfold PurePath.parse_root.
  destruct (_ && _); [reflexivity|]. destruct (PyStr.startswith "/" s); reflexivity.
Qed.

Lemma well_formed_joinpath (p : PurePath.t) (s : string) :
  well_formed p = true -> well_formed (PurePath.joinpath p s) = true.
Proof.
  intros Hp. unfold PurePath.joinpath.
  destruct (PurePath.is_absolute _); [apply well_formed_of_str|].
  pose proof (well_formed_of_str s) as Hs.
  unfold well_formed in *. cbn [PurePath.root PurePath.parts].
  apply andb_true_iff in Hp as [Hroot Hparts]. apply andb_true_iff in Hs as [_ Hsparts].
  now rewrite Hroot, forallb_app, Hparts, Hsparts.
Qed.

Lemma prefix_no_slash (p : string) :
  forall x tail q,
    PyStr.contains "/" p = false -> PyStr.contains "/" x = false ->
    tail = "" \/ (exists t, tail = String "/" t) ->
    String.prefix (p +:+ String "/" q) (x +:+ tail) = true ->
    x = p /\ String.prefix (String "/" q) tail = true.
Proof.
  induction p as [|a p IH]; intros [|c x] tail q Hp Hx Htail Hpre.
  - split; [reflexivity | exact Hpre].
  - apply contains_char_cons in Hx as [Hc _].
    rewrite append_nil, append_cons in Hpre. cbn [String.prefix] in Hpre.
    destruct (ascii_dec "/" c) as [<-|]; [discriminate Hc | discriminate Hpre].
  - apply contains_char_cons in Hp as [Ha _].
    rewrite append_nil, append_cons in Hpre.
    destruct Htail as [-> | [t ->]]; [discriminate Hpre|].
    cbn [String.prefix] in Hpre.
    destruct (ascii_dec a "/") as [->|]; [discriminate Ha | discriminate Hpre].
  - apply contains_char_cons in Hp as [_ Hp]. apply contains_char_cons in Hx as [_ Hx].
    rewrite !append_cons in Hpre. cbn [String.prefix] in Hpre.
    destruct (ascii_dec a c) as [->|]; [|discriminate Hpre].
    destruct (IH x tail q Hp Hx Htail Hpre) as [-> Hrest]. auto.
Qed.

Lemma join_head (x : string) (l : list string) :
  exists tail,
    PyStr.join "/" (x :: l) = x +:+ tail
    /\ (tail = "" \/ exists y l', l = y :: l' /\ tail = String "/" (PyStr.join "/" (y :: l'))).
Proof.
  destruct l as [|y l'].
  - exists "". split; [|now left]. cbn [PyStr.join].
    induction x as [|c x IH]; [reflexivity|]. rewrite append_cons. now f_equal.
  - exists (String "/" (PyStr.join "/" (y :: l'))). split; [reflexivity|].
    right. eauto.
Qed.

Lemma join_not_after_scheme (scheme : string) (l : list string) :
  PyStr.contains "/" scheme = false ->
  forallb (fun x => PurePath.is_part x && negb (PyStr.contains "/" x)) l = true ->
  String.prefix (scheme +:+ "//") (PyStr.join "/" l) = true -> l = [].
Proof.
  intros Hscheme Hl Hpre. destruct l as [|x l]; [reflexivity|]. exfalso.
  cbn [forallb] in Hl. apply andb_true_iff in Hl as [Hx Hl].
  apply andb_true_iff in Hx as [_ Hx]. apply negb_true_iff in Hx.
  destruct (join_head x l) as (tail & Hjoin & Htail). rewrite Hjoin in Hpre.
  destruct (prefix_no_slash scheme x tail "/" Hscheme Hx) as [_ Hrest];
    [destruct Htail as [->|(y & l' & _ & ->)]; eauto | exact Hpre |].
  destruct Htail as [->|(y & l' & -> & ->)]; [discriminate Hrest|].
  cbn [forallb] in Hl. apply andb_true_iff in Hl as [Hy _].
  apply andb_true_iff in Hy as [Hpart Hy]. apply negb_true_iff in Hy.
  destruct (join_head y l') as (tail' & Hjoin' & _). rewrite Hjoin' in Hrest.
  destruct y as [|c y]; [discriminate Hpart|].
  apply contains_char_cons in Hy as [Hc _].
  rewrite append_cons in Hrest. cbn [String.prefix] in Hrest.
  destruct (ascii_dec "/" "/") as [_|Hne]; [|now destruct Hne].
  destruct (ascii_dec "/" c) as [<-|]; [discriminate Hc | discriminate Hrest].
Qed.

(** The text of a path is no URL: after the scheme of a URL come two
    slashes, and the components of a path are joined by one. *)
Lemma to_str_not_url (p : PurePath.t) :
  well_formed p = true -> Generator.is_url (PurePath.to_str p) = false.
Proof.
  destruct p as [r l]. unfold well_formed. cbn [PurePath.root PurePath.parts].
  intros Hwf. apply andb_true_iff in Hwf as [Hroot Hl].
  apply orb_true_iff in Hroot as [Hroot | Hroot];
    [apply orb_true_iff in Hroot as [Hroot | Hroot]|];
    apply String.eqb_eq in Hroot; subst r; try reflexivity.
  unfold Generator.is_url, PyStr.startswith, PurePath.to_str.
  cbn [PurePath.root PurePath.parts].
  destruct l as [|x l]; [reflexivity|]. rewrite append_nil.
  apply orb_false_iff. split.
  - destruct (String.prefix "http://" _) eqn:Hpre; [|reflexivity].
    now apply (join_not_after_scheme "http:") in Hpre.
  - destruct (String.prefix "https://" _) eqn:Hpre; [|reflexivity].
    now apply (join_not_after_scheme "https:") in Hpre.
Qed.

Lemma resolve_image_path_well_formed (self : Generator.t) (image_path : string)
    (q : PurePath.t) :
  well_formed (Generator.base_path self) = true ->
  Generator.resolve_image_path self image_path = Some q ->
  well_formed q = true.
Proof.
  intros Hbase. unfold Generator.resolve_image_path.
  destruct (Generator.is_url image_path); [discriminate|].
  destruct (PurePath.is_absolute _); intros [= <-];
    [apply well_formed_of_str | now do 3 apply well_formed_joinpath].
Qed.

End PathsNotUrls.

(** ** A second call *)
Section SecondCall.
Context `{PyLib}.

Lemma reads_from_download_image (U : string -> Prop) (url : string) :
  U url -> reads_from U (Generator.download_image_from_url url).
Proof.
  intros Hurl. unfold Generator.download_image_from_url.
  repeat first [apply reads_from_get, Hurl | reads_from_step].
Qed.

Lemma reads_from_load_image (U : string -> Prop) (self : Generator.t) (image_path : string) :
  (Generator.is_url image_path = true -> U image_path) ->
  reads_from U (Generator._load_image self image_path).
Proof.
  intros Hurl. unfold Generator._load_image.
  destruct (Generator.is_url image_path).
  - repeat first [apply reads_from_download_image, Hurl, eq_refl | reads_from_step].
  - repeat reads_from_step.
Qed.

Lemma reads_from_get_image_hash (U : string -> Prop) (path : string) :
  (Generator.is_url path = true -> U path) ->
  reads_from U (Generator.get_image_hash path).
Proof.
  intros Hurl. unfold Generator.get_image_hash.
  destruct (Generator.is_url path).
  - repeat first [apply reads_from_download_image, Hurl, eq_refl | reads_from_step].
  - repeat reads_from_step.
Qed.

Lemma reads_from_generate_cache_key (U : string -> Prop) (self : Generator.t)
    (image_path prompt aspect_ratio : string) (second_image_path : option string) :
  (Generator.is_url image_path = true -> U image_path) ->
  (forall s, second_image_path = Some s -> Generator.is_url s = true -> U s) ->
  reads_from U (Generator.generate_cache_key self image_path prompt aspect_ratio
                  second_image_path).
Proof.
  intros Hfirst Hsecond. unfold Generator.generate_cache_key.
  apply reads_from_bind; [now apply reads_from_get_image_hash|]. intros image_hash.
  apply reads_from_bind; [|intros; apply reads_from_ret].
  destruct second_image_path as [[|c r]|]; try apply reads_from_ret.
  apply reads_from_get_image_hash. now apply Hsecond.
Qed.

(** Where [_load_image] found the image: at the URL, or in a file whose
    path is no URL. *)
Lemma load_image_source (self : Generator.t) (image_path : string) (w w' : World)
    (image_data : bytes) (mime_type source : string) :
  well_formed (Generator.base_path self) = true ->
  Generator._load_image self image_path w = (Ok (image_data, mime_type, source), w') ->
  Generator.is_url source = true -> source = image_path.
Proof.
  intros Hbase. unfold Generator._load_image.
  destruct (Generator.is_url image_path) eqn:Hurl.
  - intros Hrun _. apply bind_ok_inv in Hrun as ([d m] & w1 & _ & Hrun).
    now injection Hrun as _ _ <- _.
  - destruct (Generator.resolve_image_path self image_path) as [q|] eqn:Hq;
      [|discriminate].
    intros Hrun. apply bind_ok_inv in Hrun as (found & w1 & _ & Hrun).
    destruct found; [|discriminate]. cbn [negb] in Hrun.
    apply bind_ok_inv in Hrun as (d & w2 & _ & Hrun).
    injection Hrun as _ _ <- _.
    rewrite to_str_not_url by (eapply resolve_image_path_well_formed; eassumption).
    discriminate.
Qed.

Lemma reads_from_request_key (self : Generator.t) (image_path prompt aspect_ratio : string)
    (silent_video : bool) (second_image_path : option string)
    (auto_reference_images : bool) :
  well_formed (Generator.base_path self) = true ->
  reads_from
    (fun url => Generator.is_url url = true
                /\ (url = image_path \/ second_image_path = Some url))
    (request_key self image_path prompt aspect_ratio silent_video second_image_path
       auto_reference_images).
Proof.
  intros Hbase. unfold request_key.
  apply (reads_from_bind_post _
           (fun loaded : bytes * string * string =>
              Generator.is_url (snd loaded) = true -> snd loaded = image_path)).
  { apply reads_from_load_image. auto. }
  { intros w [[d m] source] w' Hrun. now apply (load_image_source _ _ _ _ _ _ _ Hbase Hrun). }
  intros [[d m] source] Hsource. cbn [snd] in Hsource.
  apply (reads_from_bind_post _
           (fun loaded : option bytes * option string * option string =>
              forall s, snd loaded = Some s -> Generator.is_url s = true ->
                        second_image_path = Some s)).
  { destruct second_image_path as [[|c r]|]; try apply reads_from_ret.
    apply reads_from_bind; [|intros [[? ?] ?]; apply reads_from_ret].
    apply reads_from_load_image. auto. }
  { intros w [[d2 m2] source2] w' Hrun s. cbn [snd]. intros -> Hs.
    destruct second_image_path as [[|c r]|]; try discriminate Hrun.
    apply bind_ok_inv in Hrun as ([[d3 m3] s3] & w1 & Hload & Hrun).
    injection Hrun as _ _ <- _.
    now rewrite (load_image_source _ _ _ _ _ _ _ Hbase Hload Hs). }
  intros [[d2 m2] source2] Hsource2. cbn [snd] in Hsource2.
  apply reads_from_bind; [apply reads_from_lift|]. intros final_prompt.
  apply reads_from_generate_cache_key.
  - intros Hs. split; [exact Hs|]. left. now apply Hsource.
  - intros s -> Hs. split; [exact Hs|]. right. now apply Hsource2.
Qed.

(** C1, with the guard of the code. When the service is available (the API
    key is set) and the cache key of a request names an existing file of the
    video directory, [generate_video_from_image] returns the cached
    descriptor ([fromCache] true, status [completed], the path of the file
    and its URL) and makes no submission. A second call with the same
    inputs returns the same descriptor, again without a submission, when
    the images that are URLs are served as before; the base path is a path
    as [pathlib] builds it. *)
Theorem cached_request_returns_descriptor (self : Generator.t)
    (image_path prompt aspect_ratio : string) (silent_video : bool)
    (second_image_path : option string) (auto_reference_images : bool)
    (w w1 : World) (key : string) :
  Generator.is_available self = true ->
  request_key self image_path prompt aspect_ratio silent_video second_image_path
    auto_reference_images w = (Ok key, w1) ->
  is_Some (fs w !! video_file self key) ->
  let cached := cached_descriptor self key in
  Generator.generate_video_from_image self image_path prompt aspect_ratio silent_video
    second_image_path auto_reference_images w
  = (Ok (Generator.FromCache cached), w1)
  /\ posts (trace w1) = posts (trace w)
  /\ (well_formed (Generator.base_path self) = true ->
      sources_as_before w image_path second_image_path ->
      exists w2,
        Generator.generate_video_from_image self image_path prompt aspect_ratio
          silent_video second_image_path auto_reference_images w1
        = (Ok (Generator.FromCache cached), w2)
        /\ posts (trace w2) = posts (trace w)).
Proof.
  intros Havail Hkey Hfile cached.
  pose proof (reads_only_request_key self image_path prompt aspect_ratio silent_video
                second_image_path auto_reference_images) as Hro.
  destruct (Hro w) as ([Hfs Hrem] & Hposts & _).
  rewrite Hkey in Hfs, Hrem, Hposts. cbn [fst snd] in *.
  split; [|split].
  - apply generate_video_cache_hit; [assumption..|]. now rewrite <- Hfs.
  - exact Hposts.
  - intros Hbase Hsources.
    destruct (reads_from_request_key self image_path prompt aspect_ratio silent_video
                second_image_path auto_reference_images Hbase w)
      as (_ & [h Hh] & Hsame).
    rewrite Hkey in Hh, Hsame. cbn [fst snd] in *.
    specialize (Hsame (trace w) w1 (conj Hfs Hrem)).
    destruct (Hro w1) as ([Hfs1 Hrem1] & Hposts1 & _).
    destruct (request_key self image_path prompt aspect_ratio silent_video
                second_image_path auto_reference_images w1) as [r2 w2] eqn:Hkey1.
    cbn [fst snd] in *.
    rewrite Hsame in Hkey1.
    + exists w2. split; [|congruence].
      eapply generate_video_cache_hit; [assumption | exact Hkey1|].
      now rewrite <- Hfs1, <- Hfs.
    + exists []. now rewrite app_nil_r.
    + eauto.
    + intros url [Hurl Hin]. now apply Hsources.
Qed.

End SecondCall.

(** * Examples *)
Section Examples.

Local Abbreviation enhanced_zoom :=
  "Context: You have two images - 'a' (image1/first image) and 'b' (image2/second image). zoom in".

(** The spec's scenario: [a.jpg] is 32 bytes of 0xFF, the prompt is
    ["zoom in"], the aspect ratio ["16:9"], and there is no second image. *)
Lemma generate_cache_key_single_image_scenario :
  fst (Generator.generate_cache_key (H:=Sample.lib) Sample.generator
         "/var/www/pub/media/a.jpg" "zoom in" "16:9" None Sample.world)
  = Ok (MD5.hexdigest
          (PyStr.encode (MD5.hexdigest Sample.a_jpg +:+ ":" +:+ "" +:+ ":" +:+ "zoom in"
                         +:+ ":" +:+ "16:9"))).
Proof.
  apply (generate_cache_key_single_image (H:=Sample.lib) Sample.generator Sample.world
           "/var/www/pub/media/a.jpg" "zoom in" "16:9" None Sample.a_jpg).
  - left. reflexivity.
  - vm_compute. reflexivity.
Defined.

Example scenario_key :
  MD5.hexdigest
    (PyStr.encode (MD5.hexdigest Sample.a_jpg +:+ ":" +:+ "" +:+ ":" +:+ "zoom in"
                   +:+ ":" +:+ "16:9"))
  = "68945617fa171e7a02ee24197e3ff85f".
Proof. vm_compute. reflexivity. Qed.

(** In the scenario, the key with the empty second image [empty.png] is
    not the key without a second image. *)
Example scenario_keys_differ :
  fst (Generator.generate_cache_key (H:=Sample.lib) Sample.generator
         "/var/www/pub/media/a.jpg" "zoom in" "16:9"
         (Some "/var/www/pub/media/empty.png") Sample.world)
  <> fst (Generator.generate_cache_key (H:=Sample.lib) Sample.generator
            "/var/www/pub/media/a.jpg" "zoom in" "16:9" None Sample.world).
Proof. vm_compute. discriminate. Qed.

Lemma cached_request_returns_descriptor_scenario :
  let url := "https://cdn.example/a.jpg" in
  let cached :=
    Generator.CachedVideo true
      "https://shop.example/pub/media/video/veo_68945617fa171e7a02ee24197e3ff85f.mp4"
      "/var/www/pub/media/video/veo_68945617fa171e7a02ee24197e3ff85f.mp4"
      "completed" in
  let url_cached :=
    Generator.CachedVideo true
      "https://shop.example/pub/media/video/veo_2e8c547744711241a0d09cad0338a75e.mp4"
      "/var/www/pub/media/video/veo_2e8c547744711241a0d09cad0338a75e.mp4"
      "completed" in
  (exists w1 w2,
     Generator.generate_video_from_image (H:=Sample.lib) Sample.generator "a.jpg" "zoom in"
       "16:9" false None true Sample.world_cached_done
     = (Ok (Generator.FromCache cached), w1)
     /\ Generator.generate_video_from_image (H:=Sample.lib) Sample.generator "a.jpg"
          "zoom in" "16:9" false None true w1
        = (Ok (Generator.FromCache cached), w2)
     /\ posts (trace w2) = [])
  /\ (exists w1 w2,
        Generator.generate_video_from_image (H:=Sample.lib) Sample.generator url "zoom in"
          "16:9" false None true Sample.world_url_cached
        = (Ok (Generator.FromCache url_cached), w1)
        /\ trace w1 = [GET url []; GET url []]
        /\ Generator.generate_video_from_image (H:=Sample.lib) Sample.generator url
             "zoom in" "16:9" false None true w1
           = (Ok (Generator.FromCache url_cached), w2)
        /\ posts (trace w2) = []).
Proof.
  intros url cached url_cached. split.
  - pose (w1 := snd (request_key (H:=Sample.lib) Sample.generator "a.jpg" "zoom in" "16:9"
                       false None true Sample.world_cached_done)).
    destruct (cached_request_returns_descriptor (H:=Sample.lib) Sample.generator
                "a.jpg" "zoom in" "16:9" false None true Sample.world_cached_done w1
                "68945617fa171e7a02ee24197e3ff85f")
      as (Hfirst & _ & Hsecond).
    + reflexivity.
    + vm_compute. reflexivity.
    + vm_compute. eexists. reflexivity.
    + destruct Hsecond as (w2 & Hagain & Hposts).
      * reflexivity.
      * intros u [-> | [=]] Hurl. discriminate Hurl.
      * exists w1, w2. split; [exact Hfirst|]. split; [exact Hagain | exact Hposts].
  - pose (w1 := snd (request_key (H:=Sample.lib) Sample.generator url "zoom in" "16:9"
                       false None true Sample.world_url_cached)).
    destruct (cached_request_returns_descriptor (H:=Sample.lib) Sample.generator
                url "zoom in" "16:9" false None true Sample.world_url_cached w1
                "2e8c547744711241a0d09cad0338a75e")
      as (Hfirst & _ & Hsecond).
    + reflexivity.
    + vm_compute. reflexivity.
    + vm_compute. eexists. reflexivity.
    + destruct Hsecond as (w2 & Hagain & Hposts).
      * reflexivity.
      * intros u [-> | [=]] _ h. reflexivity.
      * exists w1, w2. split; [exact Hfirst|]. split; [reflexivity|].
        split; [exact Hagain | exact Hposts].
Defined.

(** C1 as stated fails: without an API key the call raises, although the
    cache key of the request names an existing video file. *)
Lemma cached_request_unavailable_raises :
  fst (request_key (H:=Sample.lib) Sample.generator_no_key "a.jpg" "zoom in" "16:9" false
         None true Sample.world_cached)
  = Ok "68945617fa171e7a02ee24197e3ff85f"
  /\ fs Sample.world_cached
       !! video_file Sample.generator_no_key "68945617fa171e7a02ee24197e3ff85f"
     = Some (File Sample.a_jpg)
  /\ fst (Generator.generate_video_from_image (H:=Sample.lib) Sample.generator_no_key
            "a.jpg" "zoom in" "16:9" false None true Sample.world_cached)
     = Raise (Exn RuntimeError
                "Gemini video service is not available. Please configure the Gemini API key.").
Proof. vm_compute. repeat split. Qed.

Lemma extract_video_uri_safety_filtered_example :
  Service.extract_video_uri (H:=Sample.lib)
    (JObj [("name", JStr "operations/op1"); ("done", JBool true);
           ("response",
            JObj [("generateVideoResponse",
                   JObj [("raiMediaFilteredCount", JInt 1);
                         ("raiMediaFilteredReasons",
                          JArr [JStr "audio was filtered"; JStr "support code 1"])])])])
  = Raise (Exn RuntimeError
             (Service.safety_message "audio was filtered, support code 1" "1")).
Proof.
  exact (proj1 (proj1 (extract_video_uri_safety_filtered (H:=Sample.lib)
                  [("name", JStr "operations/op1"); ("done", JBool true);
                   ("response",
                    JObj [("generateVideoResponse",
                           JObj [("raiMediaFilteredCount", JInt 1);
                                 ("raiMediaFilteredReasons",
                                  JArr [JStr "audio was filtered"; JStr "support code 1"])])])]
                  [("generateVideoResponse",
                    JObj [("raiMediaFilteredCount", JInt 1);
                          ("raiMediaFilteredReasons",
                           JArr [JStr "audio was filtered"; JStr "support code 1"])])]
                  [("raiMediaFilteredCount", JInt 1);
                   ("raiMediaFilteredReasons",
                    JArr [JStr "audio was filtered"; JStr "support code 1"])]
                  (JArr [JStr "audio was filtered"; JStr "support code 1"])
                  eq_refl eq_refl eq_refl)
                 ["audio was filtered"; "support code 1"] eq_refl)).
Defined.

(** C3 fails on the code when a reason is not a string. The response below
    was filtered, with one reason, the number 1: [", ".join(reasons)] raises
    a [TypeError], and the safety-filter error is not raised, although the
    docstring of [extract_video_uri] announces a [RuntimeError] for a
    filtered operation. The same reason outside a list is put through
    [str] and reported. *)
Theorem extract_video_uri_reasons_not_strings :
  let filtered reasons :=
    JObj [("name", JStr "operations/op1"); ("done", JBool true);
          ("response",
           JObj [("generateVideoResponse",
                  JObj [("raiMediaFilteredReasons", reasons);
                        ("raiMediaFilteredCount", JInt 1)])])] in
  Service.extract_video_uri (H:=Sample.lib) (filtered (JArr [JInt 1]))
  = Raise (Exn TypeError "sequence item 0: expected str instance, int found")
  /\ Service.extract_video_uri (H:=Sample.lib) (filtered (JInt 1))
     = Raise (Exn RuntimeError
                ("Video generation was blocked by safety filters. Reason(s): 1. "
                 +:+ "Filtered count: 1. Suggestions: 1) Simplify your prompt (remove "
                 +:+ "brand names, celebrities, or copyrighted content), 2) If audio is "
                 +:+ "the issue, retry with --silent-video flag or add 'silent video' to "
                 +:+ "your prompt, 3) Check that your image doesn't contain restricted "
                 +:+ "content. You have not been charged for this attempt.")).
Proof. vm_compute. split; reflexivity. Qed.

Lemma poll_never_done_times_out_example :
  fst (Service.poll_operation_status 32 Sample.service "operations/op1"
         Service.default_max_wait_seconds Service.default_poll_interval_seconds
         Sample.world)
  = Raise (Exn RuntimeError "Video generation timeout after 300 seconds").
Proof.
  destruct (poll_never_done_times_out Sample.service "operations/op1"
              Service.default_max_wait_seconds Service.default_poll_interval_seconds
              Sample.world)
    as (w' & Hrun & _).
  - reflexivity.
  - reflexivity.
  - intros h. do 4 eexists. repeat split; try reflexivity. lia.
  - rewrite (Hrun 32%nat) by (vm_compute; lia). reflexivity.
Defined.

Lemma download_video_body_example :
  fst (Service.download_video Sample.service
         "https://generativelanguage.googleapis.com/v1beta/files/f1:download?alt=media"
         Sample.world_video)
  = Ok ["001"; "002"; "003"]%byte.
Proof.
  refine (proj2 (download_video_body Sample.service
                   "https://generativelanguage.googleapis.com/v1beta/files/f1:download?alt=media"
                   Sample.world_video 900
                   (Response 200 "OK"
                      "https://generativelanguage.googleapis.com/v1beta/files/f1:download?alt=media&key=test-key"
                      (Some "video/mp4") ["001"; "002"; "003"]%byte
                      (inl "Expecting value: line 1 column 1 (char 0)")) _) _ _).
  - vm_compute. reflexivity.
  - discriminate.
  - cbn [status_code]. lia.
Defined.



Lemma submit_ignores_empty_second_image_example :
  Service.submit_payload "zoom in" Sample.a_jpg "image/jpeg" "16:9" None None
  = JObj [("instances",
           JArr [JObj [("prompt", JStr "zoom in");
                       ("image",
                        JObj [("bytesBase64Encoded", JStr (Base64.b64encode Sample.a_jpg));
                              ("mimeType", JStr "image/jpeg")])]]);
          ("parameters", JObj [("aspectRatio", JStr "16:9")])].
Proof.
  exact (proj1 (proj2 (submit_ignores_empty_second_image Sample.service "zoom in"
                         Sample.a_jpg "image/jpeg" "16:9" (Some []) (Some "image/png")
                         (or_introl eq_refl)))).
Defined.

Lemma enhance_prompt_idempotent_example :
  Generator._enhance_prompt_with_image_references (H:=Sample.lib) enhanced_zoom "a.jpg"
    (Some "b.png") true
  = Ok enhanced_zoom.
Proof.
  apply (enhance_prompt_idempotent (H:=Sample.lib) "zoom in" "a.jpg" (Some "b.png") true).
  vm_compute. reflexivity.
Defined.

End Examples.

(** * Examples of the further properties *)
Section MoreExamples.

Local Abbreviation key_a := "68945617fa171e7a02ee24197e3ff85f".

Lemma save_video_then_cached_example :
  let saved :=
    snd (Generator.save_video (H:=Sample.lib) (H0:=Sample.disk) Sample.generator
           (JStr "https://example.org/files/v.mp4") "k1" Sample.world_video) in
  fs saved !! "/var/www/pub/media/video/veo_k1.mp4" = Some (File ["001"; "002"; "003"]%byte)
  /\ Generator.get_cached_video Sample.generator "k1" saved
     = (Ok (Some (cached_descriptor Sample.generator "k1")), saved).
Proof.
  intros saved.
  destruct (save_video_then_cached (H:=Sample.lib) (H0:=Sample.disk) Sample.generator
              (JStr "https://example.org/files/v.mp4") "k1" Sample.world_video saved
              "/var/www/pub/media/video/veo_k1.mp4")
    as (_ & _ & Hcached).
  - vm_compute. reflexivity.
  - split; [vm_compute; reflexivity | exact Hcached].
Defined.

Lemma poll_video_operation_result_cached_example :
  let polled :=
    snd (Generator.poll_video_operation (H:=Sample.lib) (H0:=Sample.disk) 3 Sample.generator
           (JStr "operations/op1") 300 10 (Some key_a) Sample.world_complete) in
  Generator.get_cached_video Sample.generator key_a polled
  = (Ok (Some (cached_descriptor Sample.generator key_a)), polled)
  /\ Generator.vr_videoUrl Sample.video_a
     = Generator.videoUrl (cached_descriptor Sample.generator key_a).
Proof.
  intros polled.
  destruct (poll_video_operation_result_cached (H:=Sample.lib) (H0:=Sample.disk) 3 Sample.generator
              (JStr "operations/op1") 300 10 "6" "8945617fa171e7a02ee24197e3ff85f"
              Sample.world_complete polled Sample.video_a)
    as (Hcached & _ & Hurl & _).
  - reflexivity.
  - reflexivity.
  - vm_compute. reflexivity.
  - split; [exact Hcached | exact Hurl].
Defined.

Lemma poll_video_operation_failure_files_example :
  let w := Sample.world_complete in
  let polled :=
    Generator.poll_video_operation (H:=Sample.lib) (H0:=Sample.disk_full) 3
      Sample.generator (JStr "operations/op1") 300 10 (Some "k1") w in
  fs (snd polled) = fs w
  \/ exists operation_data video_uri key data w1 w2 written e,
       Service.poll_operation_status 3 Sample.service "operations/op1" 300 10 w
       = (Ok operation_data, w1)
       /\ Service.extract_video_uri (H:=Sample.lib) operation_data = Ok video_uri
       /\ saved_under (JStr "operations/op1") (Some "k1") = Ok key
       /\ Service.download_video_any (H:=Sample.lib) Sample.service video_uri w1
          = (Ok data, w2)
       /\ write_ends (Disk:=Sample.disk_full) w2 (video_file Sample.generator key) data
          = WriteFails written e
       /\ fst polled = Raise e
       /\ fs (snd polled)
          = <[video_file Sample.generator key := File (take written data)]> (fs w).
Proof.
  intros w polled.
  apply (poll_video_operation_failure_files (H:=Sample.lib) (H0:=Sample.disk_full) 3
           Sample.generator (JStr "operations/op1") 300 10 (Some "k1") w
           (snd polled) (fst polled)).
  - vm_compute. reflexivity.
  - intros v. vm_compute. intros [=].
Defined.

(** The same run, evaluated: the full disk leaves the first byte of the
    video in the file. *)
Example poll_video_operation_on_full_disk :
  let polled :=
    Generator.poll_video_operation (H:=Sample.lib) (H0:=Sample.disk_full) 3
      Sample.generator (JStr "operations/op1") 300 10 (Some "k1") Sample.world_complete in
  fst polled = Raise (Exn OSError "[Errno 28] No space left on device")
  /\ fs (snd polled)
     = <["/var/www/pub/media/video/veo_k1.mp4" := File ["001"%byte]]>
         (fs Sample.world_complete).
Proof. vm_compute. split; reflexivity. Qed.

Lemma poll_operation_status_ends_example :
  fst (Service.poll_operation_status 32 Sample.service "operations/op1"
         Service.default_max_wait_seconds Service.default_poll_interval_seconds
         Sample.world_done)
  <> OutOfFuel.
Proof.
  apply poll_operation_status_ends.
  - reflexivity.
  - intros h req. destruct req; cbn [Sample.world_done remote Sample.remote_done];
      [destruct (2 <=? length h)%nat|]; cbn; lia.
  - vm_compute. lia.
Defined.

Lemma poll_operation_status_returns_done_example :
  let polled :=
    snd (Service.poll_operation_status 5 Sample.service "operations/op1" 300 10
           Sample.world_done) in
  fs polled = fs Sample.world_done /\ posts (trace polled) = posts (trace Sample.world_done).
Proof.
  intros polled.
  refine (proj2 (poll_operation_status_returns_done 5 Sample.service "operations/op1"
                   300 10 Sample.world_done polled Sample.done_response _)).
  vm_compute. reflexivity.
Defined.

Lemma generate_video_submits_on_miss_example :
  fs Sample.world !! video_file Sample.generator key_a = None.
Proof.
  refine (proj2 (proj2 (proj2
            (generate_video_submits_on_miss (H:=Sample.lib) Sample.generator "a.jpg"
               "zoom in" "16:9" false None true Sample.world
               (snd (Generator.generate_video_from_image (H:=Sample.lib) Sample.generator
                       "a.jpg" "zoom in" "16:9" false None true Sample.world))
               (Ok (Generator.Started
                      (Generator.Operation (JStr "operations/op1") key_a (JBool false)
                         "running"))) _)))).
  vm_compute. reflexivity.
Defined.

Lemma url_image_downloaded_twice_example :
  let url := "https://cdn.example/a.jpg" in
  exists d1 first d2 second mime,
    remote Sample.world_complete [] (GET url []) = Reply d1 (inr first)
    /\ remote Sample.world_complete [GET url []] (GET url []) = Reply d2 (inr second)
    /\ trace (snd (Generator.generate_video_from_image (H:=Sample.lib) Sample.generator
                     url "zoom in" "16:9" false None true Sample.world_complete))
       = [GET url []; GET url [];
          POST (Service.submit_endpoint Sample.service)
            (Service.submit_headers Sample.service)
            (Service.submit_payload "zoom in" (content first) mime "16:9" None None)]
    /\ "2e8c547744711241a0d09cad0338a75e"
       = MD5.hexdigest
           (PyStr.encode
              (Generator.cache_data (MD5.hexdigest (content second)) "" "zoom in" "16:9")).
Proof.
  intros url.
  apply (url_image_downloaded_twice (H:=Sample.lib) Sample.generator url "zoom in" "16:9"
           false true Sample.world_complete
           (snd (Generator.generate_video_from_image (H:=Sample.lib) Sample.generator
                   url "zoom in" "16:9" false None true Sample.world_complete))
           (Generator.Operation (JStr "operations/op1") "2e8c547744711241a0d09cad0338a75e"
              (JBool false) "running")).
  - reflexivity.
  - vm_compute. reflexivity.
Defined.

Lemma main_loop_exit_code_example :
  exists report code w',
    Cli.main_loop (H:=Sample.lib) (H0:=Sample.disk) 32 Sample.generator Sample.sync_args
      Sample.world_complete
    = (Ok (report, code), w')
    /\ (code = 0 \/ code = 1)
    /\ (code = 0 <->
        Generator.is_available Sample.generator = true
        /\ exists results,
             Cli.process_images (H:=Sample.lib) (H0:=Sample.disk) 32 Sample.generator
               Sample.sync_args (Cli.image_path Sample.sync_args) [] [] Sample.world_complete
             = (Ok (results, []), w')
             /\ length results = length (Cli.image_path Sample.sync_args)).
Proof.
  apply (main_loop_exit_code (H:=Sample.lib) (H0:=Sample.disk) 32 Sample.generator
           Sample.sync_args Sample.world_complete).
  - intros h req.
    destruct req as [url hs|url hs body];
      cbn [Sample.world_complete remote Sample.remote_complete];
      [destruct (PyStr.contains "/operations/" url)|]; cbn; lia.
  - lia.
Defined.

Lemma missing_image_error_entry_example :
  Cli.process_image (H:=Sample.lib) (H0:=Sample.disk) 3 Sample.generator Sample.sync_args "missing.jpg"
    Sample.world
  = (Ok (inr (JObj [("imagePath", JStr "missing.jpg"); ("success", JBool false);
                    ("error",
                     JStr "Source image not found: Source image not found: missing.jpg")])),
     Sample.world).
Proof.
  apply (missing_image_error_entry (H:=Sample.lib) (H0:=Sample.disk) 3 Sample.generator Sample.sync_args
           "missing.jpg" (PurePath.of_str "/var/www/pub/media/missing.jpg") Sample.world).
  - reflexivity.
  - vm_compute. reflexivity.
  - vm_compute. reflexivity.
Defined.

Lemma load_env_keeps_existing_example :
  (<["BASE_URL" := "https://shop.example/"]> Sample.environment : environ)
    !! "GEMINI_API_KEY" = Some "from-env".
Proof.
  apply (load_env_keeps_existing Sample.env_lines Sample.environment
           (<["BASE_URL" := "https://shop.example/"]> Sample.environment)).
  - vm_compute. reflexivity.
  - vm_compute. reflexivity.
Defined.

Lemma cache_key_is_hex_digest_example : is_hex_digest key_a = true.
Proof.
  refine (proj1 (cache_key_is_hex_digest (H:=Sample.lib) Sample.generator
                   "/var/www/pub/media/a.jpg" "zoom in" "16:9" None Sample.world
                   Sample.world key_a _)).
  vm_compute. reflexivity.
Defined.


Lemma resolve_image_path_media_prefix_example :
  Generator.resolve_image_path Sample.generator "pub/media/a.jpg"
  = Generator.resolve_image_path Sample.generator "a.jpg"
  /\ Generator.resolve_image_path Sample.generator "a.jpg"
     = Some (PurePath.joinpath
               (PurePath.joinpath
                  (PurePath.joinpath (Generator.base_path Sample.generator) "pub") "media")
               "a.jpg").
Proof.
  apply (resolve_image_path_media_prefix Sample.generator "a.jpg"); reflexivity.
Defined.

Lemma poll_video_operation_without_key_example :
  let polled :=
    snd (Generator.poll_video_operation (H:=Sample.lib) (H0:=Sample.disk) 3 Sample.generator
           (JStr "operations/op1") 300 10 None Sample.world_complete) in
  exists s,
    JStr "operations/op1" = JStr s
    /\ let key := List.last (PyStr.split_char "/" s) "" in
       "/var/www/pub/media/video/veo_op1.mp4" = video_file Sample.generator key
       /\ "https://shop.example/pub/media/video/veo_op1.mp4"
          = Generator.videoUrl (cached_descriptor Sample.generator key)
       /\ Generator.get_cached_video Sample.generator key polled
          = (Ok (Some (cached_descriptor Sample.generator key)), polled).
Proof.
  intros polled.
  apply (poll_video_operation_without_key (H:=Sample.lib) (H0:=Sample.disk) 3 Sample.generator
           (JStr "operations/op1") 300 10 None Sample.world_complete polled
           (Generator.VideoResult "https://shop.example/pub/media/video/veo_op1.mp4"
              "/var/www/pub/media/video/veo_op1.mp4"
              (Generator.embed_html "https://shop.example/pub/media/video/veo_op1.mp4")
              "completed")).
  - reflexivity.
  - left. reflexivity.
  - vm_compute. reflexivity.
Defined.

Lemma sync_result_is_cached_example :
  let processed :=
    snd (Cli.process_image (H:=Sample.lib) (H0:=Sample.disk) 3 Sample.generator Sample.sync_args "a.jpg"
           Sample.world_complete) in
  exists key,
    is_hex_digest key = true
    /\ Generator.get_cached_video Sample.generator key processed
       = (Ok (Some (cached_descriptor Sample.generator key)), processed)
    /\ py_getitem (Cli.completed_item Sample.sync_args "a.jpg" Sample.video_a) "videoUrl"
       = Ok (JStr (Generator.videoUrl (cached_descriptor Sample.generator key)))
    /\ py_getitem (Cli.completed_item Sample.sync_args "a.jpg" Sample.video_a) "videoPath"
       = Ok (JStr (Generator.videoPath (cached_descriptor Sample.generator key))).
Proof.
  intros processed.
  apply (sync_result_is_cached (H:=Sample.lib) (H0:=Sample.disk) 3 Sample.generator Sample.sync_args "a.jpg"
           Sample.world_complete processed
           (Cli.completed_item Sample.sync_args "a.jpg" Sample.video_a)).
  - reflexivity.
  - reflexivity.
  - vm_compute. reflexivity.
Defined.

(** The API server on a request with two image paths and [sync] false. *)
Example do_POST_runs_the_command :
  Server.do_POST Sample.handler Sample.server_env
    [("Authorization", "Bearer secret"); ("content-length", "12")] ["123"%byte]
  = (Server.SendJson 200
       [("Content-Type", "application/json"); ("Access-Control-Allow-Origin", "*")]
       (JObj [("success", JBool true); ("data", JObj [])]),
     [["/usr/bin/python3"; "/srv/pygento/agento_video.py"; "-ip"; "a.jpg"; "-ip"; "b.png";
       "-p"; "zoom in"; "--api-key"; "gemini-key"]]).
Proof. vm_compute. reflexivity. Qed.

(** A run of the loop of [main] over three image paths, one of them
    missing: two results, one error, exit code 1. *)
Example main_loop_three_images :
  let a :=
    Cli.Args ["a.jpg"; "missing.jpg"; "pub/media/b.png"] None "zoom in" false "16:9" false
      true in
  exists results error,
    fst (Cli.main_loop (H:=Sample.lib) (H0:=Sample.disk) 3 Sample.generator a Sample.world_complete)
    = Ok (JObj [("success", JBool false); ("total", JInt 3); ("succeeded", JInt 2);
                ("failed", JInt 1); ("results", JArr results); ("errors", JArr [error])],
          1)
    /\ length results = 2%nat.
Proof. vm_compute. eexists _, _. split; reflexivity. Qed.

End MoreExamples.
